(** * Hospital management system: the OPD visit store and its priority queue

    A shallow embedding of [utils/file_io.py] (FileIOManager without
    [backup_data], and the managers of patients, appointments, doctors and
    visits) and of the OPD window of [ui/opd_ui.py] (the quick check-in, the
    data of the visit form, the actions that set a status, [delete_visit],
    [refresh_queue] and [load_priority_queue]), with the properties the
    specification states about them and further properties of the code.

    Conventions of the embedding.
    - A Python [str] is a [string]; one [ascii] stands for one code point, so
      the model covers text whose code points are below 256.  Equality,
      [len], slicing and the lexicographic order of [str] are then exactly
      those of [string].
    - A record is a [Dict[str, str]]: every value the application stores
      comes from a Tk [StringVar], a text widget, [strftime] or
      [generate_id], so records are finite maps from strings to strings, and
      a store file that decodes is a list of such records, as the
      annotation [List[Dict[str, Any]]] of [load_data] says.  A record need
      not have an ['id']: the source looks it up with ['id' in item],
      [v.get('id')] and [visit['id']], and each is modelled as written.
    - Effects are explicit: the data directory is a value of type [disk]
      that the managers thread through, exceptions are results, and every
      reading of the clock is an argument. *)

From Stdlib Require Import ZArith String Ascii List Lia Permutation Sorted.
From stdpp Require Import base option list gmap strings fin_maps.

Local Open Scope string_scope.
Local Open Scope Z_scope.
Local Open Scope list_scope.

(** ** Python library functions used by the source *)

Module Py.

(** Characters. *)

Definition code (c : ascii) : Z := Z.of_N (N_of_ascii c).

Definition is_digit (c : ascii) : bool := (48 <=? code c) && (code c <=? 57).

Definition digit_value (c : ascii) : Z := code c - 48.

Definition digit_char (d : Z) : ascii := ascii_of_N (Z.to_N (48 + d)).

(** White space that [int()] skips around a number: the ASCII white space
    (tab, line feed, vertical tab, form feed, carriage return, space) and,
    below 256, the non-ASCII spaces U+0085 and U+00A0. *)
Definition int_space (c : ascii) : bool :=
  ((9 <=? code c) && (code c <=? 13)) || (code c =? 32)
  || (code c =? 133) || (code c =? 160).

(** White space in the sense of [str.isspace] and of [\s] in a regular
    expression on [str]: the above and the separators U+001C..U+001F. *)
Definition is_space (c : ascii) : bool :=
  int_space c || ((28 <=? code c) && (code c <=? 31)).

Fixpoint drop_while {A} (p : A -> bool) (l : list A) : list A :=
  match l with
  | [] => []
  | x :: l' => if p x then drop_while p l' else l
  end.

Definition strip_with (p : ascii -> bool) (l : list ascii) : list ascii :=
  rev (drop_while p (rev (drop_while p l))).

(** [int(s)] in base 10.  After the surrounding white space is removed the
    text is an optional sign and a run of digits in which single underscores
    may separate digits; anything else raises [ValueError], here [None]. *)
Fixpoint int_digits (acc : Z) (cs : list ascii) : option Z :=
  match cs with
  | [] => Some acc
  | c :: r =>
      if is_digit c then int_digits (10 * acc + digit_value c) r
      else if Ascii.eqb c "_" then
        match r with
        | d :: r' =>
            if is_digit d then int_digits (10 * acc + digit_value d) r'
            else None
        | [] => None
        end
      else None
  end.

Definition int_unsigned (cs : list ascii) : option Z :=
  match cs with
  | c :: r => if is_digit c then int_digits (digit_value c) r else None
  | [] => None
  end.

Definition int (s : string) : option Z :=
  match strip_with int_space (list_ascii_of_string s) with
  | c :: r =>
      if Ascii.eqb c "-" then Z.opp <$> int_unsigned r
      else if Ascii.eqb c "+" then int_unsigned r
      else int_unsigned (c :: r)
  | [] => None
  end.

(** Decimal digits of a natural number, most significant first.  [fuel]
    bounds the number of digits; [Z.log2] of the number is enough. *)
Fixpoint digits_fuel (fuel : nat) (n : Z) (acc : list ascii) : list ascii :=
  let acc' := digit_char (n mod 10) :: acc in
  match fuel with
  | O => acc'
  | S fuel' => if n <? 10 then acc' else digits_fuel fuel' (n / 10) acc'
  end.

Definition digits (n : Z) : list ascii :=
  digits_fuel (Z.to_nat (Z.log2 n)) n [].

(** [str(n)] for an integer. *)
Definition str (n : Z) : string :=
  if n <? 0 then String "-" (string_of_list_ascii (digits (- n)))
  else string_of_list_ascii (digits n).

(** [f"{n:0{w}d}"]: the sign, then the digits padded with zeros on the left
    so that sign and digits fill at least [w] characters. *)
Definition zero_pad (w : nat) (ds : list ascii) : list ascii :=
  (repeat "0"%char (w - length ds) ++ ds)%list.

Definition format_0d (w : nat) (n : Z) : string :=
  if n <? 0 then String "-" (string_of_list_ascii (zero_pad (w - 1) (digits (- n))))
  else string_of_list_ascii (zero_pad w (digits n)).

(** [s.startswith(p)] and [s[len(p):]]. *)
Definition startswith (s p : string) : bool := String.prefix p s.

Definition drop_prefix (n : nat) (s : string) : string :=
  String.substring n (String.length s - n) s.

(** [s[:n]]. *)
Definition take_prefix (n : nat) (s : string) : string :=
  String.substring 0 n s.

(** Order of [str]: lexicographic on code points. *)
Definition str_lt (a b : string) : bool := String.ltb a b.

(** [s.lower()] on the text of the model, code points below U+0100: there
    the letters A..Z and U+00C0..U+00DE, the multiplication sign U+00D7
    apart, move up by 32, each on its own.  (Beyond U+00FF [lower] is not
    letter by letter: a capital sigma lowers by its place in the word.) *)
Definition lower_char (c : ascii) : ascii :=
  if ((65 <=? code c) && (code c <=? 90))
     || ((192 <=? code c) && (code c <=? 222) && negb (code c =? 215))
  then ascii_of_N (Z.to_N (code c + 32))
  else c.

Fixpoint lower (s : string) : string :=
  match s with
  | EmptyString => EmptyString
  | String c s' => String (lower_char c) (lower s')
  end.

(** [sub in s] *)
Fixpoint contains (sub s : string) : bool :=
  String.prefix sub s
  || match s with
     | EmptyString => false
     | String _ s' => contains sub s'
     end.

(** [s.strip()] *)
Definition strip (s : string) : string :=
  string_of_list_ascii (strip_with is_space (list_ascii_of_string s)).

(** [s.split(sep)] for a separator that is not empty: the text is read from
    the left, [cur] holds the characters of the piece being read, last
    first, and [skip] counts the characters of a separator still to pass. *)
Fixpoint split_go (sep s : string) (skip : nat) (cur : list ascii) : list string :=
  match s with
  | EmptyString => [string_of_list_ascii (rev cur)]
  | String c s' =>
      match skip with
      | S skip' => split_go sep s' skip' cur
      | O =>
          if String.prefix sep s
          then string_of_list_ascii (rev cur)
               :: split_go sep s' (String.length sep - 1) []
          else split_go sep s' 0 (c :: cur)
      end
  end.

Definition split (s sep : string) : list string := split_go sep s 0 [].

End Py.

(** ** [datetime]: the clock, [strftime], [strptime] and subtraction *)

Module Datetime.

(** A naive local [datetime], as [datetime.now()] returns it. *)
Record datetime := Datetime {
  year : Z; month : Z; day : Z;
  hour : Z; minute : Z; second : Z; microsecond : Z
}.

Definition is_leap (y : Z) : bool :=
  (y mod 4 =? 0) && (negb (y mod 100 =? 0) || (y mod 400 =? 0)).

Definition days_before_year (y : Z) : Z :=
  let y' := y - 1 in y' * 365 + y' / 4 - y' / 100 + y' / 400.

Definition days_in_month (y m : Z) : Z :=
  if (m =? 2) && is_leap y then 29
  else nth (Z.to_nat m) [-1; 31; 28; 31; 30; 31; 30; 31; 31; 30; 31; 30; 31] 0.

Definition days_before_month (y m : Z) : Z :=
  nth (Z.to_nat m) [-1; 0; 31; 59; 90; 120; 151; 181; 212; 243; 273; 304; 334] 0
  + (if (2 <? m) && is_leap y then 1 else 0).

(** [date.toordinal()]: 1 January of year 1 is day 1. *)
Definition ymd2ord (y m d : Z) : Z :=
  days_before_year y + days_before_month y m + d.

(** Microseconds since the start of day 1. *)
Definition timestamp_us (t : datetime) : Z :=
  ((ymd2ord (year t) (month t) (day t) * 86400
    + hour t * 3600 + minute t * 60 + second t) * 1000000) + microsecond t.

(** [(a - b)] as a [timedelta], in microseconds. *)
Definition sub_us (a b : datetime) : Z := timestamp_us a - timestamp_us b.

(** [int((a - b).total_seconds() / 60)].  [total_seconds] divides the exact
    number of microseconds by 10**6 in floating point and the source divides
    by 60 again; [int] then drops the fraction, towards zero.  The two
    roundings cannot move the quotient across an integer while the two
    instants are less than a century apart, so the integer quotient below is
    the value the source computes. *)
Definition minutes_between (a b : datetime) : Z := Z.quot (sub_us a b) 60000000.

(** [t.strftime("%Y-%m-%d")] and [t.strftime("%H:%M:%S")] (glibc prints the
    year without padding; from year 1000 on it has four digits anyway). *)
Definition strftime_date (t : datetime) : string :=
  Py.str (year t) +:+ "-" +:+ Py.format_0d 2 (month t) +:+ "-" +:+ Py.format_0d 2 (day t).

Definition strftime_time (t : datetime) : string :=
  Py.format_0d 2 (hour t) +:+ ":" +:+ Py.format_0d 2 (minute t) +:+ ":" +:+ Py.format_0d 2 (second t).

(** *** [datetime.strptime(s, "%Y-%m-%d %H:%M:%S")]

    [_strptime] turns the format into the regular expression
    [(\d\d\d\d)-(1[0-2]|0[1-9]|[1-9])-(3[0-1]|[1-2]\d|0[1-9]|[1-9]| [1-9])\s+(2[0-3]|[0-1]\d|\d):([0-5]\d|\d):(6[0-1]|[0-5]\d|\d)]
    which must match the whole text.  A field parser below returns the number
    read and the rest of the text.  Each field but the last is followed by a
    character that is not a digit, so taking the first alternative that
    matches is what the backtracking matcher ends up with. *)

Definition parser := list ascii -> option (Z * list ascii).

Definition between (lo hi : Z) (c : ascii) : bool :=
  (lo <=? Py.digit_value c) && (Py.digit_value c <=? hi) && Py.is_digit c.

(** Two digits, the first within [a1..b1], the second within [a2..b2]. *)
Definition two (a1 b1 a2 b2 : Z) : parser := fun cs =>
  match cs with
  | c1 :: c2 :: r =>
      if between a1 b1 c1 && between a2 b2 c2
      then Some (10 * Py.digit_value c1 + Py.digit_value c2, r) else None
  | _ => None
  end.

Definition one (a b : Z) : parser := fun cs =>
  match cs with
  | c :: r => if between a b c then Some (Py.digit_value c, r) else None
  | _ => None
  end.

(** A space and one digit: the last alternative of [%d]. *)
Definition space_one (a b : Z) : parser := fun cs =>
  match cs with
  | c0 :: c :: r =>
      if Ascii.eqb c0 " " && between a b c then Some (Py.digit_value c, r) else None
  | _ => None
  end.

Fixpoint first_of (alts : list parser) : parser := fun cs =>
  match alts with
  | [] => None
  | p :: alts' => match p cs with Some r => Some r | None => first_of alts' cs end
  end.

Definition four_digits : parser := fun cs =>
  match cs with
  | c1 :: c2 :: c3 :: c4 :: r =>
      if Py.is_digit c1 && Py.is_digit c2 && Py.is_digit c3 && Py.is_digit c4
      then Some (1000 * Py.digit_value c1 + 100 * Py.digit_value c2
                 + 10 * Py.digit_value c3 + Py.digit_value c4, r)
      else None
  | _ => None
  end.

Definition field_m : parser := first_of [two 1 1 0 2; two 0 0 1 9; one 1 9].
Definition field_d : parser :=
  first_of [two 3 3 0 1; two 1 2 0 9; two 0 0 1 9; one 1 9; space_one 1 9].
Definition field_H : parser := first_of [two 2 2 0 3; two 0 1 0 9; one 0 9].
Definition field_M : parser := first_of [two 0 5 0 9; one 0 9].
Definition field_S : parser := first_of [two 6 6 0 1; two 0 5 0 9; one 0 9].

Definition literal (c : ascii) (cs : list ascii) : option (list ascii) :=
  match cs with
  | c' :: r => if Ascii.eqb c c' then Some r else None
  | [] => None
  end.

(** [\s+] *)
Definition spaces1 (cs : list ascii) : option (list ascii) :=
  match cs with
  | c :: r => if Py.is_space c then Some (Py.drop_while Py.is_space r) else None
  | [] => None
  end.

(** The result is [None] where [strptime] raises [ValueError]: the text does
    not match, text remains after the match, or the [datetime] constructor
    rejects the fields (year 0, a day the month does not have, second 60 or
    61). *)
Definition strptime (s : string) : option datetime :=
  '(y, r) ← four_digits (list_ascii_of_string s);
  r ← literal "-" r;
  '(m, r) ← field_m r;
  r ← literal "-" r;
  '(d, r) ← field_d r;
  r ← spaces1 r;
  '(hh, r) ← field_H r;
  r ← literal ":" r;
  '(mi, r) ← field_M r;
  r ← literal ":" r;
  '(ss, r) ← field_S r;
  match r with
  | [] =>
      if (1 <=? y) && (d <=? days_in_month y m) && (ss <=? 59)
      then Some (Datetime y m d hh mi ss 0) else None
  | _ :: _ => None
  end.

End Datetime.

Export Datetime.

(** ** The data directory *)

(** A record of a store: a [Dict[str, str]]. *)
Abbreviation record := (gmap string string).

(** The exceptions the modelled code can meet.  [OSError] stands for
    [IOError] and all its subclasses ([FileNotFoundError],
    [PermissionError], ...); [JSONDecodeError] and [UnicodeDecodeError] are
    two unrelated subclasses of [ValueError]. *)
Inductive exn :=
| JSONDecodeError
| UnicodeDecodeError
| OSError
| KeyError (key : string).

Inductive outcome (A : Type) :=
| Return (a : A)
| Raise (e : exn).
Arguments Return {A} a.
Arguments Raise {A} e.

(** What a path of the data directory holds, seen through
    [open(path, 'r', encoding='utf-8')] and [json.load]. *)
Inductive file :=
| Stored (data : list record)  (* UTF-8 text of a JSON array of objects *)
| Malformed                    (* UTF-8 text that is not a JSON document *)
| Undecodable                  (* bytes that are not UTF-8 text *)
| Unreadable.                  (* the path exists and cannot be opened for reading *)

(** The directory: the files, the paths that cannot be opened for writing,
    and the journal of the writes performed, the latest first.  A file
    changes only through a write, so an unchanged journal means that no byte
    of any file was touched.  A file is named by the text of its path: two
    texts that the operating system resolves to one file ([x.json] and
    [./x.json]) are two entries here, so two files are told apart by their
    names only for the file names of the managers ([store_files] below). *)
Record disk := Disk {
  files : gmap string file;
  locked : gset string;
  journal : list (string * list record)
}.

(** Code that reads and writes the directory and may raise. *)
Definition M (A : Type) : Type := disk -> outcome A * disk.

Definition ret {A} (a : A) : M A := fun d => (Return a, d).

Definition bind {A B} (m : M A) (k : A -> M B) : M B := fun d =>
  match m d with
  | (Return a, d') => k a d'
  | (Raise e, d') => (Raise e, d')
  end.

(** [try: m except E: handler] for the exceptions [E] selects. *)
Definition try_except {A} (m : M A) (E : exn -> bool) (handler : exn -> M A) : M A :=
  fun d =>
    match m d with
    | (Raise e, d') => if E e then handler e d' else (Raise e, d')
    | r => r
    end.

Notation "'do' x <- m ; k" := (bind m (fun x => k))
  (at level 10, x name, m at level 100, k at level 200).

Definition lift {A} (o : outcome A) : M A := fun d => (o, d).

(** [os.path.join(a, b)]: an absolute [b] replaces [a]. *)
Definition path_join (a b : string) : string :=
  if Py.startswith b "/" then b else a +:+ "/" +:+ b.

Definition path_exists (path : string) : M bool :=
  fun d => (Return (bool_decide (is_Some (files d !! path))), d).

(** [with open(path, 'r', encoding='utf-8') as file: return json.load(file)] *)
Definition open_json_load (path : string) : M (list record) := fun d =>
  (match files d !! path with
   | Some (Stored data) => Return data
   | Some Malformed => Raise JSONDecodeError
   | Some Undecodable => Raise UnicodeDecodeError
   | Some Unreadable | None => Raise OSError
   end, d).

(** [with open(path, 'w', encoding='utf-8') as file: json.dump(data, file, ...)].
    The model has the failure of [open] only, which leaves the file as it
    was; a write that breaks off after [open] has emptied the file is not
    modelled. *)
Definition open_json_dump (path : string) (data : list record) : M unit := fun d =>
  if bool_decide (path ∈ locked d) then (Raise OSError, d)
  else (Return tt,
        {| files := <[path := Stored data]> (files d);
           locked := locked d;
           journal := (path, data) :: journal d |}).

(** ** FileIOManager *)

Module FileIOManager.

Definition data_dir : string := "data".

(** [except (json.JSONDecodeError, IOError)] *)
Definition load_errors (e : exn) : bool :=
  match e with
  | JSONDecodeError | OSError => true
  | _ => false
  end.

Definition load_data (filename : string) : M (list record) :=
  try_except
    (let file_path := path_join data_dir filename in
     do found <- path_exists file_path ;
     if found : bool then open_json_load file_path else ret [])
    load_errors
    (fun _ => ret []).

(** [except IOError] *)
Definition save_errors (e : exn) : bool :=
  match e with
  | OSError => true
  | _ => false
  end.

Definition save_data (filename : string) (data : list record) : M bool :=
  try_except
    (let file_path := path_join data_dir filename in
     do u <- open_json_dump file_path data ;
     ret true)
    save_errors
    (fun _ => ret false).

(** The body of the loop of [generate_id]: the next value of [max_id]. *)
Definition generate_id_step (prefix : string) (max_id : Z) (item : record) : Z :=
  match item !! "id" with
  | Some id_str =>
      let numeric_part :=
        if negb (String.eqb prefix "") && Py.startswith id_str prefix
        then Py.drop_prefix (String.length prefix) id_str
        else id_str in
      match Py.int numeric_part with
      | Some numeric_id => Z.max max_id numeric_id
      | None => max_id
      end
  | None => max_id
  end.

Definition generate_id (data : list record) (prefix : string) : string :=
  match data with
  | [] => prefix +:+ "001"
  | _ :: _ =>
      let max_id := foldl (generate_id_step prefix) 0 data in
      prefix +:+ Py.format_0d 3 (max_id + 1)
  end.

End FileIOManager.

(** ** PatientManager (the part the specification of [delete] refers to) *)

Module PatientManager.

Definition filename : string := "patients.json".

Definition get_all_patients : M (list record) := FileIOManager.load_data filename.

(** [[p for p in patients if p['id'] != patient_id]] *)
Fixpoint without_id (patient_id : string) (patients : list record) : outcome (list record) :=
  match patients with
  | [] => Return []
  | p :: rest =>
      match p !! "id" with
      | None => Raise (KeyError "id")
      | Some i =>
          match without_id patient_id rest with
          | Return rest' => Return (if bool_decide (i ≠ patient_id) then p :: rest' else rest')
          | Raise e => Raise e
          end
      end
  end.

Definition delete_patient (patient_id : string) : M bool :=
  do patients <- get_all_patients ;
  do patients <- lift (without_id patient_id patients) ;
  FileIOManager.save_data filename patients.


Definition add_patient (patient_data : record) (now : datetime) : M bool :=
  do patients <- get_all_patients ;
  let patient_data := <["id" := FileIOManager.generate_id patients "PAT"]> patient_data in
  let patient_data := <["registration_date" := strftime_date now]> patient_data in
  let patients := patients ++ [patient_data] in
  FileIOManager.save_data filename patients.

(** The search of [update_patient]: the index of the first patient whose
    ['id'] is [patient_id]. *)
Fixpoint find_patient (patient_id : string) (i : nat) (patients : list record)
  : outcome (option nat) :=
  match patients with
  | [] => Return None
  | patient :: rest =>
      match patient !! "id" with
      | None => Raise (KeyError "id")
      | Some id_str =>
          if bool_decide (id_str = patient_id) then Return (Some i)
          else find_patient patient_id (S i) rest
      end
  end.

Definition update_patient (patient_id : string) (updated_data : record) : M bool :=
  do patients <- get_all_patients ;
  do found <- lift (find_patient patient_id 0 patients) ;
  match found with
  | Some i =>
      FileIOManager.save_data filename
        (alter (fun patient : record => updated_data ∪ patient) i patients)
  | None => ret false
  end.

Definition search_patients (query : string) : M (list record) :=
  do patients <- get_all_patients ;
  let query := Py.lower query in
  ret (filter (fun patient : record =>
                 Py.contains query (Py.lower (default "" (patient !! "name")))
                 || Py.contains query (Py.lower (default "" (patient !! "id")))
                 || Py.contains query (Py.lower (default "" (patient !! "phone")))
                 = true)
         patients).

(** The loop of [get_patient_by_id]. *)
Fixpoint first_patient (patient_id : string) (patients : list record)
  : outcome (option record) :=
  match patients with
  | [] => Return None
  | patient :: rest =>
      match patient !! "id" with
      | None => Raise (KeyError "id")
      | Some id_str =>
          if bool_decide (id_str = patient_id) then Return (Some patient)
          else first_patient patient_id rest
      end
  end.

Definition get_patient_by_id (patient_id : string) : M (option record) :=
  do patients <- get_all_patients ;
  lift (first_patient patient_id patients).

End PatientManager.

(** ** OPDManager *)

Module OPDManager.

Definition filename : string := "opd_visits.json".

Definition get_all_visits : M (list record) := FileIOManager.load_data filename.

(** [now_date] and [now_time] are the two readings of [datetime.now()].
    The method returns what [save_data] returns.  (It also changes the
    caller's dictionary in place; the record written to the store is that
    dictionary.) *)
Definition add_visit (visit_data : record) (now_date now_time : datetime) : M bool :=
  do visits <- get_all_visits ;
  let visit_data := <["id" := FileIOManager.generate_id visits "OPD"]> visit_data in
  let visit_data := <["visit_date" := strftime_date now_date]> visit_data in
  let visit_data := <["visit_time" := strftime_time now_time]> visit_data in
  let visits := (visits ++ [visit_data])%list in
  FileIOManager.save_data filename visits.

(** The search of [update_visit]: the index of the first record whose
    ['id'] is [visit_id]; [visit['id']] raises [KeyError] on a record
    without that key. *)
Fixpoint find_visit (visit_id : string) (i : nat) (visits : list record)
  : outcome (option nat) :=
  match visits with
  | [] => Return None
  | visit :: rest =>
      match visit !! "id" with
      | None => Raise (KeyError "id")
      | Some id_str =>
          if bool_decide (id_str = visit_id) then Return (Some i)
          else find_visit visit_id (S i) rest
      end
  end.

(** [d.update(other)]: the keys of [other] win. *)
Definition dict_update (d other : record) : record := other ∪ d.

Definition update_visit (visit_id : string) (updated_data : record) : M bool :=
  do visits <- get_all_visits ;
  do found <- lift (find_visit visit_id 0 visits) ;
  match found with
  | Some i =>
      FileIOManager.save_data filename
        (alter (fun visit => dict_update visit updated_data) i visits)
  | None => ret false
  end.

Definition get_visits_by_patient (patient_id : string) : M (list record) :=
  do visits <- get_all_visits ;
  ret (filter (fun v => v !! "patient_id" = Some patient_id) visits).

Definition get_todays_visits (now : datetime) : M (list record) :=
  let today := strftime_date now in
  do visits <- get_all_visits ;
  ret (filter (fun v => v !! "visit_date" = Some today) visits).

End OPDManager.

(** ** AppointmentManager and DoctorManager

    Their loops are, name for name, those of [update_visit] and of
    [delete_patient], which are used here. *)

Module AppointmentManager.

Definition filename : string := "appointments.json".

Definition get_all_appointments : M (list record) := FileIOManager.load_data filename.

Definition add_appointment (appointment_data : record) (now : datetime) : M bool :=
  do appointments <- get_all_appointments ;
  let appointment_data :=
    <["id" := FileIOManager.generate_id appointments "APT"]> appointment_data in
  let appointment_data :=
    <["created_date" := strftime_date now +:+ " " +:+ strftime_time now]>
      appointment_data in
  let appointments := appointments ++ [appointment_data] in
  FileIOManager.save_data filename appointments.

Definition update_appointment (appointment_id : string) (updated_data : record) : M bool :=
  do appointments <- get_all_appointments ;
  do found <- lift (OPDManager.find_visit appointment_id 0 appointments) ;
  match found with
  | Some i =>
      FileIOManager.save_data filename
        (alter (fun appointment => OPDManager.dict_update appointment updated_data)
           i appointments)
  | None => ret false
  end.

Definition delete_appointment (appointment_id : string) : M bool :=
  do appointments <- get_all_appointments ;
  do appointments <- lift (PatientManager.without_id appointment_id appointments) ;
  FileIOManager.save_data filename appointments.

Definition get_appointments_by_date (date : string) : M (list record) :=
  do appointments <- get_all_appointments ;
  ret (filter (fun a : record => a !! "appointment_date" = Some date) appointments).

Definition get_appointments_by_patient (patient_id : string) : M (list record) :=
  do appointments <- get_all_appointments ;
  ret (filter (fun a : record => a !! "patient_id" = Some patient_id) appointments).

End AppointmentManager.

Module DoctorManager.

Definition filename : string := "doctors.json".

Definition get_all_doctors : M (list record) := FileIOManager.load_data filename.

Definition add_doctor (doctor_data : record) : M bool :=
  do doctors <- get_all_doctors ;
  let doctor_data := <["id" := FileIOManager.generate_id doctors "DOC"]> doctor_data in
  let doctors := doctors ++ [doctor_data] in
  FileIOManager.save_data filename doctors.

Definition update_doctor (doctor_id : string) (updated_data : record) : M bool :=
  do doctors <- get_all_doctors ;
  do found <- lift (OPDManager.find_visit doctor_id 0 doctors) ;
  match found with
  | Some i =>
      FileIOManager.save_data filename
        (alter (fun doctor => OPDManager.dict_update doctor updated_data) i doctors)
  | None => ret false
  end.

Definition delete_doctor (doctor_id : string) : M bool :=
  do doctors <- get_all_doctors ;
  do doctors <- lift (PatientManager.without_id doctor_id doctors) ;
  FileIOManager.save_data filename doctors.

End DoctorManager.

(** ** OPDUI: deleting a visit and the priority queue *)

Module OPDUI.

(** A message box: its text, or the context and the exception of the
    [except Exception as e] handlers. *)
Inductive dialog :=
| InfoBox (message : string)
| ErrorBox (message : string)
| ExceptionBox (context : string) (e : exn).

Definition any_exception (e : exn) : bool := true.

(** [delete_visit] once a visit is selected and the user has confirmed; the
    result is the message box shown.  The redrawing of the lists that follows
    a successful deletion does not touch the store and is left out. *)
Definition delete_visit (visit_id : string) : M dialog :=
  try_except
    (do visits <- OPDManager.get_all_visits ;
     let visits := filter (fun v : record => v !! "id" ≠ Some visit_id) visits in
     do saved <- FileIOManager.save_data OPDManager.filename visits ;
     if saved : bool then ret (InfoBox "Visit deleted successfully!")
     else ret (ErrorBox "Failed to delete visit!"))
    any_exception
    (fun e => ret (ExceptionBox "Error deleting visit: " e)).

(** [list.sort(key=key)]: a stable sort that compares keys with [<].  The
    result of a stable sort is unique (lemma [stable_sort_unique] below), so
    this insertion sort returns the very list that Python's sort returns. *)
Fixpoint insert_by {A K} (lt : K -> K -> bool) (key : A -> K) (x : A) (l : list A)
  : list A :=
  match l with
  | [] => [x]
  | y :: l' => if lt (key y) (key x) then y :: insert_by lt key x l' else x :: l
  end.

Definition list_sort {A K} (lt : K -> K -> bool) (key : A -> K) (l : list A) : list A :=
  foldr (insert_by lt key) [] l.

(** [<] on pairs of an integer and a [str]. *)
Definition tuple_lt (a b : Z * string) : bool :=
  if a.1 =? b.1 then Py.str_lt a.2 b.2 else a.1 <? b.1.

Definition priority_order : gmap string Z :=
  <["Emergency" := 1]> (<["High" := 2]> (<["Normal" := 3]> (<["Low" := 4]> ∅))).

(** [lambda x: (priority_order.get(x.get('priority', 'Normal'), 3), x.get('visit_time', ''))] *)
Definition sort_key (x : record) : Z * string :=
  (default 3 (priority_order !! default "Normal" (x !! "priority")),
   default "" (x !! "visit_time")).

(** [v.get('status') == 'Waiting' and v.get('visit_date') == today] *)
Definition is_waiting (today : string) (v : record) : Prop :=
  v !! "status" = Some "Waiting" ∧ v !! "visit_date" = Some today.

Global Instance is_waiting_dec today v : Decision (is_waiting today v).
Proof. unfold is_waiting. apply _. Defined.

(** The value of [waiting_visits] after the sort. *)
Definition waiting_queue (today : string) (visits : list record) : list record :=
  list_sort tuple_lt sort_key (filter (is_waiting today) visits).

(** A line of the priority tree. *)
Record row := Row {
  position : Z;
  patient : string;
  priority : string;
  complaint : string;
  wait : string;
  visit_id : string
}.

(** The wait shown for a visit; [now] is the reading of the clock made for
    that visit. *)
Definition wait_str (today : string) (visit : record) (now : datetime) : string :=
  let visit_time := default "" (visit !! "visit_time") in
  if negb (String.eqb visit_time "") then
    match strptime (today +:+ " " +:+ visit_time) with
    | Some visit_datetime =>
        let wait_minutes := minutes_between now visit_datetime in
        Py.str wait_minutes +:+ " min"
    | None => "N/A"
    end
  else "N/A".

Definition complaint_cell (visit : record) : string :=
  let text := default "" (visit !! "chief_complaint") in
  if (50 <? String.length text)%nat then Py.take_prefix 50 text +:+ "..." else text.

Definition queue_row (today : string) (position : Z) (visit : record) (now : datetime)
  : row :=
  {| position := position;
     patient := default (default "" (visit !! "patient_id")) (visit !! "patient_name");
     priority := default "" (visit !! "priority");
     complaint := complaint_cell visit;
     wait := wait_str today visit now;
     visit_id := default "" (visit !! "id") |}.

(** [load_priority_queue].  [now_today] is the reading of the clock that
    gives [today]; [now_row i] is the reading made while the visit at index
    [i] of the sorted list is handled.  [tree] is the content of the priority
    tree before the call; the result is its content after the call and the
    error box, if one was shown. *)
Definition load_priority_queue (now_today : datetime) (now_row : nat -> datetime)
    (tree : list row) : M (list row * option dialog) :=
  let tree : list row := [] in
  try_except
    (do visits <- OPDManager.get_all_visits ;
     let today := strftime_date now_today in
     let waiting_visits := filter (is_waiting today) visits in
     let waiting_visits := list_sort tuple_lt sort_key waiting_visits in
     ret ((tree ++ imap (fun i visit =>
                           queue_row today (Z.of_nat i + 1) visit (now_row i))
                        waiting_visits)%list, None))
    any_exception
    (fun e => ret (tree, Some (ExceptionBox "Error loading priority queue: " e))).


(** *** The other actions of the window *)

(** A message box of an action that can also warn. *)
Inductive box :=
| Warning (message : string)
| Box (shown : dialog).

(** [quick_checkin].  [selected_patient] is the text of the selection
    label, [complaint_text] the content of the complaint field and
    [quick_priority] the priority chosen.  As for [delete_visit], the
    redrawing that follows a success is left out. *)
Definition quick_checkin (selected_patient complaint_text quick_priority : string)
    (now_date now_time : datetime) : M box :=
  if bool_decide (selected_patient = "No patient selected")
  then ret (Warning "Please select a patient first!")
  else
    let chief_complaint := Py.strip complaint_text in
    if String.eqb chief_complaint ""
    then ret (Box (ErrorBox "Chief complaint is required!"))
    else
      try_except
        (let patient_id := default "" (head (Py.split selected_patient " - ")) in
         let visit_data : record :=
           <["chief_complaint" := chief_complaint]>
             (<["status" := "Waiting"]>
                (<["priority" := quick_priority]>
                   (<["visit_type" := "OPD Consultation"]>
                      (<["patient_id" := patient_id]> ∅)))) in
         do saved <- OPDManager.add_visit visit_data now_date now_time ;
         if saved : bool then ret (Box (InfoBox "Patient checked in successfully!"))
         else ret (Box (ErrorBox "Failed to check in patient!")))
        any_exception
        (fun e => ret (Box (ExceptionBox "Error during check-in: " e))).

(** [mark_visit_complete], [cancel_visit] (once confirmed) and
    [move_to_inprogress] for the visit selected, without the redrawing. *)
Definition mark_visit_complete (visit_id : string) : M dialog :=
  try_except
    (do updated <- OPDManager.update_visit visit_id (<["status" := "Completed"]> ∅) ;
     if updated : bool then ret (InfoBox "Visit marked as completed!")
     else ret (ErrorBox "Failed to update visit status!"))
    any_exception
    (fun e => ret (ExceptionBox "Error updating visit: " e)).

Definition cancel_visit (visit_id : string) : M dialog :=
  try_except
    (do updated <- OPDManager.update_visit visit_id (<["status" := "Cancelled"]> ∅) ;
     if updated : bool then ret (InfoBox "Visit cancelled successfully!")
     else ret (ErrorBox "Failed to cancel visit!"))
    any_exception
    (fun e => ret (ExceptionBox "Error cancelling visit: " e)).

Definition move_to_inprogress (visit_id : string) : M dialog :=
  try_except
    (do updated <- OPDManager.update_visit visit_id (<["status" := "In Progress"]> ∅) ;
     if updated : bool then ret (InfoBox "Visit moved to in progress!")
     else ret (ErrorBox "Failed to update visit status!"))
    any_exception
    (fun e => ret (ExceptionBox "Error updating visit: " e)).

(** The fields of the visit form: the seven variables of [visit_form_vars]
    and the five text areas, each with the text it holds. *)
Record visit_form := VisitForm {
  patient_id_var : string;
  doctor_id_var : string;
  visit_type_var : string;
  priority_var : string;
  status_var : string;
  followup_date_var : string;
  payment_amount_var : string;
  chief_complaint_text : string;
  diagnosis_text : string;
  treatment_text : string;
  prescription_text : string;
  visit_notes_text : string
}.

(** The value stored for a combo box of [get_visit_form_data]. *)
Definition combo_id (text : string) : string :=
  let value := Py.strip text in
  if negb (String.eqb value "") && Py.contains " - " value
  then default "" (head (Py.split value " - "))
  else value.

(** [data[key] = selection.split(" - ")[1]] when [" - " in selection]. *)
Definition set_name (key selection : string) (data : record) : record :=
  if Py.contains " - " selection
  then match Py.split selection " - " !! 1%nat with
       | Some name => <[key := name]> data
       | None => data
       end
  else data.

Definition get_visit_form_data (form : visit_form) : record :=
  let data : record := ∅ in
  let data := <["patient_id" := combo_id (patient_id_var form)]> data in
  let data := <["doctor_id" := combo_id (doctor_id_var form)]> data in
  let data := <["visit_type" := Py.strip (visit_type_var form)]> data in
  let data := <["priority" := Py.strip (priority_var form)]> data in
  let data := <["status" := Py.strip (status_var form)]> data in
  let data := <["followup_date" := Py.strip (followup_date_var form)]> data in
  let data := <["payment_amount" := Py.strip (payment_amount_var form)]> data in
  let data := set_name "patient_name" (patient_id_var form) data in
  let data := set_name "doctor_name" (doctor_id_var form) data in
  let data := <["chief_complaint" := Py.strip (chief_complaint_text form)]> data in
  let data := <["diagnosis" := Py.strip (diagnosis_text form)]> data in
  let data := <["treatment" := Py.strip (treatment_text form)]> data in
  let data := <["prescription" := Py.strip (prescription_text form)]> data in
  let data := <["notes" := Py.strip (visit_notes_text form)]> data in
  data.

(** What the queue tab shows: the three counters and the priority tree. *)
Record queue_view := QueueView {
  waiting_count_var : string;
  inprogress_count_var : string;
  completed_count_var : string;
  priority_tree : list row
}.

(** [len([v for v in visits if v.get('status') == status and v.get('visit_date') == today])] *)
Definition count_status (status today : string) (visits : list record) : nat :=
  length (filter (fun v : record =>
                    v !! "status" = Some status ∧ v !! "visit_date" = Some today)
            visits).

(** [refresh_queue].  [now_count] is the reading of the clock for the
    counters; the other readings are those of [load_priority_queue], which
    reads the store again and handles its own exceptions. *)
Definition refresh_queue (now_count now_today : datetime) (now_row : nat -> datetime)
    (view : queue_view) : M (queue_view * list dialog) :=
  try_except
    (do visits <- OPDManager.get_all_visits ;
     let today := strftime_date now_count in
     let waiting_count := count_status "Waiting" today visits in
     let inprogress_count := count_status "In Progress" today visits in
     let completed_count := count_status "Completed" today visits in
     do loaded <- load_priority_queue now_today now_row (priority_tree view) ;
     ret ({| waiting_count_var := Py.str (Z.of_nat waiting_count);
             inprogress_count_var := Py.str (Z.of_nat inprogress_count);
             completed_count_var := Py.str (Z.of_nat completed_count);
             priority_tree := loaded.1 |},
          match loaded.2 with
          | Some shown => [shown]
          | None => []
          end))
    any_exception
    (fun e => ret (view, [ExceptionBox "Error refreshing queue: " e])).

End OPDUI.

(** ** Notions used to state the properties *)

(** The order the specification gives for the queue: ascending by the pair
    (priority rank, visit time), times compared lexicographically. *)
Definition key_le (a b : Z * string) : Prop :=
  a.1 < b.1 ∨ (a.1 = b.1 ∧ String.le a.2 b.2).

(** The rank of a priority as the specification words it: Emergency 1,
    High 2, Normal 3, Low 4, anything else or no priority 3. *)
Definition priority_rank (p : option string) : Z :=
  if bool_decide (p = Some "Emergency") then 1
  else if bool_decide (p = Some "High") then 2
  else if bool_decide (p = Some "Normal") then 3
  else if bool_decide (p = Some "Low") then 4
  else 3.

(** A visit of the queue example of the specification. *)
Definition example_visit (id priority time : string) : record :=
  <["id" := id]> (<["patient_id" := "PAT001"]> (<["status" := "Waiting"]>
  (<["priority" := priority]> (<["visit_date" := "2026-11-03"]>
  (<["visit_time" := time]> (<["chief_complaint" := "Fever"]> ∅)))))).

Definition example_visits : list record :=
  [ example_visit "OPD001" "Normal" "09:00:00";
    example_visit "OPD002" "Emergency" "09:05:00";
    example_visit "OPD003" "High" "08:50:00";
    example_visit "OPD004" "Emergency" "08:40:00" ].

(** The rows of the priority tree after [load_priority_queue]. *)
Definition shown_rows (r : outcome (list OPDUI.row * option OPDUI.dialog) * disk)
  : list OPDUI.row :=
  match r.1 with
  | Return (rows, _) => rows
  | Raise _ => []
  end.

(** The directory that holds [visits] in the visit store and nothing else. *)
Definition store_of (visits : list record) : disk :=
  Disk (<["data/opd_visits.json" := Stored visits]> ∅) ∅ [].

(** The same for the patient store. *)
Definition patient_store_of (patients : list record) : disk :=
  Disk (<["data/patients.json" := Stored patients]> ∅) ∅ [].

(** A row of the priority tree without its wait column. *)
Definition row_without_wait (r : OPDUI.row) : Z * string * string * string * string :=
  (OPDUI.position r, OPDUI.patient r, OPDUI.priority r, OPDUI.complaint r,
   OPDUI.visit_id r).

(** The wait in minutes as the specification words it: the floor of the
    elapsed time divided by 60 seconds. *)
Definition wait_minutes_floor (now checkin : datetime) : Z :=
  sub_us now checkin / 60000000.

(** The path of the visit store and of the patient store. *)
Definition visits_path : string := "data/opd_visits.json".
Definition patients_path : string := "data/patients.json".

(** The directory after [data] has been written to [path]. *)
Definition written (path : string) (data : list record) (d : disk) : disk :=
  {| files := <[path := Stored data]> (files d);
     locked := locked d;
     journal := (path, data) :: journal d |}.

(** The record bears an id. *)
Definition has_id (v : record) : Prop := is_Some (v !! "id").

(** The store can be read and each of its records bears an id. *)
Definition store_has_ids (d : disk) : Prop :=
  exists visits, OPDManager.get_all_visits d = (Return visits, d) /\ Forall has_id visits.

(** The record bears an id, and it is not [visit_id]. *)
Definition other_id (visit_id : string) (v : record) : Prop :=
  exists id_str, v !! "id" = Some id_str /\ id_str ≠ visit_id.

(** The number a run of decimal digits denotes. *)
Definition decimal_value (ds : list ascii) : Z :=
  foldl (fun acc c => 10 * acc + Py.digit_value c) 0 ds.

(** The number that [generate_id] reads in the id of a record: the integer
    denoted by the id once the prefix, if the id starts with it, is taken
    off; none when the record has no id or the text is not an integer. *)
Definition numeric_id (prefix : string) (item : record) : option Z :=
  id_str ← item !! "id";
  Py.int (if negb (String.eqb prefix "") && Py.startswith id_str prefix
          then Py.drop_prefix (String.length prefix) id_str
          else id_str).

(** The id of the visit store with number [n]. *)
Definition opd_id (n : Z) : string := "OPD" +:+ Py.format_0d 3 n.

(** The greatest number that [generate_id] finds in [data], 0 if none. *)
Definition max_id (prefix : string) (data : list record) : Z :=
  foldl (FileIOManager.generate_id_step prefix) 0 data.

(** The record that [add_visit] appends when it has read [visits]. *)
Definition stamped (visits : list record) (visit_data : record)
    (now_date now_time : datetime) : record :=
  <["visit_time" := strftime_time now_time]>
    (<["visit_date" := strftime_date now_date]>
       (<["id" := FileIOManager.generate_id visits "OPD"]> visit_data)).

(** What a method returns, as a Python value. *)
Inductive pyvalue :=
| PyBool (b : bool)
| PyDict (r : record).

(** *** Sequences of operations on the visit store *)

Inductive op :=
| Add (visit_data : record) (now_date now_time : datetime)
| Delete (visit_id : string).

(** An [Add] from the arguments of [add_visit]. *)
Definition add_op (a : record * datetime * datetime) : op := Add a.1.1 a.1.2 a.2.

(** The records of the visit store, as [get_all_visits] returns them. *)
Definition stored_visits (d : disk) : list record :=
  match (OPDManager.get_all_visits d).1 with
  | Return visits => visits
  | Raise _ => []
  end.

(** The directory after an operation. *)
Definition apply_op (o : op) (d : disk) : disk :=
  match o with
  | Add visit_data now_date now_time =>
      (OPDManager.add_visit visit_data now_date now_time d).2
  | Delete visit_id => (OPDUI.delete_visit visit_id d).2
  end.

(** The id that an [Add] gave to the record it stored: the id of the last
    record of the store once [add_visit] has returned [True]. *)
Definition new_id (o : op) (d : disk) : option string :=
  match o with
  | Add visit_data now_date now_time =>
      match (OPDManager.add_visit visit_data now_date now_time d).1 with
      | Return true => last (stored_visits (apply_op o d)) ≫= (fun v : record => v !! "id")
      | _ => None
      end
  | Delete _ => None
  end.

(** The ids generated along a sequence of operations, each with the records
    the store held just before. *)
Fixpoint run (ops : list op) (d : disk) : list (list record * string) :=
  match ops with
  | [] => []
  | o :: rest =>
      match new_id o d with
      | Some id_str => (stored_visits d, id_str) :: run rest (apply_op o d)
      | None => run rest (apply_op o d)
      end
  end.

(** A generated id is an OPD id with a number from 1 on; it is the id of no
    record the store held, and its number is greater than every number that
    [generate_id] reads in the ids the store held. *)
Definition exceeds_stored (entry : list record * string) : Prop :=
  exists n, entry.2 = opd_id n /\ 1 <= n
            /\ forall v, v ∈ entry.1 ->
                 v !! "id" ≠ Some entry.2
                 /\ forall k, numeric_id "OPD" v = Some k -> k < n.

(** A visit as the check-in form makes it. *)
Definition checkin (patient_id : string) : op :=
  Add (<["patient_id" := patient_id]> (<["status" := "Waiting"]>
         (<["chief_complaint" := "Fever"]> ∅)))
      (Datetime 2026 11 3 9 0 0 0) (Datetime 2026 11 3 9 0 0 0).

(** [x] may stand before [y] in a list sorted by [key] under [lt]. *)
Definition in_order {A K} (lt : K -> K -> bool) (key : A -> K) (x y : A) : Prop :=
  lt (key y) (key x) = false.

(** A reading of the clock has a date of a four-digit year and a time of
    day. *)
Definition valid_date (t : datetime) : Prop :=
  1000 <= year t <= 9999 /\ 1 <= month t <= 12
  /\ 1 <= day t <= days_in_month (year t) (month t).

Definition valid_time (t : datetime) : Prop :=
  0 <= hour t < 24 /\ 0 <= minute t < 60 /\ 0 <= second t < 60.

(** The instant that the text of a check-in denotes: the date of one reading
    and the time of day, to the second, of another. *)
Definition checkin_instant (now_date now_time : datetime) : datetime :=
  Datetime (year now_date) (month now_date) (day now_date)
    (hour now_time) (minute now_time) (second now_time) 0.

(** The three actions that set a status, each with the status it sets. *)
Definition status_actions : list ((string -> M OPDUI.dialog) * string) :=
  [ (OPDUI.mark_visit_complete, "Completed");
    (OPDUI.cancel_visit, "Cancelled");
    (OPDUI.move_to_inprogress, "In Progress") ].

(** The path of the appointment store and of the doctor store, and the
    directory that holds one of them and nothing else. *)
Definition appointments_path : string := "data/appointments.json".
Definition doctors_path : string := "data/doctors.json".

Definition appointment_store_of (appointments : list record) : disk :=
  Disk (<[appointments_path := Stored appointments]> ∅) ∅ [].

Definition doctor_store_of (doctors : list record) : disk :=
  Disk (<[doctors_path := Stored doctors]> ∅) ∅ [].

(** Two appointments and two doctors. *)
Definition example_appointments : list record :=
  [ <["id" := "APT001"]> (<["patient_id" := "PAT001"]>
      (<["appointment_date" := "2026-11-05"]> ∅));
    <["id" := "APT002"]> (<["patient_id" := "PAT002"]>
      (<["appointment_date" := "2026-11-05"]> ∅)) ].

Definition example_doctors : list record :=
  [ <["id" := "DOC001"]> (<["name" := "Dr Sen"]> ∅);
    <["id" := "DOC002"]> (<["name" := "Dr Rao"]> ∅) ].

(** The file names of the four managers. *)
Definition store_files : list string :=
  [ PatientManager.filename; AppointmentManager.filename;
    DoctorManager.filename; OPDManager.filename ].

(** Text of ASCII characters only. *)
Definition ascii_text (s : string) : Prop :=
  Forall (fun c => Py.code c < 128) (list_ascii_of_string s).

(** The fields that [search_patients] looks into, absent ones as [''] . *)
Definition searched_fields (patient : record) : list string :=
  [ default "" (patient !! "name");
    default "" (patient !! "id");
    default "" (patient !! "phone") ].

(** * Properties *)

(** ** Stable sorting by a key *)

Section StableSort.
Context {A K : Type} `{EqDecision K}.
Variable lt : K -> K -> bool.
Variable key : A -> K.

Hypothesis lt_asym : forall a b, lt a b = true -> lt b a = false.
Hypothesis le_trans : forall a b c, lt b a = false -> lt c b = false -> lt c a = false.
Hypothesis le_antisym : forall a b, lt a b = false -> lt b a = false -> a = b.

Local Abbreviation in_order := (in_order lt key).

Lemma lt_irrefl a : lt a a = false.
Proof. destruct (lt a a) eqn:E; [|done]. pose proof (lt_asym _ _ E). congruence. Qed.

Lemma insert_by_perm x l : Permutation (OPDUI.insert_by lt key x l) (x :: l).
Proof.
  induction l as [|y l IH]; simpl; [done|].
  destruct (lt (key y) (key x)); [|done].
  rewrite IH. apply perm_swap.
Qed.

Lemma list_sort_perm l : Permutation (OPDUI.list_sort lt key l) l.
Proof.
  induction l as [|x l IH]; simpl; [done|].
  rewrite insert_by_perm. by constructor.
Qed.

Lemma insert_by_sorted x l :
  StronglySorted in_order l -> StronglySorted in_order (OPDUI.insert_by lt key x l).
Proof.
  induction 1 as [|y l Hl IH Hy]; simpl.
  - repeat constructor.
  - destruct (lt (key y) (key x)) eqn:E.
    + constructor; [done|].
      rewrite Forall_forall. intros z Hz.
      rewrite insert_by_perm in Hz.
      apply elem_of_cons in Hz as [->|Hz].
      * by apply lt_asym.
      * rewrite Forall_forall in Hy. by apply Hy.
    + constructor; [by constructor|].
      constructor; [done|].
      rewrite Forall_forall in Hy |- *. intros z Hz.
      unfold in_order. eapply le_trans; [exact E|]. by apply Hy.
Qed.

Lemma list_sort_sorted l : StronglySorted in_order (OPDUI.list_sort lt key l).
Proof.
  induction l as [|x l IH]; simpl; [constructor|]. by apply insert_by_sorted.
Qed.

Lemma insert_by_stable k x l :
  filter (fun y => key y = k) (OPDUI.insert_by lt key x l)
  = filter (fun y => key y = k) (x :: l).
Proof.
  induction l as [|y l IH]; simpl; [done|].
  destruct (lt (key y) (key x)) eqn:E; [|done].
  rewrite (filter_cons _ y), IH, !filter_cons.
  destruct (decide (key y = k)) as [Hy|Hy], (decide (key x = k)) as [Hx|Hx];
    try done.
  rewrite Hx, <- Hy, lt_irrefl in E. done.
Qed.

Lemma list_sort_stable k l :
  filter (fun y => key y = k) (OPDUI.list_sort lt key l)
  = filter (fun y => key y = k) l.
Proof.
  induction l as [|x l IH]; simpl; [done|].
  rewrite insert_by_stable, !filter_cons, IH. done.
Qed.

(** Two sorted lists with the same elements of every key, in the same
    order, are the same list. *)
Lemma sorted_stable_unique l1 l2 :
  StronglySorted in_order l1 -> StronglySorted in_order l2 ->
  (forall k, filter (fun y => key y = k) l1 = filter (fun y => key y = k) l2) ->
  l1 = l2.
Proof.
  intros H1. revert l2.
  induction H1 as [|x l1 Hl1 IH Hx]; intros l2 H2 Hf.
  - destruct l2 as [|y l2]; [done|].
    specialize (Hf (key y)). rewrite filter_cons in Hf.
    destruct (decide (key y = key y)); [|done]. discriminate Hf.
  - destruct H2 as [|y l2 Hl2 Hy].
    { specialize (Hf (key x)). rewrite filter_cons in Hf.
      destruct (decide (key x = key x)); [|done]. discriminate Hf. }
    assert (Hxy : key x = key y).
    { apply le_antisym.
      - assert (x ∈ filter (fun z => key z = key x) (y :: l2)) as Hin.
        { rewrite <- Hf. apply list_elem_of_filter. split; [done|]. left. }
        apply list_elem_of_filter in Hin as [_ Hin].
        apply elem_of_cons in Hin as [->|Hin]; [apply lt_irrefl|].
        rewrite Forall_forall in Hy. by apply Hy.
      - assert (y ∈ filter (fun z => key z = key y) (x :: l1)) as Hin.
        { rewrite Hf. apply list_elem_of_filter. split; [done|]. left. }
        apply list_elem_of_filter in Hin as [_ Hin].
        apply elem_of_cons in Hin as [->|Hin]; [apply lt_irrefl|].
        rewrite Forall_forall in Hx. by apply Hx. }
    assert (x = y) as ->.
    { specialize (Hf (key x)). rewrite !filter_cons in Hf.
      destruct (decide (key x = key x)); [|done].
      destruct (decide (key y = key x)); [|congruence]. congruence. }
    f_equal. apply IH; [done|].
    intros k. specialize (Hf k). rewrite !filter_cons in Hf.
    destruct (decide (key y = k)); congruence.
Qed.

(** Every stable sort returns the list that [list_sort] returns. *)
Lemma stable_sort_unique l l' :
  StronglySorted in_order l' ->
  (forall k, filter (fun y => key y = k) l' = filter (fun y => key y = k) l) ->
  l' = OPDUI.list_sort lt key l.
Proof.
  intros Hs Hf. apply sorted_stable_unique; [done|apply list_sort_sorted|].
  intros k. by rewrite Hf, list_sort_stable.
Qed.
End StableSort.

(** ** The order of the queue *)

Lemma StronglySorted_mono {A} (R S : A -> A -> Prop) (l : list A) :
  (forall a b, R a b -> S a b) -> StronglySorted R l -> StronglySorted S l.
Proof.
  intros HRS. induction 1 as [|x l Hl IH Hx]; constructor; [done|].
  eapply Forall_impl; [exact Hx|]. intros y. apply HRS.
Qed.

Lemma str_lt_false (a b : string) : Py.str_lt b a = false <-> String.le a b.
Proof.
  unfold Py.str_lt, String.le, String.ltb, String.leb.
  rewrite (String.compare_antisym b a).
  destruct (String.compare a b); simpl; split; intros; done.
Qed.

Lemma tuple_lt_false (a b : Z * string) : OPDUI.tuple_lt b a = false <-> key_le a b.
Proof.
  unfold OPDUI.tuple_lt, key_le. destruct a as [r1 t1], b as [r2 t2]; simpl.
  destruct (Z.eqb_spec r2 r1) as [->|Hne].
  - rewrite str_lt_false. split; [auto|]. intros [?|[_ ?]]; [lia|done].
  - rewrite Z.ltb_ge. split; [intros; left; lia|]. intros [?|[? _]]; lia.
Qed.

Lemma key_le_trans a b c : key_le a b -> key_le b c -> key_le a c.
Proof.
  unfold key_le. intros [?|[? ?]] [?|[? ?]]; try (left; lia).
  right. split; [lia|]. by etrans.
Qed.

Lemma key_le_antisym a b : key_le a b -> key_le b a -> a = b.
Proof.
  unfold key_le. destruct a, b; simpl. intros [?|[? ?]] [?|[? ?]]; try lia.
  f_equal; [done|]. by apply (anti_symm String.le).
Qed.

Lemma key_le_total a b : key_le a b \/ key_le b a.
Proof.
  unfold key_le. destruct a as [r1 t1], b as [r2 t2]; simpl.
  destruct (Z.lt_total r1 r2) as [?|[->|?]]; [by auto| |by auto].
  destruct (total String.le t1 t2); auto.
Qed.

Lemma tuple_lt_asym a b : OPDUI.tuple_lt a b = true -> OPDUI.tuple_lt b a = false.
Proof.
  intros H. apply tuple_lt_false.
  destruct (key_le_total a b) as [?|Hba]; [done|].
  apply tuple_lt_false in Hba. congruence.
Qed.

Lemma tuple_le_trans a b c :
  OPDUI.tuple_lt b a = false -> OPDUI.tuple_lt c b = false -> OPDUI.tuple_lt c a = false.
Proof. rewrite !tuple_lt_false. apply key_le_trans. Qed.

Lemma tuple_le_antisym a b :
  OPDUI.tuple_lt a b = false -> OPDUI.tuple_lt b a = false -> a = b.
Proof. rewrite !tuple_lt_false. intros. by apply key_le_antisym. Qed.

Lemma sort_key_rank (v : record) :
  OPDUI.sort_key v = (priority_rank (v !! "priority"), default "" (v !! "visit_time")).
Proof.
  unfold OPDUI.sort_key, priority_rank, OPDUI.priority_order. f_equal.
  destruct (v !! "priority") as [p|]; simpl; [|reflexivity].
  rewrite !lookup_insert, lookup_empty.
  repeat case_decide; repeat case_bool_decide; simplify_eq; done.
Qed.

(** ** Reading the store *)

Lemma load_data_eq filename d :
  FileIOManager.load_data filename d
  = (match files d !! path_join FileIOManager.data_dir filename with
     | Some (Stored data) => Return data
     | Some Undecodable => Raise UnicodeDecodeError
     | Some Malformed | Some Unreadable | None => Return []
     end, d).
Proof.
  unfold FileIOManager.load_data, try_except, bind, path_exists, open_json_load, ret.
  destruct (files d !! path_join FileIOManager.data_dir filename) as [[| | |]|] eqn:E;
    simpl; rewrite ?E; reflexivity.
Qed.

Lemma get_all_visits_stored d visits :
  files d !! "data/opd_visits.json" = Some (Stored visits) ->
  OPDManager.get_all_visits d = (Return visits, d).
Proof.
  intros H. unfold OPDManager.get_all_visits. rewrite load_data_eq.
  change (path_join FileIOManager.data_dir OPDManager.filename) with "data/opd_visits.json".
  by rewrite H.
Qed.

Lemma get_all_visits_store_of visits :
  OPDManager.get_all_visits (store_of visits) = (Return visits, store_of visits).
Proof. apply get_all_visits_stored, lookup_insert_eq. Qed.

Lemma load_priority_queue_eq d visits now_today now_row tree :
  OPDManager.get_all_visits d = (Return visits, d) ->
  OPDUI.load_priority_queue now_today now_row tree d
  = (Return (imap (fun i v => OPDUI.queue_row (strftime_date now_today)
                                (Z.of_nat i + 1) v (now_row i))
                  (OPDUI.waiting_queue (strftime_date now_today) visits), None), d).
Proof.
  intros H. unfold OPDUI.load_priority_queue, try_except, bind. rewrite H. reflexivity.
Qed.

(** C1.  When the store holds [visits], the priority tree shows the visits
    that are Waiting and dated today, one row per visit and numbered from 1,
    in ascending order of the pair (priority rank, visit time): the rank is 1
    for Emergency, 2 for High, 3 for Normal, 4 for Low and 3 for any other or
    missing priority, times compare lexicographically, and visits with the
    same rank and time keep the order of the store.  For the four visits of
    the specification (Normal 09:00, Emergency 09:05, High 08:50, Emergency
    08:40) the rows are Emergency 08:40, Emergency 09:05, High 08:50, Normal
    09:00. *)
Theorem priority_queue_order (d : disk) (visits : list record)
    (now_today : datetime) (now_row : nat -> datetime) (tree : list OPDUI.row) :
  OPDManager.get_all_visits d = (Return visits, d) ->
  let today := strftime_date now_today in
  let q := OPDUI.waiting_queue today visits in
  let rows := imap (fun i v => OPDUI.queue_row today (Z.of_nat i + 1) v (now_row i)) q in
  OPDUI.load_priority_queue now_today now_row tree d = (Return (rows, None), d)
  /\ q ≡ₚ filter (OPDUI.is_waiting today) visits
  /\ StronglySorted (fun a b => key_le (OPDUI.sort_key a) (OPDUI.sort_key b)) q
  /\ (forall v, OPDUI.sort_key v
                = (priority_rank (v !! "priority"), default "" (v !! "visit_time")))
  /\ (forall k, filter (fun v => OPDUI.sort_key v = k) q
                = filter (fun v => OPDUI.sort_key v = k)
                    (filter (OPDUI.is_waiting today) visits))
  /\ (forall i r, rows !! i = Some r ->
        OPDUI.position r = Z.of_nat i + 1
        /\ exists v, q !! i = Some v /\ OPDUI.visit_id r = default "" (v !! "id"))
  /\ (let now := Datetime 2026 11 3 9 20 0 0 in
      map (fun r => (OPDUI.position r, OPDUI.priority r, OPDUI.visit_id r))
        (shown_rows (OPDUI.load_priority_queue now (fun _ => now) [] (store_of example_visits)))
      = [(1, "Emergency", "OPD004"); (2, "Emergency", "OPD002");
         (3, "High", "OPD003"); (4, "Normal", "OPD001")]).
Proof.
  intros Hd today q rows. split_and!.
  - by apply load_priority_queue_eq.
  - apply list_sort_perm.
  - eapply StronglySorted_mono;
      [|apply (list_sort_sorted OPDUI.tuple_lt OPDUI.sort_key)].
    + intros a b Hab. by apply tuple_lt_false.
    + apply tuple_lt_asym.
    + apply tuple_le_trans.
  - apply sort_key_rank.
  - intros k. apply (list_sort_stable OPDUI.tuple_lt OPDUI.sort_key), tuple_lt_asym.
  - intros i r H. unfold rows in H. rewrite list_lookup_imap in H.
    destruct (q !! i) as [v|]; simplify_eq/=. split; [done|]. by exists v.
  - vm_compute. reflexivity.
Qed.

Lemma priority_queue_order_witness :
  let d0 := store_of example_visits in
  let now := Datetime 2026 11 3 9 20 0 0 in
  OPDManager.get_all_visits d0 = (Return example_visits, d0)
  /\ OPDUI.waiting_queue (strftime_date now) example_visits
     ≡ₚ filter (OPDUI.is_waiting (strftime_date now)) example_visits.
Proof.
  intros d0 now.
  pose proof (get_all_visits_store_of example_visits) as H.
  split; [exact H|].
  exact (proj1 (proj2 (priority_queue_order d0 example_visits now (fun _ => now) [] H))).
Defined.

Lemma waiting_queue_elem today visits v :
  v ∈ OPDUI.waiting_queue today visits <-> v ∈ visits /\ OPDUI.is_waiting today v.
Proof.
  unfold OPDUI.waiting_queue.
  rewrite (list_sort_perm OPDUI.tuple_lt OPDUI.sort_key), list_elem_of_filter.
  tauto.
Qed.

Lemma load_priority_queue_cases d now_today now_row tree :
  OPDUI.load_priority_queue now_today now_row tree d
  = (match (OPDManager.get_all_visits d).1 with
     | Return visits =>
         Return (imap (fun i v => OPDUI.queue_row (strftime_date now_today)
                                    (Z.of_nat i + 1) v (now_row i))
                   (OPDUI.waiting_queue (strftime_date now_today) visits), None)
     | Raise e => Return ([], Some (OPDUI.ExceptionBox "Error loading priority queue: " e))
     end, d).
Proof.
  unfold OPDUI.load_priority_queue, try_except, bind, OPDManager.get_all_visits.
  rewrite load_data_eq. simpl.
  destruct (files d !! _) as [[| | |]|]; reflexivity.
Qed.

(** ** Who is in the queue *)

(** C5.  A visit whose status is not Waiting or whose date is not today is
    not in the queue, whatever its priority, and every row of the priority
    tree is made from a visit of the store that is Waiting and dated
    today. *)
Theorem not_waiting_not_queued (d : disk) (visits : list record)
    (now_today : datetime) (now_row : nat -> datetime) (tree : list OPDUI.row)
    (v : record) :
  OPDManager.get_all_visits d = (Return visits, d) ->
  (v !! "status" ≠ Some "Waiting") \/ (v !! "visit_date" ≠ Some (strftime_date now_today)) ->
  let today := strftime_date now_today in
  (v ∉ OPDUI.waiting_queue today visits)
  /\ forall r, r ∈ shown_rows (OPDUI.load_priority_queue now_today now_row tree d) ->
       exists i v', OPDUI.waiting_queue today visits !! i = Some v'
                    /\ v' ≠ v /\ v' ∈ visits /\ OPDUI.is_waiting today v'
                    /\ r = OPDUI.queue_row today (Z.of_nat i + 1) v' (now_row i).
Proof.
  intros Hd Hv. cbv zeta. set (today := strftime_date now_today).
  assert (Hnot : v ∉ OPDUI.waiting_queue today visits).
  { rewrite waiting_queue_elem. unfold OPDUI.is_waiting. intros [_ [? ?]].
    destruct Hv; contradiction. }
  split; [done|].
  intros r. rewrite (load_priority_queue_eq _ _ _ _ _ Hd). unfold shown_rows. simpl.
  fold today. intros Hr. apply list_elem_of_lookup in Hr as [i Hi].
  rewrite list_lookup_imap in Hi.
  destruct (OPDUI.waiting_queue today visits !! i) as [v'|] eqn:E; simplify_eq/=.
  exists i, v'. assert (Hin : v' ∈ OPDUI.waiting_queue today visits).
  { apply list_elem_of_lookup. by exists i. }
  assert (Hne : v' ≠ v) by (intros ->; contradiction).
  apply waiting_queue_elem in Hin as [Hin Hw].
  split_and!; done.
Qed.

Lemma not_waiting_not_queued_witness :
  let now := Datetime 2026 11 3 9 20 0 0 in
  let v := <["status" := "Completed"]> (example_visit "OPD001" "Emergency" "08:00:00") in
  let visits := v :: example_visits in
  OPDManager.get_all_visits (store_of visits) = (Return visits, store_of visits)
  /\ ((v !! "status" ≠ Some "Waiting") \/ (v !! "visit_date" ≠ Some (strftime_date now)))
  /\ v ∉ OPDUI.waiting_queue (strftime_date now) visits.
Proof.
  intros now v visits.
  pose proof (get_all_visits_store_of visits) as H.
  assert (Hv : (v !! "status" ≠ Some "Waiting")
               \/ (v !! "visit_date" ≠ Some (strftime_date now))).
  { left. vm_compute. discriminate. }
  split; [exact H|]. split; [exact Hv|].
  exact (proj1 (not_waiting_not_queued (store_of visits) visits now (fun _ => now) [] v H Hv)).
Defined.

(** ** The projection is a function of the store and of the clock *)

(** C8.  [load_priority_queue] leaves the directory as it found it, and a
    second call on the same directory with the same readings of the clock
    returns the same rows in the same order, whatever the tree held before.
    With other readings of the clock on the same day only the wait column
    can differ. *)
Theorem queue_projection_idempotent (d : disk)
    (now_today now_today' : datetime) (now_row now_row' : nat -> datetime)
    (tree tree' : list OPDUI.row) :
  strftime_date now_today' = strftime_date now_today ->
  let r1 := OPDUI.load_priority_queue now_today now_row tree d in
  let r2 := OPDUI.load_priority_queue now_today now_row tree' r1.2 in
  let r3 := OPDUI.load_priority_queue now_today' now_row' tree' r1.2 in
  r1.2 = d /\ r2 = r1 /\ r3.2 = d
  /\ map row_without_wait (shown_rows r3) = map row_without_wait (shown_rows r1).
Proof.
  intros Hday r1 r2 r3. unfold r3, r2, r1.
  rewrite !load_priority_queue_cases. simpl.
  rewrite ?load_priority_queue_cases. simpl.
  split_and!; try done.
  unfold shown_rows. simpl. rewrite Hday.
  destruct (OPDManager.get_all_visits d).1 as [visits|e]; [|done].
  rewrite !fmap_imap. apply imap_ext. intros i v _. reflexivity.
Qed.

Lemma queue_projection_idempotent_witness :
  let now := Datetime 2026 11 3 9 20 0 0 in
  let later := Datetime 2026 11 3 9 45 10 0 in
  let d := store_of example_visits in
  strftime_date later = strftime_date now
  /\ OPDUI.load_priority_queue now (fun _ => now) [] d
     = OPDUI.load_priority_queue now (fun _ => now) []
         (OPDUI.load_priority_queue now (fun _ => now) [] d).2.
Proof.
  intros now later d.
  assert (H : strftime_date later = strftime_date now) by (vm_compute; reflexivity).
  split; [exact H|].
  exact (eq_sym (proj1 (proj2 (queue_projection_idempotent d now later
                                 (fun _ => now) (fun _ => later) [] [] H)))).
Defined.

(** ** The wait column *)

Lemma wait_str_eq today visit now :
  OPDUI.wait_str today visit now
  = match visit !! "visit_time" with
    | None => "N/A"
    | Some t =>
        if bool_decide (t = "") then "N/A"
        else match strptime (today +:+ " " +:+ t) with
             | Some checkin => Py.str (minutes_between now checkin) +:+ " min"
             | None => "N/A"
             end
    end.
Proof.
  unfold OPDUI.wait_str. destruct (visit !! "visit_time") as [t|]; simpl; [|done].
  case_bool_decide as Ht.
  - subst t. reflexivity.
  - destruct (String.eqb_spec t ""); [contradiction|reflexivity].
Qed.

(** C6, as the code has it.  For the visit at index [i] of the queue, with
    [now] the reading of the clock made for it: when [visit_time] is present,
    not empty and [visit_date + " " + visit_time] parses to [checkin], the
    wait column is the number of whole minutes of [now - checkin], the
    quotient being cut towards zero, followed by " min"; this is the floor of
    the quotient whenever [now] is not earlier than [checkin].  When
    [visit_time] is missing, empty or does not parse, the column is "N/A".
    A visit checked in 15 minutes before [now] shows "15 min". *)
Theorem wait_display (d : disk) (visits : list record)
    (now_today : datetime) (now_row : nat -> datetime) (tree : list OPDUI.row)
    (i : nat) (visit : record) :
  OPDManager.get_all_visits d = (Return visits, d) ->
  OPDUI.waiting_queue (strftime_date now_today) visits !! i = Some visit ->
  let now := now_row i in
  let text := default "" (visit !! "visit_date") +:+ " "
              +:+ default "" (visit !! "visit_time") in
  (exists r,
     shown_rows (OPDUI.load_priority_queue now_today now_row tree d) !! i = Some r
     /\ match visit !! "visit_time" with
        | None => OPDUI.wait r = "N/A"
        | Some t =>
            if bool_decide (t = "") then OPDUI.wait r = "N/A"
            else match strptime text with
                 | Some checkin =>
                     OPDUI.wait r
                     = Py.str (Z.quot (sub_us now checkin) 60000000) +:+ " min"
                     /\ (timestamp_us checkin <= timestamp_us now ->
                         OPDUI.wait r
                         = Py.str (wait_minutes_floor now checkin) +:+ " min")
                 | None => OPDUI.wait r = "N/A"
                 end
        end)
  /\ (let now15 := Datetime 2026 11 3 9 20 0 0 in
      map OPDUI.wait
        (shown_rows (OPDUI.load_priority_queue now15 (fun _ => now15) []
           (store_of [ example_visit "OPD001" "Normal" "09:05:00";
                       example_visit "OPD002" "Normal" "soon";
                       delete "visit_time" (example_visit "OPD003" "Normal" "") ])))
      = ["N/A"; "15 min"; "N/A"]).
Proof.
  intros Hd Hq now text. split; [|vm_compute; reflexivity].
  rewrite (load_priority_queue_eq _ _ _ _ _ Hd). unfold shown_rows. simpl.
  rewrite list_lookup_imap, Hq. simpl. eexists. split; [reflexivity|]. simpl.
  assert (Hdate : visit !! "visit_date" = Some (strftime_date now_today)).
  { assert (Hin : visit ∈ OPDUI.waiting_queue (strftime_date now_today) visits)
      by (apply list_elem_of_lookup; by exists i).
    apply waiting_queue_elem in Hin as [_ [_ ?]]. done. }
  rewrite wait_str_eq. unfold text. rewrite Hdate. simpl.
  destruct (visit !! "visit_time") as [t|]; simpl; [|done].
  case_bool_decide; [done|].
  destruct (strptime _) as [checkin|]; [|done].
  split; [reflexivity|].
  intros Hle. unfold minutes_between, wait_minutes_floor.
  rewrite Z.quot_div_nonneg; [done|..]; unfold sub_us; fold now; lia.
Qed.

Lemma wait_display_witness :
  let now := Datetime 2026 11 3 9 20 0 0 in
  let visit := example_visit "OPD004" "Emergency" "08:40:00" in
  OPDManager.get_all_visits (store_of example_visits)
    = (Return example_visits, store_of example_visits)
  /\ OPDUI.waiting_queue (strftime_date now) example_visits !! 0%nat = Some visit
  /\ exists r,
       shown_rows (OPDUI.load_priority_queue now (fun _ => now) []
                     (store_of example_visits)) !! 0%nat = Some r
       /\ OPDUI.wait r = "40 min".
Proof.
  intros now visit.
  pose proof (get_all_visits_store_of example_visits) as H.
  assert (Hq : OPDUI.waiting_queue (strftime_date now) example_visits !! 0%nat
               = Some visit) by (vm_compute; reflexivity).
  split; [exact H|]. split; [exact Hq|].
  destruct (proj1 (wait_display (store_of example_visits) example_visits now
                     (fun _ => now) [] 0%nat visit H Hq)) as [r [Hr Hw]].
  exists r. split; [exact Hr|]. exact (proj1 Hw).
Defined.

(** C6 as the specification words it, with the floor, fails when the clock
    reads earlier than the check-in time (a clock set back, or the hour
    repeated at the end of daylight saving time): 30 seconds before the
    check-in the code shows 0 minutes, and the floor is -1. *)
Lemma wait_floor_counterexample :
  let now := Datetime 2026 11 3 9 59 30 0 in
  let visit := example_visit "OPD001" "Normal" "10:00:00" in
  let checkin := Datetime 2026 11 3 10 0 0 0 in
  strptime ("2026-11-03" +:+ " " +:+ "10:00:00") = Some checkin
  /\ map OPDUI.wait
       (shown_rows (OPDUI.load_priority_queue now (fun _ => now) [] (store_of [visit])))
     = ["0 min"]
  /\ Py.str (wait_minutes_floor now checkin) +:+ " min" = "-1 min"
  /\ ~ (forall r,
          r ∈ shown_rows (OPDUI.load_priority_queue now (fun _ => now) []
                           (store_of [visit])) ->
          OPDUI.wait r = Py.str (wait_minutes_floor now checkin) +:+ " min").
Proof.
  intros now visit checkin.
  assert (Hrows : map OPDUI.wait
       (shown_rows (OPDUI.load_priority_queue now (fun _ => now) [] (store_of [visit])))
     = ["0 min"]) by (vm_compute; reflexivity).
  split_and!; [vm_compute; reflexivity|exact Hrows|vm_compute; reflexivity|].
  intros Hall.
  destruct (shown_rows _) as [|r rest]; [discriminate Hrows|].
  specialize (Hall r ltac:(left)). simpl in Hrows.
  injection Hrows as Hr _. rewrite Hr in Hall.
  vm_compute in Hall. discriminate Hall.
Qed.

(** ** Writing the store *)

Lemma save_data_eq filename data d :
  FileIOManager.save_data filename data d
  = if bool_decide (path_join FileIOManager.data_dir filename ∈ locked d)
    then (Return false, d)
    else (Return true, written (path_join FileIOManager.data_dir filename) data d).
Proof.
  unfold FileIOManager.save_data, try_except, bind, open_json_dump, ret, written.
  case_bool_decide; reflexivity.
Qed.

Lemma get_all_visits_written data d :
  OPDManager.get_all_visits (written visits_path data d)
  = (Return data, written visits_path data d).
Proof. apply get_all_visits_stored. unfold written. simpl. apply lookup_insert_eq. Qed.

Lemma find_visit_absent visit_id k visits :
  Forall (other_id visit_id) visits ->
  OPDManager.find_visit visit_id k visits = Return None.
Proof.
  intros H. revert k. induction H as [|v visits [id_str [Hid Hne]] _ IH]; intros k; simpl.
  - reflexivity.
  - rewrite Hid. rewrite bool_decide_eq_false_2 by done. apply IH.
Qed.

Lemma find_visit_first visit_id k visits i visit :
  visits !! i = Some visit ->
  visit !! "id" = Some visit_id ->
  (forall j v, (j < i)%nat -> visits !! j = Some v -> other_id visit_id v) ->
  OPDManager.find_visit visit_id k visits = Return (Some (k + i)%nat).
Proof.
  revert k i. induction visits as [|v visits IH]; intros k i Hi Hid Hbefore.
  - discriminate Hi.
  - destruct i as [|i]; simpl in *.
    + injection Hi as ->. rewrite Hid, bool_decide_eq_true_2 by done.
      by rewrite Nat.add_0_r.
    + destruct (Hbefore 0%nat v) as [id_str [Hv Hne]]; [lia|done|].
      rewrite Hv, bool_decide_eq_false_2 by done.
      rewrite (IH (S k) i); [f_equal; f_equal; lia|done|done|].
      intros j v' Hj Hv'. apply (Hbefore (S j) v'); [lia|done].
Qed.

Lemma find_visit_has_ids visit_id k visits :
  Forall has_id visits -> exists r, OPDManager.find_visit visit_id k visits = Return r.
Proof.
  intros H. revert k. induction H as [|v visits [id_str Hid] _ IH]; intros k; simpl.
  - by eexists.
  - rewrite Hid. case_bool_decide; [by eexists|apply IH].
Qed.

(** Every record that the managers store bears an id: the three operations
    on the visit store keep that property, and [add_visit] sets the id of
    the record it appends. *)
Lemma store_ids_invariant d :
  store_has_ids d ->
  (forall visit_data now_date now_time,
     store_has_ids (OPDManager.add_visit visit_data now_date now_time d).2)
  /\ (forall visit_id updated_data,
       store_has_ids (OPDManager.update_visit visit_id updated_data d).2)
  /\ (forall visit_id, store_has_ids (OPDUI.delete_visit visit_id d).2).
Proof.
  intros [visits [Hd Hids]]. split_and!.
  - intros visit_data now_date now_time.
    unfold OPDManager.add_visit, bind. rewrite Hd, save_data_eq.
    case_bool_decide; simpl; [by exists visits|].
    eexists. split; [apply (get_all_visits_written _ d)|].
    apply Forall_app. split; [done|]. constructor; [|constructor].
    unfold has_id. by rewrite lookup_insert_ne, lookup_insert_ne, lookup_insert_eq.
  - intros visit_id updated_data.
    unfold OPDManager.update_visit, bind, lift. rewrite Hd.
    destruct (find_visit_has_ids visit_id 0 visits Hids) as [[i|] ->]; simpl.
    + rewrite save_data_eq. case_bool_decide; simpl; [by exists visits|].
      eexists. split; [apply (get_all_visits_written _ d)|].
      apply Forall_alter; [done|]. intros v _ [x Hx]. unfold has_id, OPDManager.dict_update.
      rewrite lookup_union. rewrite Hx. by destruct (updated_data !! "id").
    + by exists visits.
  - intros visit_id. unfold OPDUI.delete_visit, try_except, bind.
    rewrite Hd, save_data_eq. case_bool_decide; simpl; [by exists visits|].
    eexists. split; [apply (get_all_visits_written _ d)|].
    rewrite Forall_forall in Hids |- *. intros v Hv.
    apply list_elem_of_filter in Hv as [_ Hv]. by apply Hids.
Qed.

(** A record without an id, which no operation stores, makes the search of
    [update_visit] raise [KeyError]. *)
Lemma update_visit_without_id :
  OPDManager.update_visit "OPD001" ∅ (store_of [∅])
  = (Raise (KeyError "id"), store_of [∅]).
Proof.
  unfold OPDManager.update_visit, bind, lift.
  by rewrite get_all_visits_store_of.
Qed.

(** C4.  When every record of the store bears an id other than [visit_id],
    [update_visit] returns [False] and the directory is as before: the files
    are the same and the journal has no new write. *)
Theorem update_absent_id (d : disk) (visits : list record)
    (visit_id : string) (updated_data : record) :
  OPDManager.get_all_visits d = (Return visits, d) ->
  Forall (other_id visit_id) visits ->
  OPDManager.update_visit visit_id updated_data d = (Return false, d).
Proof.
  intros Hd Habsent. unfold OPDManager.update_visit, bind, lift.
  rewrite Hd, (find_visit_absent _ _ _ Habsent). reflexivity.
Qed.

Lemma update_absent_id_witness :
  let fields : record := <["status" := "Completed"]> ∅ in
  OPDManager.get_all_visits (store_of example_visits)
    = (Return example_visits, store_of example_visits)
  /\ Forall (other_id "OPD009") example_visits
  /\ OPDManager.update_visit "OPD009" fields (store_of example_visits)
     = (Return false, store_of example_visits).
Proof.
  intros fields.
  pose proof (get_all_visits_store_of example_visits) as H.
  assert (Hall : Forall (other_id "OPD009") example_visits).
  { repeat constructor; eexists; (split; [vm_compute; reflexivity|discriminate]). }
  split; [exact H|]. split; [exact Hall|].
  exact (update_absent_id (store_of example_visits) example_visits "OPD009" fields H Hall).
Defined.

(** C9.  When the record at index [i] is the first that bears [visit_id]
    (the records before it bear other ids), [update_visit] merges the fields
    into that record and writes the list: every key of [updated_data] takes
    its new value, every other key of the record keeps its value, and all
    other records, the length and the order of the list are as before.  The
    call returns [True] and the store holds the new list when the file can be
    written; otherwise it returns [False] and the directory is as before. *)
Theorem update_merges_first_match (d : disk) (visits : list record)
    (visit_id : string) (updated_data : record) (i : nat) (visit : record) :
  OPDManager.get_all_visits d = (Return visits, d) ->
  visits !! i = Some visit ->
  visit !! "id" = Some visit_id ->
  (forall j v, (j < i)%nat -> visits !! j = Some v -> other_id visit_id v) ->
  exists (merged : record) (visits' : list record),
    OPDManager.update_visit visit_id updated_data d
    = (if bool_decide (visits_path ∈ locked d) then (Return false, d)
       else (Return true, written visits_path visits' d))
    /\ OPDManager.get_all_visits (written visits_path visits' d)
       = (Return visits', written visits_path visits' d)
    /\ visits' !! i = Some merged
    /\ (forall k x, updated_data !! k = Some x -> merged !! k = Some x)
    /\ (forall k, updated_data !! k = None -> merged !! k = visit !! k)
    /\ (forall j, j ≠ i -> visits' !! j = visits !! j)
    /\ length visits' = length visits.
Proof.
  intros Hd Hi Hid Hbefore.
  exists (OPDManager.dict_update visit updated_data),
         (alter (fun v => OPDManager.dict_update v updated_data) i visits).
  split_and!.
  - unfold OPDManager.update_visit, bind, lift.
    rewrite Hd, (find_visit_first _ 0 _ _ _ Hi Hid Hbefore). simpl.
    apply save_data_eq.
  - apply get_all_visits_written.
  - by rewrite list_lookup_alter_eq, Hi.
  - intros k x Hk. unfold OPDManager.dict_update.
    apply lookup_union_Some_raw. by left.
  - intros k Hk. unfold OPDManager.dict_update. by apply lookup_union_r.
  - intros j Hj. by apply list_lookup_alter_ne.
  - apply length_alter.
Qed.

Lemma update_merges_first_match_witness :
  let fields : record := <["status" := "Completed"]> ∅ in
  let visit := example_visit "OPD002" "Emergency" "09:05:00" in
  OPDManager.get_all_visits (store_of example_visits)
    = (Return example_visits, store_of example_visits)
  /\ example_visits !! 1%nat = Some visit
  /\ visit !! "id" = Some "OPD002"
  /\ (forall j v, (j < 1)%nat -> example_visits !! j = Some v -> other_id "OPD002" v)
  /\ exists visits' : list record,
       (OPDManager.update_visit "OPD002" fields (store_of example_visits)).1 = Return true
       /\ length visits' = length example_visits.
Proof.
  intros fields visit.
  pose proof (get_all_visits_store_of example_visits) as H.
  assert (H1 : example_visits !! 1%nat = Some visit) by reflexivity.
  assert (H2 : visit !! "id" = Some "OPD002") by (vm_compute; reflexivity).
  assert (H3 : forall j v, (j < 1)%nat -> example_visits !! j = Some v -> other_id "OPD002" v).
  { intros j v Hj Hv. destruct j as [|j]; [|lia]. injection Hv as <-.
    eexists. split; [vm_compute; reflexivity|discriminate]. }
  split; [exact H|]. split; [exact H1|]. split; [exact H2|]. split; [exact H3|].
  destruct (update_merges_first_match (store_of example_visits) example_visits
              "OPD002" fields 1%nat visit H H1 H2 H3)
    as [merged [visits' [Hu [_ [_ [_ [_ [_ Hlen]]]]]]]].
  exists visits'. split; [|exact Hlen].
  rewrite Hu. reflexivity.
Defined.

(** ** Deleting *)

Lemma without_id_eq patient_id patients :
  Forall (fun p : record => is_Some (p !! "id")) patients ->
  PatientManager.without_id patient_id patients
  = Return (filter (fun p : record => p !! "id" ≠ Some patient_id) patients).
Proof.
  induction 1 as [|p patients [id_str Hid] _ IH]; simpl; [done|].
  rewrite Hid, IH, filter_cons, Hid.
  case_bool_decide; case_decide; try done; congruence.
Qed.

Lemma get_all_patients_stored d patients :
  files d !! patients_path = Some (Stored patients) ->
  PatientManager.get_all_patients d = (Return patients, d).
Proof.
  intros H. unfold PatientManager.get_all_patients. rewrite load_data_eq.
  change (path_join FileIOManager.data_dir PatientManager.filename) with patients_path.
  by rewrite H.
Qed.

Lemma filter_other_ids (visit_id : string) (visits : list record) :
  (forall v, v ∈ visits -> v !! "id" ≠ Some visit_id) ->
  filter (fun v : record => v !! "id" ≠ Some visit_id) visits = visits.
Proof.
  induction visits as [|v visits IH]; intros H; [done|].
  rewrite filter_cons. destruct (decide (v !! "id" ≠ Some visit_id)) as [|Hn].
  - f_equal. apply IH. intros v' Hv'. apply H. by right.
  - exfalso. apply Hn, H. left.
Qed.

Lemma delete_visit_eq d visits visit_id :
  OPDManager.get_all_visits d = (Return visits, d) ->
  OPDUI.delete_visit visit_id d
  = (if bool_decide (visits_path ∈ locked d)
     then (Return (OPDUI.ErrorBox "Failed to delete visit!"), d)
     else (Return (OPDUI.InfoBox "Visit deleted successfully!"),
           written visits_path
             (filter (fun v : record => v !! "id" ≠ Some visit_id) visits) d)).
Proof.
  intros Hd. unfold OPDUI.delete_visit, try_except, bind. rewrite Hd, save_data_eq.
  change (path_join FileIOManager.data_dir OPDManager.filename) with visits_path.
  case_bool_decide; reflexivity.
Qed.

Lemma delete_patient_eq dp patients patient_id :
  PatientManager.get_all_patients dp = (Return patients, dp) ->
  Forall (fun p : record => is_Some (p !! "id")) patients ->
  PatientManager.delete_patient patient_id dp
  = (if bool_decide (patients_path ∈ locked dp) then (Return false, dp)
     else (Return true,
           written patients_path
             (filter (fun p : record => p !! "id" ≠ Some patient_id) patients) dp)).
Proof.
  intros Hp Hids. unfold PatientManager.delete_patient, bind, lift.
  rewrite Hp, (without_id_eq _ _ Hids). apply save_data_eq.
Qed.

(** C7, as the code has it.  Deleting writes the list of the records whose
    id is not the given one, in their order, so every record with that id is
    gone and every other record stays.  What is returned says whether the
    write succeeded and not whether a record was found: [delete_patient]
    returns [True], and [delete_visit] announces a deletion, also when no
    record bears the id; the list written is then the list read. *)
Theorem delete_persists_remaining (d : disk) (visits : list record) (visit_id : string)
    (dp : disk) (patients : list record) (patient_id : string) :
  OPDManager.get_all_visits d = (Return visits, d) ->
  PatientManager.get_all_patients dp = (Return patients, dp) ->
  Forall (fun p : record => is_Some (p !! "id")) patients ->
  let remaining := filter (fun v : record => v !! "id" ≠ Some visit_id) visits in
  let remaining_patients :=
    filter (fun p : record => p !! "id" ≠ Some patient_id) patients in
  OPDUI.delete_visit visit_id d
  = (if bool_decide (visits_path ∈ locked d)
     then (Return (OPDUI.ErrorBox "Failed to delete visit!"), d)
     else (Return (OPDUI.InfoBox "Visit deleted successfully!"),
           written visits_path remaining d))
  /\ PatientManager.delete_patient patient_id dp
     = (if bool_decide (patients_path ∈ locked dp) then (Return false, dp)
        else (Return true, written patients_path remaining_patients dp))
  /\ (forall v, v ∈ remaining <-> v ∈ visits /\ v !! "id" ≠ Some visit_id)
  /\ remaining `sublist_of` visits
  /\ ((forall v, v ∈ visits -> v !! "id" ≠ Some visit_id) -> remaining = visits)
  /\ ((forall p, p ∈ patients -> p !! "id" ≠ Some patient_id) ->
      remaining_patients = patients).
Proof.
  intros Hd Hp Hids remaining remaining_patients. split_and!.
  - by apply delete_visit_eq.
  - by apply delete_patient_eq.
  - intros v. unfold remaining. rewrite list_elem_of_filter. tauto.
  - apply sublist_filter.
  - apply filter_other_ids.
  - apply filter_other_ids.
Qed.

Lemma delete_persists_remaining_witness :
  let patients := [ (<["id" := "PAT001"]> (<["name" := "Asha"]> ∅) : record) ] in
  OPDManager.get_all_visits (store_of example_visits)
    = (Return example_visits, store_of example_visits)
  /\ PatientManager.get_all_patients (patient_store_of patients)
     = (Return patients, patient_store_of patients)
  /\ Forall (fun p : record => is_Some (p !! "id")) patients
  /\ filter (fun v : record => v !! "id" ≠ Some "OPD003") example_visits
     `sublist_of` example_visits.
Proof.
  intros patients.
  pose proof (get_all_visits_store_of example_visits) as H.
  assert (Hp : PatientManager.get_all_patients (patient_store_of patients)
               = (Return patients, patient_store_of patients))
    by (apply get_all_patients_stored; reflexivity).
  assert (Hids : Forall (fun p : record => is_Some (p !! "id")) patients)
    by (repeat constructor; eexists; vm_compute; reflexivity).
  split; [exact H|]. split; [exact Hp|]. split; [exact Hids|].
  exact (proj1 (proj2 (proj2 (proj2
    (delete_persists_remaining (store_of example_visits) example_visits "OPD003"
       (patient_store_of patients) patients "PAT001" H Hp Hids))))).
Defined.

(** C7 as the specification words it fails: deleting an id that no record
    bears does not return [False].  [delete_patient] returns [True] and
    [delete_visit] shows the success box, and the store is written again. *)
Lemma delete_absent_counterexample :
  let patients := [ (<["id" := "PAT001"]> (<["name" := "Asha"]> ∅) : record) ] in
  (PatientManager.delete_patient "PAT999" (patient_store_of patients)).1 = Return true
  /\ (PatientManager.delete_patient "PAT999" (patient_store_of patients)).1 ≠ Return false
  /\ (OPDUI.delete_visit "OPD999" (store_of example_visits)).1
     = Return (OPDUI.InfoBox "Visit deleted successfully!")
  /\ journal (OPDUI.delete_visit "OPD999" (store_of example_visits)).2
     = [(visits_path, example_visits)].
Proof.
  intros patients.
  assert (Hp : PatientManager.get_all_patients (patient_store_of patients)
               = (Return patients, patient_store_of patients))
    by (apply get_all_patients_stored; reflexivity).
  assert (Hids : Forall (fun p : record => is_Some (p !! "id")) patients)
    by (repeat constructor; eexists; vm_compute; reflexivity).
  pose proof (delete_visit_eq (store_of example_visits) example_visits "OPD999"
                (get_all_visits_store_of example_visits)) as Hv.
  pose proof (delete_patient_eq (patient_store_of patients) patients "PAT999" Hp Hids)
    as Hdp.
  pose proof (filter_other_ids "OPD999" example_visits) as Hsame.
  assert (Hret : (PatientManager.delete_patient "PAT999" (patient_store_of patients)).1
                 = Return true) by (rewrite Hdp; reflexivity).
  split_and!.
  - exact Hret.
  - rewrite Hret. discriminate.
  - rewrite Hv. reflexivity.
  - rewrite Hv. simpl. rewrite Hsame; [reflexivity|].
    intros v Hv'. unfold example_visits in Hv'.
    repeat (apply elem_of_cons in Hv' as [->|Hv']); try (vm_compute; discriminate).
    by apply elem_of_nil in Hv'.
Qed.

(** ** Loading *)

Lemma load_data_decodable filename d :
  files d !! path_join FileIOManager.data_dir filename ≠ Some Undecodable ->
  exists data, FileIOManager.load_data filename d = (Return data, d).
Proof.
  intros H. rewrite load_data_eq.
  destruct (files d !! _) as [[| | |]|]; eauto. contradiction.
Qed.

(** C10 at the input where the code departs from it.  A store file whose
    bytes are not UTF-8 text (a file cut inside a multi-byte character, say)
    makes [json.load] raise [UnicodeDecodeError], which is neither a
    [JSONDecodeError] nor an [IOError]: [load_data] lets it through, and so
    do [get_all_visits] and the filters built on it.  On an absent file, an
    unreadable file and a text that is not JSON, [load_data] returns the
    empty list, and on every file but the one above it returns a list. *)
Theorem load_data_undecodable_raises :
  let d := Disk (<["data/opd_visits.json" := Undecodable]> ∅) ∅ [] in
  FileIOManager.load_data "opd_visits.json" d = (Raise UnicodeDecodeError, d)
  /\ OPDManager.get_all_visits d = (Raise UnicodeDecodeError, d)
  /\ OPDManager.get_visits_by_patient "PAT001" d = (Raise UnicodeDecodeError, d)
  /\ OPDManager.get_todays_visits (Datetime 2026 11 3 9 0 0 0) d
     = (Raise UnicodeDecodeError, d)
  /\ FileIOManager.load_errors UnicodeDecodeError = false
  /\ (forall filename d',
        match files d' !! path_join FileIOManager.data_dir filename with
        | None | Some Malformed | Some Unreadable =>
            FileIOManager.load_data filename d' = (Return [], d')
        | Some (Stored data) => FileIOManager.load_data filename d' = (Return data, d')
        | Some Undecodable =>
            FileIOManager.load_data filename d' = (Raise UnicodeDecodeError, d')
        end).
Proof.
  intros d.
  assert (H : FileIOManager.load_data "opd_visits.json" d = (Raise UnicodeDecodeError, d)).
  { rewrite load_data_eq.
    change (path_join FileIOManager.data_dir "opd_visits.json") with "data/opd_visits.json".
    unfold d. simpl. by rewrite lookup_insert_eq. }
  split_and!.
  - exact H.
  - exact H.
  - unfold OPDManager.get_visits_by_patient, bind, OPDManager.get_all_visits,
      OPDManager.filename. by rewrite H.
  - unfold OPDManager.get_todays_visits, bind, OPDManager.get_all_visits,
      OPDManager.filename. by rewrite H.
  - reflexivity.
  - intros filename d'. rewrite load_data_eq.
    destruct (files d' !! _) as [[| | |]|]; reflexivity.
Qed.

(** ** Numbers and their text *)

Lemma digit_char_spec m :
  0 <= m < 10 -> Py.is_digit (Py.digit_char m) = true /\ Py.digit_value (Py.digit_char m) = m.
Proof.
  intros H.
  assert (m = 0 \/ m = 1 \/ m = 2 \/ m = 3 \/ m = 4 \/ m = 5 \/ m = 6 \/ m = 7
          \/ m = 8 \/ m = 9) as Hm by lia.
  repeat (destruct Hm as [->|Hm]; [split; reflexivity|]). subst m. split; reflexivity.
Qed.

Lemma decimal_value_snoc ds c :
  decimal_value (ds ++ [c]) = 10 * decimal_value ds + Py.digit_value c.
Proof. unfold decimal_value. by rewrite foldl_app. Qed.

Lemma digits_fuel_spec fuel n acc :
  0 <= n < 2 ^ (Z.of_nat fuel + 1) ->
  exists ds, Py.digits_fuel fuel n acc = (ds ++ acc)%list
             /\ Forall (fun c => Py.is_digit c = true) ds /\ ds ≠ []
             /\ decimal_value ds = n.
Proof.
  revert n acc. induction fuel as [|fuel IH]; intros n acc Hn.
  - assert (0 <= n < 10) as Hd by (simpl in Hn; lia).
    exists [Py.digit_char n]. simpl Py.digits_fuel. rewrite Z.mod_small by done.
    destruct (digit_char_spec n Hd) as [H1 H2].
    split_and!; [done|by repeat constructor|done|].
    unfold decimal_value. simpl. lia.
  - simpl Py.digits_fuel. destruct (Z.ltb_spec n 10) as [Hlt|Hge].
    + exists [Py.digit_char n]. rewrite Z.mod_small by lia.
      destruct (digit_char_spec n) as [H1 H2]; [lia|].
      split_and!; [done|by repeat constructor|done|].
      unfold decimal_value. simpl. lia.
    + destruct (IH (n / 10) (Py.digit_char (n mod 10) :: acc)) as [ds [H1 [H2 [H3 H4]]]].
      { split; [apply Z.div_pos; lia|].
        apply Z.div_lt_upper_bound; [lia|].
        replace (Z.of_nat (S fuel) + 1) with (Z.succ (Z.of_nat fuel + 1)) in Hn by lia.
        rewrite Z.pow_succ_r in Hn by lia. lia. }
      exists (ds ++ [Py.digit_char (n mod 10)])%list.
      destruct (digit_char_spec (n mod 10)) as [Hc1 Hc2];
        [apply Z.mod_pos_bound; lia|].
      split_and!.
      * by rewrite H1, <- app_assoc.
      * apply Forall_app. split; [done|by repeat constructor].
      * by destruct ds.
      * rewrite decimal_value_snoc, H4, Hc2.
        pose proof (Z.div_mod n 10). lia.
Qed.

Lemma digits_spec n :
  0 <= n ->
  Forall (fun c => Py.is_digit c = true) (Py.digits n) /\ Py.digits n ≠ []
  /\ decimal_value (Py.digits n) = n.
Proof.
  intros Hn. unfold Py.digits.
  destruct (digits_fuel_spec (Z.to_nat (Z.log2 n)) n []) as [ds [H1 [H2 [H3 H4]]]].
  - rewrite Z2Nat.id by apply Z.log2_nonneg.
    destruct (Z.eq_dec n 0) as [->|Hne]; [simpl; lia|].
    pose proof (Z.log2_spec n). lia.
  - rewrite H1, app_nil_r. done.
Qed.

Lemma zero_pad_spec w ds :
  Forall (fun c => Py.is_digit c = true) ds -> ds ≠ [] ->
  Forall (fun c => Py.is_digit c = true) (Py.zero_pad w ds) /\ Py.zero_pad w ds ≠ []
  /\ decimal_value (Py.zero_pad w ds) = decimal_value ds.
Proof.
  intros Hds Hne. unfold Py.zero_pad. generalize (w - length ds)%nat as k.
  induction k as [|k [IH1 [IH2 IH3]]]; simpl; [done|].
  split_and!; [by constructor|done|].
  revert IH3. unfold decimal_value. simpl. generalize (repeat "0"%char k ++ ds)%list.
  intros l. change (10 * 0 + Py.digit_value "0") with 0. done.
Qed.

Lemma int_digits_spec ds acc :
  Forall (fun c => Py.is_digit c = true) ds ->
  Py.int_digits acc ds = Some (foldl (fun acc c => 10 * acc + Py.digit_value c) acc ds).
Proof.
  intros H. revert acc. induction H as [|c ds Hc _ IH]; intros acc; simpl; [done|].
  by rewrite Hc, IH.
Qed.

Lemma digit_not_space c : Py.is_digit c = true -> Py.int_space c = false.
Proof.
  unfold Py.is_digit, Py.int_space. intros [H1 H2]%andb_true_iff.
  apply Z.leb_le in H1, H2.
  repeat (apply orb_false_iff; split); try apply Z.eqb_neq; lia.
Qed.

Lemma drop_while_head {A} (p : A -> bool) x l :
  p x = false -> Py.drop_while p (x :: l) = x :: l.
Proof. intros H. simpl. by rewrite H. Qed.

Lemma strip_digits ds :
  Forall (fun c => Py.is_digit c = true) ds -> Py.strip_with Py.int_space ds = ds.
Proof.
  intros H. unfold Py.strip_with. destruct ds as [|c ds]; [done|].
  rewrite drop_while_head by (apply digit_not_space; by inversion H).
  destruct (rev (c :: ds)) as [|x l] eqn:E.
  - apply (f_equal (@rev ascii)) in E. rewrite rev_involutive in E. discriminate E.
  - rewrite drop_while_head; [by rewrite <- E, rev_involutive|].
    apply digit_not_space. rewrite Forall_forall in H. apply H.
    apply list_elem_of_In, in_rev. rewrite E. left. done.
Qed.

Lemma int_of_digits ds :
  Forall (fun c => Py.is_digit c = true) ds -> ds ≠ [] ->
  Py.int (string_of_list_ascii ds) = Some (decimal_value ds).
Proof.
  intros H Hne. unfold Py.int.
  rewrite list_ascii_of_string_of_list_ascii, strip_digits by done.
  destruct ds as [|c ds]; [done|]. inversion H as [|? ? Hc Hds]; subst.
  destruct (Ascii.eqb_spec c "-") as [->|_]; [discriminate Hc|].
  destruct (Ascii.eqb_spec c "+") as [->|_]; [discriminate Hc|].
  unfold Py.int_unsigned. rewrite Hc, int_digits_spec by done.
  unfold decimal_value. simpl. reflexivity.
Qed.

(** Reading back a formatted number gives the number. *)
Lemma int_format_0d w n : 0 <= n -> Py.int (Py.format_0d w n) = Some n.
Proof.
  intros Hn. unfold Py.format_0d.
  destruct (Z.ltb_spec n 0); [lia|].
  destruct (digits_spec n Hn) as [H1 [H2 H3]].
  destruct (zero_pad_spec w _ H1 H2) as [H4 [H5 H6]].
  rewrite int_of_digits by done. congruence.
Qed.

Lemma substring_all s : String.substring 0 (String.length s) s = s.
Proof. induction s as [|c s IH]; simpl; [done|]. by rewrite IH. Qed.

Lemma opd_prefix s :
  Py.startswith ("OPD" +:+ s) "OPD" = true /\ Py.drop_prefix 3 ("OPD" +:+ s) = s.
Proof.
  change ("OPD" +:+ s) with (String "O" (String "P" (String "D" s))).
  split; [unfold Py.startswith; by destruct s|].
  unfold Py.drop_prefix. simpl. by rewrite Nat.sub_0_r, substring_all.
Qed.

Lemma numeric_id_opd (v : record) n :
  0 <= n -> v !! "id" = Some (opd_id n) -> numeric_id "OPD" v = Some n.
Proof.
  intros Hn Hv. unfold numeric_id. rewrite Hv. unfold opd_id.
  destruct (opd_prefix (Py.format_0d 3 n)) as [Hp Hd].
  change (Some ("OPD" +:+ Py.format_0d 3 n) ≫= _)
    with (Py.int (if negb (String.eqb "OPD" "")
                       && Py.startswith ("OPD" +:+ Py.format_0d 3 n) "OPD"
                  then Py.drop_prefix 3 ("OPD" +:+ Py.format_0d 3 n)
                  else "OPD" +:+ Py.format_0d 3 n)).
  rewrite Hp, Hd. simpl. by apply int_format_0d.
Qed.

Lemma opd_id_inj a b : 0 <= a -> 0 <= b -> opd_id a = opd_id b -> a = b.
Proof.
  intros Ha Hb H. unfold opd_id in H. apply (inj (String.app "OPD")) in H.
  apply (f_equal Py.int) in H. rewrite !int_format_0d in H by done. congruence.
Qed.

(** ** The next id *)

Lemma generate_id_step_eq prefix m item :
  FileIOManager.generate_id_step prefix m item
  = match numeric_id prefix item with
    | Some k => Z.max m k
    | None => m
    end.
Proof.
  unfold FileIOManager.generate_id_step, numeric_id.
  destruct (item !! "id") as [id_str|]; reflexivity.
Qed.

Lemma foldl_step_spec prefix data a :
  let m := foldl (FileIOManager.generate_id_step prefix) a data in
  a <= m
  /\ (forall item k, item ∈ data -> numeric_id prefix item = Some k -> k <= m)
  /\ (m = a \/ exists item, item ∈ data /\ numeric_id prefix item = Some m).
Proof.
  revert a. induction data as [|item data IH]; intros a; simpl.
  - split_and!; [lia| |by left]. intros item k Hin. by apply elem_of_nil in Hin.
  - destruct (IH (FileIOManager.generate_id_step prefix a item)) as [H1 [H2 H3]].
    rewrite generate_id_step_eq in *.
    destruct (numeric_id prefix item) as [k0|] eqn:E.
    + split_and!.
      * lia.
      * intros item' k Hin Hk. apply elem_of_cons in Hin as [->|Hin].
        -- rewrite E in Hk. injection Hk as <-. lia.
        -- by apply (H2 item').
      * destruct H3 as [H3|[item' [Hin Hk]]].
        -- destruct (Z.max_spec a k0) as [[? Hmax]|[? Hmax]]; rewrite Hmax in *.
           ++ right. exists item. split; [left|congruence].
           ++ by left.
        -- right. exists item'. split; [by right|done].
    + split_and!.
      * lia.
      * intros item' k Hin Hk. apply elem_of_cons in Hin as [->|Hin].
        -- congruence.
        -- by apply (H2 item').
      * destruct H3 as [H3|[item' [Hin Hk]]]; [by left|].
        right. exists item'. split; [by right|done].
Qed.

Lemma max_id_spec prefix data :
  0 <= max_id prefix data
  /\ (forall item k, item ∈ data -> numeric_id prefix item = Some k ->
        k <= max_id prefix data)
  /\ (max_id prefix data = 0
      \/ exists item, item ∈ data /\ numeric_id prefix item = Some (max_id prefix data)).
Proof. apply (foldl_step_spec prefix data 0). Qed.

Lemma generate_id_eq data prefix :
  FileIOManager.generate_id data prefix
  = prefix +:+ Py.format_0d 3 (max_id prefix data + 1).
Proof. destruct data; reflexivity. Qed.

Lemma add_visit_eq d visits visit_data now_date now_time :
  OPDManager.get_all_visits d = (Return visits, d) ->
  OPDManager.add_visit visit_data now_date now_time d
  = (if bool_decide (visits_path ∈ locked d) then (Return false, d)
     else (Return true,
           written visits_path
             (visits ++ [stamped visits visit_data now_date now_time]) d)).
Proof.
  intros Hd. unfold OPDManager.add_visit, bind. rewrite Hd.
  apply save_data_eq.
Qed.

(** C3, as the code has it.  [add_visit] gives the new record the id OPD
    followed by the number, padded with zeros to three digits, that is one
    more than the greatest number found in the ids of the store (OPD001 when
    the store is empty), sets [visit_date] and [visit_time] from the clock,
    keeps the other fields, appends the record at the end of the list and
    writes the whole list.  What it returns once the list is written is
    [True], the boolean of [save_data], and not the stored record. *)
Theorem add_visit_assigns_next_id (d : disk) (visits : list record)
    (visit_data : record) (now_date now_time : datetime) :
  OPDManager.get_all_visits d = (Return visits, d) ->
  visits_path ∉ locked d ->
  exists (n : Z) (stored : record),
    OPDManager.add_visit visit_data now_date now_time d
    = (Return true, written visits_path (visits ++ [stored]) d)
    /\ OPDManager.get_all_visits (written visits_path (visits ++ [stored]) d)
       = (Return (visits ++ [stored]), written visits_path (visits ++ [stored]) d)
    /\ stored !! "id" = Some ("OPD" +:+ Py.format_0d 3 n)
    /\ 1 <= n
    /\ (forall item k, item ∈ visits -> numeric_id "OPD" item = Some k -> k < n)
    /\ (n = 1 \/ exists item, item ∈ visits /\ numeric_id "OPD" item = Some (n - 1))
    /\ (visits = [] -> stored !! "id" = Some "OPD001")
    /\ stored !! "visit_date" = Some (strftime_date now_date)
    /\ stored !! "visit_time" = Some (strftime_time now_time)
    /\ (forall k, k ≠ "id" -> k ≠ "visit_date" -> k ≠ "visit_time" ->
        stored !! k = visit_data !! k).
Proof.
  intros Hd Hw.
  exists (max_id "OPD" visits + 1), (stamped visits visit_data now_date now_time).
  destruct (max_id_spec "OPD" visits) as [H0 [Hub Hmax]].
  split_and!.
  - by rewrite (add_visit_eq _ _ _ _ _ Hd), bool_decide_eq_false_2.
  - apply get_all_visits_written.
  - unfold stamped. rewrite !lookup_insert_ne by done.
    by rewrite lookup_insert_eq, generate_id_eq.
  - lia.
  - intros item k Hin Hk. specialize (Hub item k Hin Hk). lia.
  - destruct Hmax as [Hz|[item [Hin Hk]]]; [left; lia|].
    right. exists item. split; [done|]. rewrite Hk. f_equal. lia.
  - intros ->. unfold stamped. rewrite !lookup_insert_ne by done.
    by rewrite lookup_insert_eq.
  - unfold stamped. rewrite lookup_insert_ne by done. by rewrite lookup_insert_eq.
  - unfold stamped. by rewrite lookup_insert_eq.
  - intros k H1 H2 H3. unfold stamped. by rewrite !lookup_insert_ne.
Qed.

Lemma add_visit_assigns_next_id_witness :
  let now := Datetime 2026 11 3 9 20 0 0 in
  let visit_data : record :=
    <["patient_id" := "PAT001"]> (<["status" := "Waiting"]> ∅) in
  OPDManager.get_all_visits (store_of example_visits)
    = (Return example_visits, store_of example_visits)
  /\ (visits_path ∉ locked (store_of example_visits))
  /\ exists (n : Z) (stored : record),
       (OPDManager.add_visit visit_data now now (store_of example_visits)).1 = Return true
       /\ stored !! "id" = Some ("OPD" +:+ Py.format_0d 3 n)
       /\ 1 <= n.
Proof.
  intros now visit_data.
  pose proof (get_all_visits_store_of example_visits) as H.
  assert (Hw : visits_path ∉ locked (store_of example_visits))
    by (apply not_elem_of_empty).
  split; [exact H|]. split; [exact Hw|].
  destruct (add_visit_assigns_next_id (store_of example_visits) example_visits
              visit_data now now H Hw) as [n [stored [Ha [_ [Hid [Hn _]]]]]].
  exists n, stored. split; [|split; [exact Hid|exact Hn]].
  rewrite Ha. reflexivity.
Defined.

(** C3 as the specification words it fails in its last part: what
    [add_visit] returns is the boolean of [save_data], not the stored
    record. *)
Lemma add_visit_returns_bool_counterexample :
  let now := Datetime 2026 11 3 9 20 0 0 in
  let visit_data : record :=
    <["patient_id" := "PAT001"]> (<["status" := "Waiting"]> ∅) in
  let result := OPDManager.add_visit visit_data now now (store_of []) in
  let stored := stamped [] visit_data now now in
  result.1 = Return true
  /\ files result.2 !! visits_path = Some (Stored [stored])
  /\ stored !! "id" = Some "OPD001"
  /\ (PyBool <$> match result.1 with Return b => Some b | Raise _ => None end)
     ≠ Some (PyDict stored).
Proof.
  intros now visit_data result stored.
  pose proof (add_visit_eq (store_of []) [] visit_data now now
                (get_all_visits_store_of [])) as H.
  change (OPDManager.add_visit visit_data now now (store_of [])) with result in H.
  assert (Hr : result = (Return true, written visits_path [stored] (store_of [])))
    by (rewrite H; reflexivity).
  rewrite Hr. split_and!.
  - reflexivity.
  - simpl. apply lookup_insert_eq.
  - vm_compute. reflexivity.
  - simpl. discriminate.
Qed.

(** ** Ids along a sequence of operations *)

Lemma stored_visits_eq d visits :
  OPDManager.get_all_visits d = (Return visits, d) -> stored_visits d = visits.
Proof. intros H. unfold stored_visits. by rewrite H. Qed.

Lemma readable_or_raises d :
  (exists visits, OPDManager.get_all_visits d = (Return visits, d))
  \/ OPDManager.get_all_visits d = (Raise UnicodeDecodeError, d).
Proof.
  unfold OPDManager.get_all_visits. rewrite load_data_eq.
  destruct (files d !! _) as [[| | |]|]; eauto.
Qed.

Lemma max_id_numbered visits v k :
  v ∈ visits -> v !! "id" = Some (opd_id k) -> 0 <= k -> k <= max_id "OPD" visits.
Proof.
  intros Hin Hid Hk. destruct (max_id_spec "OPD" visits) as [_ [Hub _]].
  apply (Hub v k Hin). by apply numeric_id_opd.
Qed.

Lemma stamped_id visits visit_data now_date now_time :
  stamped visits visit_data now_date now_time !! "id"
  = Some (opd_id (max_id "OPD" visits + 1)).
Proof.
  unfold stamped. rewrite !lookup_insert_ne by done.
  by rewrite lookup_insert_eq, generate_id_eq.
Qed.

(** What an [Add] does to a store that can be read. *)
Lemma add_step d visits visit_data now_date now_time :
  OPDManager.get_all_visits d = (Return visits, d) ->
  let o := Add visit_data now_date now_time in
  (apply_op o d = d /\ new_id o d = None)
  \/ (new_id o d = Some (opd_id (max_id "OPD" visits + 1))
      /\ OPDManager.get_all_visits (apply_op o d)
         = (Return (visits ++ [stamped visits visit_data now_date now_time]),
            apply_op o d)).
Proof.
  intros Hd o. unfold o, new_id, apply_op.
  rewrite (add_visit_eq _ _ _ _ _ Hd).
  case_bool_decide; [by left|right]. simpl.
  rewrite (stored_visits_eq _ _ (get_all_visits_written _ _)).
  rewrite last_snoc. simpl. split; [apply stamped_id|apply get_all_visits_written].
Qed.

(** What a [Delete] does to a store that can be read. *)
Lemma delete_step d visits visit_id :
  OPDManager.get_all_visits d = (Return visits, d) ->
  exists visits', OPDManager.get_all_visits (apply_op (Delete visit_id) d)
                  = (Return visits', apply_op (Delete visit_id) d)
                  /\ visits' ⊆ visits.
Proof.
  intros Hd. unfold apply_op. rewrite (delete_visit_eq _ _ _ Hd).
  case_bool_decide; simpl.
  - by exists visits.
  - eexists. split; [apply get_all_visits_written|].
    intros v Hv. by apply list_elem_of_filter in Hv as [_ ?].
Qed.

(** On a store that cannot be read nothing is stored and nothing changes. *)
Lemma raises_step o d e :
  OPDManager.get_all_visits d = (Raise e, d) -> apply_op o d = d /\ new_id o d = None.
Proof.
  intros Hd. destruct o as [visit_data now_date now_time|visit_id];
    unfold apply_op, new_id, OPDManager.add_visit, OPDUI.delete_visit, try_except, bind;
    rewrite Hd; done.
Qed.

Lemma run_raises ops d e :
  OPDManager.get_all_visits d = (Raise e, d) -> run ops d = [].
Proof.
  intros Hd. induction ops as [|o ops IH]; [done|]. simpl.
  destruct (raises_step o d e Hd) as [-> ->]. exact IH.
Qed.

Lemma run_exceeds ops : forall d, Forall exceeds_stored (run ops d).
Proof.
  induction ops as [|o ops IH]; intros d; simpl; [constructor|].
  destruct (readable_or_raises d) as [[visits Hd]|Hd].
  2: { destruct (raises_step o d _ Hd) as [-> ->]. apply IH. }
  destruct o as [visit_data now_date now_time|visit_id].
  - destruct (add_step d visits visit_data now_date now_time Hd)
      as [[Hsame Hnone]|[Hnew Hd']].
    + rewrite Hnone, Hsame. apply IH.
    + rewrite Hnew. constructor; [|apply IH].
      exists (max_id "OPD" visits + 1). simpl.
      destruct (max_id_spec "OPD" visits) as [H0 [Hub _]].
      split_and!; [done|lia|].
      rewrite (stored_visits_eq _ _ Hd). intros v Hv. split.
      * intros Hid. pose proof (max_id_numbered visits v _ Hv Hid). lia.
      * intros k Hk. specialize (Hub v k Hv Hk). lia.
  - change (new_id (Delete visit_id) d) with (@None string). cbv iota. apply IH.
Qed.

Lemma run_adds_increase adds : forall d,
  exists ns, map snd (run (map add_op adds) d) = map opd_id ns
             /\ StronglySorted Z.lt ns
             /\ Forall (fun n => max_id "OPD" (stored_visits d) < n) ns.
Proof.
  induction adds as [|[[visit_data now_date] now_time] adds IH]; intros d.
  { exists []. split_and!; constructor. }
  destruct (readable_or_raises d) as [[visits Hd]|Hd].
  2: { rewrite (run_raises _ _ _ Hd). exists []. split_and!; constructor. }
  change (map add_op ((visit_data, now_date, now_time) :: adds))
    with (Add visit_data now_date now_time :: map add_op adds).
  cbn [run].
  destruct (add_step d visits visit_data now_date now_time Hd)
    as [[Hsame Hnone]|[Hnew Hd']].
  - rewrite Hnone, Hsame. apply IH.
  - rewrite Hnew. destruct (IH (apply_op (Add visit_data now_date now_time) d))
      as [ns [Hmap [Hsorted Hgt]]].
    rewrite (stored_visits_eq _ _ Hd') in Hgt. rewrite (stored_visits_eq _ _ Hd).
    assert (Hn : max_id "OPD" visits + 1
                 <= max_id "OPD" (visits ++ [stamped visits visit_data now_date now_time])).
    { destruct (max_id_spec "OPD" visits) as [H0 _].
      eapply max_id_numbered; [|apply stamped_id|lia].
      apply elem_of_app. right. left. }
    exists (max_id "OPD" visits + 1 :: ns). split_and!.
    + change (opd_id (max_id "OPD" visits + 1)
              :: map snd (run (map add_op adds)
                            (apply_op (Add visit_data now_date now_time) d))
              = opd_id (max_id "OPD" visits + 1) :: map opd_id ns).
      by rewrite Hmap.
    + constructor; [done|]. eapply Forall_impl; [exact Hgt|]. simpl. lia.
    + constructor; [lia|]. eapply Forall_impl; [exact Hgt|]. simpl. lia.
Qed.

(** C2, as the code has it.  Along every sequence of adds and deletes on
    the visit store, each id that an add generates is OPD followed by a
    number from 1 on that is greater than every number read in the ids of the
    store at that moment (the number read in an id OPDnnn is nnn), so the new
    id is the id of no record then stored; along adds alone the generated ids
    are strictly increasing.  Ids of deleted records are not remembered:
    after OPD001, OPD002, OPD003, deleting OPD002 and adding gives OPD004,
    and deleting OPD003 and adding gives OPD003 again. *)
Theorem generated_ids_exceed_stored (ops : list op)
    (adds : list (record * datetime * datetime)) (d : disk) :
  Forall exceeds_stored (run ops d)
  /\ (forall (v : record) k,
        0 <= k /\ v !! "id" = Some (opd_id k) -> numeric_id "OPD" v = Some k)
  /\ (exists ns, map snd (run (map add_op adds) d) = map opd_id ns
                 /\ StronglySorted Z.lt ns)
  /\ map snd (run [checkin "PAT001"; checkin "PAT002"; checkin "PAT003";
                   Delete "OPD002"; checkin "PAT004"] (store_of []))
     = ["OPD001"; "OPD002"; "OPD003"; "OPD004"]
  /\ map snd (run [checkin "PAT001"; checkin "PAT002"; checkin "PAT003";
                   Delete "OPD003"; checkin "PAT004"] (store_of []))
     = ["OPD001"; "OPD002"; "OPD003"; "OPD003"].
Proof.
  split_and!.
  - apply run_exceeds.
  - intros v k [Hk Hv]. by apply numeric_id_opd.
  - destruct (run_adds_increase adds d) as [ns [H1 [H2 _]]]. by exists ns.
  - vm_compute. reflexivity.
  - vm_compute. reflexivity.
Qed.

(** C2 as the specification words it fails: once the record with the
    greatest id is deleted, the next add generates that id again.  After
    OPD001, OPD002 and OPD003, deleting OPD003 and adding gives OPD003, not
    OPD004, so the generated ids are not strictly increasing and an id is
    used twice. *)
Lemma id_reuse_counterexample :
  let ops := [checkin "PAT001"; checkin "PAT002"; checkin "PAT003";
              Delete "OPD003"; checkin "PAT004"] in
  let ids := map snd (run ops (store_of [])) in
  ids = ["OPD001"; "OPD002"; "OPD003"; "OPD003"]
  /\ ids !! 3%nat ≠ Some "OPD004"
  /\ ~ NoDup ids.
Proof.
  intros ops ids.
  assert (H : ids = ["OPD001"; "OPD002"; "OPD003"; "OPD003"])
    by (vm_compute; reflexivity).
  rewrite H. split_and!.
  - reflexivity.
  - discriminate.
  - intros Hnd. apply NoDup_cons in Hnd as [_ Hnd]. apply NoDup_cons in Hnd as [_ Hnd].
    apply NoDup_cons in Hnd as [Hnot _]. apply Hnot. left.
Qed.

(** * Further properties of the code *)

(** ** Saving and loading *)

Lemma path_join_data_inj b1 b2 :
  path_join FileIOManager.data_dir b1 = path_join FileIOManager.data_dir b2 -> b1 = b2.
Proof.
  unfold path_join, FileIOManager.data_dir, Py.startswith.
  assert (Habs : forall b, String.prefix "/" b = true -> exists b', b = String "/" b').
  { intros [|c b] H; apply String.prefix_correct in H; simpl in H; [discriminate H|].
    injection H as -> _. by eexists. }
  destruct (String.prefix "/" b1) eqn:E1, (String.prefix "/" b2) eqn:E2; intros H.
  - done.
  - apply Habs in E1 as [b' ->].
    change ("data" +:+ "/" +:+ b2) with (String "d" ("ata" +:+ "/" +:+ b2)) in H.
    discriminate H.
  - apply Habs in E2 as [b' ->].
    change ("data" +:+ "/" +:+ b1) with (String "d" ("ata" +:+ "/" +:+ b1)) in H.
    discriminate H.
  - by apply (inj (String.app "data")), (inj (String.app "/")) in H.
Qed.

(** X1.  What [save_data] writes is what [load_data] then reads, whatever
    the file held before, the write is entered once in the journal; when the
    file cannot be opened for writing [save_data] returns [False] and
    nothing changes. *)
Theorem save_then_load (filename : string) (data : list record) (d : disk) :
  let r := FileIOManager.save_data filename data d in
  if bool_decide (path_join FileIOManager.data_dir filename ∈ locked d)
  then r = (Return false, d)
  else r.1 = Return true
       /\ FileIOManager.load_data filename r.2 = (Return data, r.2)
       /\ journal r.2 = (path_join FileIOManager.data_dir filename, data) :: journal d
       /\ locked r.2 = locked d.
Proof.
  intros r. unfold r. rewrite save_data_eq. case_bool_decide; [done|].
  split_and!; try done. simpl. rewrite load_data_eq.
  unfold written at 1. simpl. by rewrite lookup_insert_eq.
Qed.

(** X2.  The four stores do not touch each other: for two different file
    names among those of the managers (patients.json, appointments.json,
    doctors.json, opd_visits.json), saving under one leaves what [load_data]
    returns for the other as it was.  So adding a patient changes nothing in
    the visits, and adding a visit nothing in the patients. *)
Theorem stores_are_independent (f1 f2 : string) (data : list record) (d : disk)
    (patient_data visit_data : record) (now now' : datetime) :
  f1 ∈ store_files -> f2 ∈ store_files -> f1 ≠ f2 ->
  (FileIOManager.load_data f2 (FileIOManager.save_data f1 data d).2).1
  = (FileIOManager.load_data f2 d).1
  /\ (OPDManager.get_all_visits (PatientManager.add_patient patient_data now d).2).1
     = (OPDManager.get_all_visits d).1
  /\ (PatientManager.get_all_patients (OPDManager.add_visit visit_data now now' d).2).1
     = (PatientManager.get_all_patients d).1.
Proof.
  intros _ _ Hne.
  assert (Hframe : forall g1 g2 l, g1 ≠ g2 ->
    (FileIOManager.load_data g2 (FileIOManager.save_data g1 l d).2).1
    = (FileIOManager.load_data g2 d).1).
  { intros g1 g2 l Hg. rewrite save_data_eq. case_bool_decide; [done|].
    rewrite !load_data_eq. unfold written. simpl.
    rewrite lookup_insert_ne; [done|]. intros H'. by apply path_join_data_inj in H'. }
  split_and!.
  - by apply Hframe.
  - unfold PatientManager.add_patient, bind, PatientManager.get_all_patients,
      OPDManager.get_all_visits.
    rewrite (load_data_eq PatientManager.filename).
    destruct (files d !! _) as [[| | |]|]; simpl; try done; by apply Hframe.
  - unfold OPDManager.add_visit, bind, PatientManager.get_all_patients,
      OPDManager.get_all_visits.
    rewrite (load_data_eq OPDManager.filename).
    destruct (files d !! _) as [[| | |]|]; simpl; try done; by apply Hframe.
Qed.

Lemma stores_are_independent_witness :
  let now := Datetime 2026 11 3 9 20 0 0 in
  let d := store_of example_visits in
  "patients.json" ∈ store_files
  /\ "opd_visits.json" ∈ store_files
  /\ "patients.json" ≠ "opd_visits.json"
  /\ (FileIOManager.load_data "opd_visits.json"
        (FileIOManager.save_data "patients.json" [] d).2).1
     = (FileIOManager.load_data "opd_visits.json" d).1.
Proof.
  intros now d.
  assert (H1 : "patients.json" ∈ store_files) by left.
  assert (H2 : "opd_visits.json" ∈ store_files) by (do 3 right; left).
  assert (H : "patients.json" ≠ "opd_visits.json") by discriminate.
  do 3 (split; [assumption|]).
  exact (proj1 (stores_are_independent "patients.json" "opd_visits.json"
                  [] d ∅ ∅ now now H1 H2 H)).
Defined.

(** ** More on [generate_id] *)

Lemma prefix_app p s : String.prefix p (p +:+ s) = true.
Proof.
  induction p as [|a p IH].
  - change ("" +:+ s) with s. by destruct s.
  - change (String a p +:+ s) with (String a (p +:+ s)). simpl.
    destruct (ascii_dec a a); [exact IH|done].
Qed.

Lemma drop_prefix_app p s : Py.drop_prefix (String.length p) (p +:+ s) = s.
Proof.
  unfold Py.drop_prefix. induction p as [|a p IH].
  - change ("" +:+ s) with s. simpl. by rewrite Nat.sub_0_r, substring_all.
  - change (String a p +:+ s) with (String a (p +:+ s)). simpl. exact IH.
Qed.

Lemma numeric_id_prefixed prefix (v : record) n :
  0 <= n -> v !! "id" = Some (prefix +:+ Py.format_0d 3 n) ->
  numeric_id prefix v = Some n.
Proof.
  intros Hn Hv. unfold numeric_id. rewrite Hv.
  change (Some (prefix +:+ Py.format_0d 3 n) ≫= _)
    with (Py.int (if negb (String.eqb prefix "")
                       && Py.startswith (prefix +:+ Py.format_0d 3 n) prefix
                  then Py.drop_prefix (String.length prefix)
                         (prefix +:+ Py.format_0d 3 n)
                  else prefix +:+ Py.format_0d 3 n)).
  destruct (String.eqb_spec prefix "") as [->|Hne]; simpl.
  - by apply int_format_0d.
  - unfold Py.startswith. rewrite prefix_app, drop_prefix_app. by apply int_format_0d.
Qed.

(** No record numbered [n] under [prefix] stands in a list whose greatest
    number is below [n]. *)
Lemma above_max_unused prefix data (item : record) n :
  max_id prefix data < n -> item ∈ data ->
  item !! "id" ≠ Some (prefix +:+ Py.format_0d 3 n).
Proof.
  intros Hn Hin Hid.
  destruct (max_id_spec prefix data) as [H0 [Hub _]].
  pose proof (Hub item n Hin) as Hle.
  rewrite (numeric_id_prefixed prefix item n) in Hle by (lia || done).
  specialize (Hle eq_refl). lia.
Qed.

(** X3.  The id that [generate_id] returns is the id of no record of the
    list it was given, for every prefix and every list. *)
Theorem generate_id_fresh (data : list record) (prefix : string) (item : record) :
  item ∈ data -> item !! "id" ≠ Some (FileIOManager.generate_id data prefix).
Proof.
  intros Hin. rewrite generate_id_eq. apply (above_max_unused prefix data); [lia|done].
Qed.

Lemma generate_id_fresh_witness :
  let item := example_visit "OPD004" "Emergency" "08:40:00" in
  item ∈ example_visits
  /\ item !! "id" ≠ Some (FileIOManager.generate_id example_visits "OPD").
Proof.
  intros item.
  assert (H : item ∈ example_visits) by (do 3 right; left).
  split; [exact H|].
  exact (generate_id_fresh example_visits "OPD" item H).
Defined.

Lemma max_id_snoc prefix data r :
  max_id prefix (data ++ [r])
  = match numeric_id prefix r with
    | Some k => Z.max (max_id prefix data) k
    | None => max_id prefix data
    end.
Proof. unfold max_id. rewrite foldl_app. simpl. apply generate_id_step_eq. Qed.

(** X4.  The ids count up: once a record bearing the generated id is
    appended, the next id generated is the same prefix with the next
    number. *)
Theorem generate_id_counts_up (data : list record) (prefix : string) (r : record) :
  exists n, 1 <= n
    /\ FileIOManager.generate_id data prefix = prefix +:+ Py.format_0d 3 n
    /\ FileIOManager.generate_id
         (data ++ [<["id" := FileIOManager.generate_id data prefix]> r]) prefix
       = prefix +:+ Py.format_0d 3 (n + 1).
Proof.
  exists (max_id prefix data + 1).
  destruct (max_id_spec prefix data) as [H0 _].
  split_and!; [lia|apply generate_id_eq|].
  rewrite (generate_id_eq (data ++ _)), max_id_snoc.
  rewrite (numeric_id_prefixed prefix _ (max_id prefix data + 1));
    [|lia|by rewrite lookup_insert_eq, generate_id_eq].
  do 2 f_equal. lia.
Qed.

(** X5.  A record without an id, or whose id is not an integer once the
    prefix is taken off, has no part in the next id. *)
Theorem generate_id_skips_unnumbered (data : list record) (prefix : string) (r : record) :
  numeric_id prefix r = None ->
  FileIOManager.generate_id (data ++ [r]) prefix = FileIOManager.generate_id data prefix
  /\ FileIOManager.generate_id (r :: data) prefix = FileIOManager.generate_id data prefix.
Proof.
  intros Hr. rewrite !generate_id_eq. split.
  - by rewrite max_id_snoc, Hr.
  - unfold max_id. simpl. by rewrite generate_id_step_eq, Hr.
Qed.

Lemma generate_id_skips_unnumbered_witness :
  let r : record := <["id" := "PAT005"]> ∅ in
  numeric_id "OPD" r = None
  /\ FileIOManager.generate_id (example_visits ++ [r]) "OPD"
     = FileIOManager.generate_id example_visits "OPD".
Proof.
  intros r.
  assert (H : numeric_id "OPD" r = None) by (vm_compute; reflexivity).
  split; [exact H|].
  exact (proj1 (generate_id_skips_unnumbered example_visits "OPD" r H)).
Defined.

(** ** Patients: adding, updating, deleting and looking up *)

Lemma get_all_patients_written data d :
  PatientManager.get_all_patients (written patients_path data d)
  = (Return data, written patients_path data d).
Proof. apply get_all_patients_stored. unfold written. simpl. apply lookup_insert_eq. Qed.

Lemma get_all_patients_store_of patients :
  PatientManager.get_all_patients (patient_store_of patients)
  = (Return patients, patient_store_of patients).
Proof. apply get_all_patients_stored, lookup_insert_eq. Qed.

Lemma get_patient_by_id_eq d patients patient_id :
  PatientManager.get_all_patients d = (Return patients, d) ->
  PatientManager.get_patient_by_id patient_id d
  = (PatientManager.first_patient patient_id patients, d).
Proof. intros H. unfold PatientManager.get_patient_by_id, bind, lift. by rewrite H. Qed.

Lemma first_patient_absent patient_id patients :
  Forall has_id patients ->
  (forall p, p ∈ patients -> p !! "id" ≠ Some patient_id) ->
  PatientManager.first_patient patient_id patients = Return None.
Proof.
  induction 1 as [|p patients [id_str Hid] _ IH]; intros Habs; simpl; [done|].
  rewrite Hid. rewrite bool_decide_eq_false_2.
  - apply IH. intros q Hq. apply Habs. by right.
  - intros ->. apply (Habs p); [left|done].
Qed.

Lemma first_patient_app patient_id patients q :
  Forall has_id patients ->
  PatientManager.first_patient patient_id (patients ++ [q])
  = match PatientManager.first_patient patient_id patients with
    | Return None => PatientManager.first_patient patient_id [q]
    | r => r
    end.
Proof.
  induction 1 as [|p patients [id_str Hid] _ IH]; simpl.
  - by destruct (q !! "id") as [i|]; [case_bool_decide|].
  - rewrite Hid. case_bool_decide; [done|]. exact IH.
Qed.

Lemma first_patient_filter patient_id other patients :
  Forall has_id patients ->
  PatientManager.first_patient other
    (filter (fun p : record => p !! "id" ≠ Some patient_id) patients)
  = if bool_decide (other = patient_id) then Return None
    else PatientManager.first_patient other patients.
Proof.
  induction 1 as [|p patients [id_str Hid] _ IH].
  - simpl. by case_bool_decide.
  - rewrite filter_cons. destruct (decide (p !! "id" ≠ Some patient_id)) as [Hne|He].
    + simpl. rewrite Hid, IH.
      destruct (bool_decide_reflect (id_str = other)) as [->|]; [|done].
      rewrite bool_decide_eq_false_2; [done|]. intros ->. by apply Hne.
    + rewrite IH. simpl. rewrite Hid.
      assert (id_str = patient_id) as -> by (apply dec_stable in He; congruence).
      case_bool_decide; [done|]. by rewrite bool_decide_eq_false_2.
Qed.

Lemma first_patient_cons patient_id (q : record) patients :
  PatientManager.first_patient patient_id (q :: patients)
  = match q !! "id" with
    | None => Raise (KeyError "id")
    | Some id_str =>
        if bool_decide (id_str = patient_id) then Return (Some q)
        else PatientManager.first_patient patient_id patients
    end.
Proof. reflexivity. Qed.

(** The search of [update_patient] and the loop of [get_patient_by_id] find
    the same record, and merging fields that hold no id into it moves no id. *)
Lemma find_patient_alter patient_id (updated : record) patients : forall k,
  Forall has_id patients -> updated !! "id" = None ->
  match PatientManager.find_patient patient_id k patients with
  | Return None => PatientManager.first_patient patient_id patients = Return None
  | Return (Some j) =>
      exists i old, j = (k + i)%nat
        /\ PatientManager.first_patient patient_id patients = Return (Some old)
        /\ PatientManager.first_patient patient_id
             (alter (fun p : record => updated ∪ p) i patients) = Return (Some (updated ∪ old))
        /\ forall other, other ≠ patient_id ->
             PatientManager.first_patient other
               (alter (fun p : record => updated ∪ p) i patients)
             = PatientManager.first_patient other patients
  | Raise _ => False
  end.
Proof.
  intros k Hids Hu. revert k.
  induction Hids as [|p patients [id_str Hid] _ IH]; intros k; [done|].
  assert (Hup : (updated ∪ p) !! "id" = Some id_str) by (by rewrite lookup_union_r).
  cbn [PatientManager.find_patient]. rewrite Hid. case_bool_decide as Hp.
  - subst id_str. exists 0%nat, p.
    change (alter (fun q : record => updated ∪ q) 0%nat (p :: patients))
      with ((updated ∪ p) :: patients).
    rewrite !first_patient_cons, Hup, Hid, !bool_decide_eq_true_2 by done.
    split_and!; [lia|done|done|].
    intros other Hother.
    by rewrite !first_patient_cons, Hup, Hid, !bool_decide_eq_false_2.
  - specialize (IH (S k)).
    destruct (PatientManager.find_patient patient_id (S k) patients) as [[j|]|e];
      [| |done].
    + destruct IH as [i [old [-> [H1 [H2 H3]]]]].
      exists (S i), old.
      change (alter (fun q : record => updated ∪ q) (S i) (p :: patients))
        with (p :: alter (fun q : record => updated ∪ q) i patients).
      rewrite !first_patient_cons, Hid, !bool_decide_eq_false_2 by done.
      split_and!; [lia|done|done|].
      intros other Hother. by rewrite !first_patient_cons, H3.
    + by rewrite first_patient_cons, Hid, bool_decide_eq_false_2.
Qed.

Lemma add_patient_eq d patients patient_data now :
  PatientManager.get_all_patients d = (Return patients, d) ->
  PatientManager.add_patient patient_data now d
  = (if bool_decide (patients_path ∈ locked d) then (Return false, d)
     else (Return true,
           written patients_path
             (patients ++ [<["registration_date" := strftime_date now]>
                             (<["id" := FileIOManager.generate_id patients "PAT"]>
                                patient_data)]) d)).
Proof.
  intros Hd. unfold PatientManager.add_patient, bind. rewrite Hd. apply save_data_eq.
Qed.

(** X6.  A patient that was added is found again under the id it was given:
    [get_patient_by_id] returns the record stored, which is the record given
    with its new id and its registration date; the patients that were there
    are found as before. *)
Theorem add_patient_then_get (d : disk) (patients : list record)
    (patient_data : record) (now : datetime) :
  PatientManager.get_all_patients d = (Return patients, d) ->
  Forall has_id patients ->
  patients_path ∉ locked d ->
  let r := PatientManager.add_patient patient_data now d in
  exists (patient_id : string) (stored : record),
    r.1 = Return true
    /\ PatientManager.get_patient_by_id patient_id r.2 = (Return (Some stored), r.2)
    /\ stored !! "id" = Some patient_id
    /\ stored !! "registration_date" = Some (strftime_date now)
    /\ (forall k, k ≠ "id" -> k ≠ "registration_date" -> stored !! k = patient_data !! k)
    /\ (forall other, other ≠ patient_id ->
          (PatientManager.get_patient_by_id other r.2).1
          = (PatientManager.get_patient_by_id other d).1).
Proof.
  intros Hd Hids Hw r. unfold r. rewrite (add_patient_eq _ _ _ _ Hd).
  rewrite bool_decide_eq_false_2 by done. simpl.
  set (new_id := FileIOManager.generate_id patients "PAT").
  set (stored := <["registration_date" := strftime_date now]>
                   (<["id" := new_id]> patient_data)).
  assert (Hsid : stored !! "id" = Some new_id).
  { unfold stored. rewrite lookup_insert_ne by done. apply lookup_insert_eq. }
  exists new_id, stored. split_and!.
  - done.
  - rewrite (get_patient_by_id_eq _ _ _ (get_all_patients_written _ _)).
    rewrite first_patient_app by done.
    rewrite first_patient_absent; [|done|].
    + simpl. by rewrite Hsid, bool_decide_eq_true_2.
    + intros p Hp. unfold new_id. rewrite generate_id_eq.
      apply (above_max_unused "PAT" patients); [lia|done].
  - done.
  - unfold stored. apply lookup_insert_eq.
  - intros k H1 H2. unfold stored. by rewrite !lookup_insert_ne.
  - intros other Hother.
    rewrite (get_patient_by_id_eq _ _ _ (get_all_patients_written _ _)).
    rewrite (get_patient_by_id_eq _ _ _ Hd). simpl.
    rewrite first_patient_app by done.
    destruct (PatientManager.first_patient other patients) as [[found|]|e]; try done.
    simpl. rewrite Hsid. by rewrite bool_decide_eq_false_2.
Qed.

Lemma add_patient_then_get_witness :
  let now := Datetime 2026 11 3 9 20 0 0 in
  let patients := [ (<["id" := "PAT001"]> (<["name" := "Asha"]> ∅) : record) ] in
  let d := patient_store_of patients in
  PatientManager.get_all_patients d = (Return patients, d)
  /\ Forall has_id patients
  /\ (patients_path ∉ locked d)
  /\ exists (patient_id : string) (stored : record),
       PatientManager.get_patient_by_id patient_id
         (PatientManager.add_patient (<["name" := "Ravi"]> ∅) now d).2
       = (Return (Some stored),
          (PatientManager.add_patient (<["name" := "Ravi"]> ∅) now d).2).
Proof.
  intros now patients d.
  pose proof (get_all_patients_store_of patients) as H.
  assert (Hids : Forall has_id patients)
    by (repeat constructor; eexists; vm_compute; reflexivity).
  assert (Hw : patients_path ∉ locked d) by (apply not_elem_of_empty).
  split; [exact H|]. split; [exact Hids|]. split; [exact Hw|].
  destruct (add_patient_then_get d patients (<["name" := "Ravi"]> ∅) now H Hids Hw)
    as [patient_id [stored [_ [Hget _]]]].
  exists patient_id, stored. exact Hget.
Defined.

(** X7.  Once a patient is deleted, [get_patient_by_id] finds nobody under
    that id, and finds every other patient as before. *)
Theorem delete_patient_then_get (d : disk) (patients : list record)
    (patient_id : string) :
  PatientManager.get_all_patients d = (Return patients, d) ->
  Forall has_id patients ->
  patients_path ∉ locked d ->
  let r := PatientManager.delete_patient patient_id d in
  r.1 = Return true
  /\ PatientManager.get_patient_by_id patient_id r.2 = (Return None, r.2)
  /\ (forall other, other ≠ patient_id ->
        (PatientManager.get_patient_by_id other r.2).1
        = (PatientManager.get_patient_by_id other d).1).
Proof.
  intros Hd Hids Hw r. unfold r. rewrite (delete_patient_eq _ _ _ Hd Hids).
  rewrite bool_decide_eq_false_2 by done. simpl. split_and!.
  - done.
  - rewrite (get_patient_by_id_eq _ _ _ (get_all_patients_written _ _)).
    by rewrite first_patient_filter, bool_decide_eq_true_2.
  - intros other Hother.
    rewrite (get_patient_by_id_eq _ _ _ (get_all_patients_written _ _)).
    rewrite (get_patient_by_id_eq _ _ _ Hd). simpl.
    by rewrite first_patient_filter, bool_decide_eq_false_2.
Qed.

Lemma delete_patient_then_get_witness :
  let patients := [ (<["id" := "PAT001"]> (<["name" := "Asha"]> ∅) : record);
                    (<["id" := "PAT002"]> (<["name" := "Ravi"]> ∅) : record) ] in
  let d := patient_store_of patients in
  PatientManager.get_all_patients d = (Return patients, d)
  /\ Forall has_id patients
  /\ (patients_path ∉ locked d)
  /\ (PatientManager.delete_patient "PAT001" d).1 = Return true.
Proof.
  intros patients d.
  pose proof (get_all_patients_store_of patients) as H.
  assert (Hids : Forall has_id patients)
    by (repeat constructor; eexists; vm_compute; reflexivity).
  assert (Hw : patients_path ∉ locked d) by (apply not_elem_of_empty).
  split; [exact H|]. split; [exact Hids|]. split; [exact Hw|].
  exact (proj1 (delete_patient_then_get d patients "PAT001" H Hids Hw)).
Defined.

(** X8.  After [update_patient] with fields that hold no id, the patient
    found under the id is the record found before with the fields merged
    into it, and every other patient is found as before; when no patient
    bears the id the call returns [False] and writes nothing. *)
Theorem update_patient_then_get (d : disk) (patients : list record)
    (patient_id : string) (updated_data : record) :
  PatientManager.get_all_patients d = (Return patients, d) ->
  Forall has_id patients ->
  updated_data !! "id" = None ->
  patients_path ∉ locked d ->
  let r := PatientManager.update_patient patient_id updated_data d in
  match PatientManager.first_patient patient_id patients with
  | Return (Some old) =>
      r.1 = Return true
      /\ PatientManager.get_patient_by_id patient_id r.2
         = (Return (Some (updated_data ∪ old)), r.2)
      /\ (forall other, other ≠ patient_id ->
            (PatientManager.get_patient_by_id other r.2).1
            = (PatientManager.get_patient_by_id other d).1)
  | _ => r = (Return false, d)
  end.
Proof.
  intros Hd Hids Hu Hw r. unfold r, PatientManager.update_patient, bind, lift.
  rewrite Hd.
  pose proof (find_patient_alter patient_id updated_data patients 0 Hids Hu) as Hfind.
  destruct (PatientManager.find_patient patient_id 0 patients) as [[j|]|e]; [| |done].
  - destruct Hfind as [i [old [-> [H1 [H2 H3]]]]]. rewrite H1. simpl.
    rewrite save_data_eq.
    change (path_join FileIOManager.data_dir PatientManager.filename) with patients_path.
    rewrite bool_decide_eq_false_2 by done. simpl. split_and!.
    + done.
    + by rewrite (get_patient_by_id_eq _ _ _ (get_all_patients_written _ _)), H2.
    + intros other Hother.
      rewrite (get_patient_by_id_eq _ _ _ (get_all_patients_written _ _)).
      rewrite (get_patient_by_id_eq _ _ _ Hd). simpl. by rewrite H3.
  - by rewrite Hfind.
Qed.

Lemma update_patient_then_get_witness :
  let patients := [ (<["id" := "PAT001"]> (<["name" := "Asha"]> ∅) : record) ] in
  let fields : record := <["phone" := "555"]> ∅ in
  let d := patient_store_of patients in
  PatientManager.get_all_patients d = (Return patients, d)
  /\ Forall has_id patients
  /\ fields !! "id" = None
  /\ (patients_path ∉ locked d)
  /\ (PatientManager.update_patient "PAT001" fields d).1 = Return true.
Proof.
  intros patients fields d.
  pose proof (get_all_patients_store_of patients) as H.
  assert (Hids : Forall has_id patients)
    by (repeat constructor; eexists; vm_compute; reflexivity).
  assert (Hu : fields !! "id" = None) by (vm_compute; reflexivity).
  assert (Hw : patients_path ∉ locked d) by (apply not_elem_of_empty).
  split; [exact H|]. split; [exact Hids|]. split; [exact Hu|]. split; [exact Hw|].
  exact (proj1 (update_patient_then_get d patients "PAT001" fields H Hids Hu Hw)).
Defined.

(** ** Searching patients *)

Lemma string_app_cons a p s : String a p +:+ s = String a (p +:+ s).
Proof. reflexivity. Qed.

Lemma string_app_nil s : "" +:+ s = s.
Proof. reflexivity. Qed.

Lemma prefix_nil s : String.prefix "" s = true.
Proof. by destruct s. Qed.

Lemma prefix_spec p s : String.prefix p s = true <-> exists b, s = p +:+ b.
Proof.
  split.
  - revert s. induction p as [|a p IH]; intros s H.
    + by exists s.
    + destruct s as [|c s]; simpl in H; [discriminate H|].
      destruct (ascii_dec a c) as [->|]; [|discriminate H].
      destruct (IH s H) as [b ->]. by exists b.
  - intros [b ->]. apply prefix_app.
Qed.

Lemma contains_nil_r sub : Py.contains sub "" = String.prefix sub "".
Proof. simpl. apply orb_false_r. Qed.

Lemma contains_cons sub c s :
  Py.contains sub (String c s) = String.prefix sub (String c s) || Py.contains sub s.
Proof. reflexivity. Qed.

Lemma contains_spec sub s :
  Py.contains sub s = true <-> exists a b, s = a +:+ sub +:+ b.
Proof.
  split.
  - induction s as [|c s IH]; intros H.
    + rewrite contains_nil_r in H. apply prefix_spec in H as [b Hb]. by exists "", b.
    + rewrite contains_cons in H. apply orb_true_iff in H as [H|H].
      * apply prefix_spec in H as [b Hb]. by exists "", b.
      * destruct (IH H) as [a [b ->]]. by exists (String c a), b.
  - intros [a [b ->]]. induction a as [|c a IH].
    + rewrite string_app_nil. destruct (sub +:+ b) as [|c s] eqn:E.
      * rewrite contains_nil_r, <- E. apply prefix_app.
      * rewrite contains_cons, <- E, prefix_app. done.
    + rewrite string_app_cons, contains_cons, IH. apply orb_true_r.
Qed.

Lemma lower_app a b : Py.lower (a +:+ b) = Py.lower a +:+ Py.lower b.
Proof.
  induction a as [|c a IH]; [done|].
  rewrite string_app_cons. simpl. by rewrite IH.
Qed.

Lemma contains_lower sub s :
  Py.contains sub s = true -> Py.contains (Py.lower sub) (Py.lower s) = true.
Proof.
  rewrite !contains_spec. intros [a [b ->]].
  exists (Py.lower a), (Py.lower b). by rewrite !lower_app.
Qed.

Lemma lower_char_idem c : Py.lower_char (Py.lower_char c) = Py.lower_char c.
Proof. by destruct c as [[] [] [] [] [] [] [] []]. Qed.

Lemma lower_idem s : Py.lower (Py.lower s) = Py.lower s.
Proof. induction s as [|c s IH]; simpl; [done|]. by rewrite lower_char_idem, IH. Qed.

Lemma contains_nil s : Py.contains "" s = true.
Proof. destruct s; reflexivity. Qed.

Lemma search_patients_eq d patients query :
  PatientManager.get_all_patients d = (Return patients, d) ->
  PatientManager.search_patients query d
  = (Return (filter (fun patient : record =>
                       Py.contains (Py.lower query)
                         (Py.lower (default "" (patient !! "name")))
                       || Py.contains (Py.lower query)
                            (Py.lower (default "" (patient !! "id")))
                       || Py.contains (Py.lower query)
                            (Py.lower (default "" (patient !! "phone")))
                       = true) patients), d).
Proof. intros H. unfold PatientManager.search_patients, bind. by rewrite H. Qed.

(** X9.  What [search_patients] returns is taken from the store, in the
    order of the store, and the directory is as before; the empty query
    returns every patient, and two queries that are one text in lower case
    return the same patients.  A patient is found as soon as one of its name,
    id and phone contains the query in some spelling of its letters' case:
    the query RAO finds the name Asha Rao.  This last part is for ASCII
    text, where [lower] acts letter by letter. *)
Theorem search_patients_finds (d : disk) (patients : list record) (query : string) :
  PatientManager.get_all_patients d = (Return patients, d) ->
  exists found,
    PatientManager.search_patients query d = (Return found, d)
    /\ found `sublist_of` patients
    /\ PatientManager.search_patients "" d = (Return patients, d)
    /\ (forall query', Py.lower query' = Py.lower query ->
          PatientManager.search_patients query' d = (Return found, d))
    /\ (forall (patient : record) (spelled field : string),
          patient ∈ patients ->
          field ∈ searched_fields patient ->
          ascii_text spelled -> ascii_text field ->
          Py.lower spelled = Py.lower query ->
          Py.contains spelled field = true ->
          patient ∈ found).
Proof.
  intros Hd. eexists. split_and!.
  - by apply search_patients_eq.
  - apply sublist_filter.
  - rewrite (search_patients_eq _ _ _ Hd). f_equal. f_equal.
    clear. induction patients as [|p patients IH]; [done|].
    rewrite filter_cons, IH. destruct (decide _) as [|Hn]; [done|].
    exfalso. apply Hn. change (Py.lower "") with "". by rewrite contains_nil.
  - intros query' Hq. rewrite (search_patients_eq _ _ _ Hd). by rewrite Hq.
  - intros patient spelled field Hin Hfield _ _ Hq Hc.
    apply list_elem_of_filter. split; [|done].
    apply contains_lower in Hc. rewrite Hq in Hc. unfold searched_fields in Hfield.
    repeat (apply elem_of_cons in Hfield as [->|Hfield]);
      [| | |by apply elem_of_nil in Hfield]; rewrite Hc; by rewrite ?orb_true_r.
Qed.

Lemma search_patients_finds_witness :
  let asha : record :=
    <["id" := "PAT001"]> (<["name" := "Asha Rao"]> (<["phone" := "555-0101"]> ∅)) in
  let patients := [ asha; (<["id" := "PAT002"]> (<["name" := "Ravi"]> ∅) : record) ] in
  let d := patient_store_of patients in
  PatientManager.get_all_patients d = (Return patients, d)
  /\ asha ∈ patients
  /\ "Asha Rao" ∈ searched_fields asha
  /\ ascii_text "Rao" /\ ascii_text "Asha Rao"
  /\ Py.lower "Rao" = Py.lower "RAO"
  /\ Py.contains "Rao" "Asha Rao" = true
  /\ exists found,
       PatientManager.search_patients "RAO" d = (Return found, d) /\ asha ∈ found.
Proof.
  intros asha patients d.
  pose proof (get_all_patients_store_of patients) as H.
  assert (Hin : asha ∈ patients) by left.
  assert (Hf : "Asha Rao" ∈ searched_fields asha) by left.
  assert (Ha1 : ascii_text "Rao") by (repeat constructor).
  assert (Ha2 : ascii_text "Asha Rao") by (repeat constructor).
  assert (Hl : Py.lower "Rao" = Py.lower "RAO") by reflexivity.
  assert (Hc : Py.contains "Rao" "Asha Rao" = true) by reflexivity.
  do 7 (split; [assumption|]).
  destruct (search_patients_finds d patients "RAO" H) as (found & H1 & _ & _ & _ & H5).
  exists found. split; [exact H1|].
  exact (H5 asha "Rao" "Asha Rao" Hin Hf Ha1 Ha2 Hl Hc).
Defined.

(** ** Listing visits after a check-in *)

Lemma filter_snoc {A} (P : A -> Prop) `{forall x, Decision (P x)} (l : list A) (x : A) :
  filter P (l ++ [x]) = if decide (P x) then filter P l ++ [x] else filter P l.
Proof.
  rewrite filter_app, filter_cons, filter_nil.
  destruct (decide (P x)); [done|by rewrite app_nil_r].
Qed.

Lemma stamped_fields visits visit_data now_date now_time :
  let stored := stamped visits visit_data now_date now_time in
  stored !! "visit_date" = Some (strftime_date now_date)
  /\ stored !! "visit_time" = Some (strftime_time now_time)
  /\ forall k, k ≠ "id" -> k ≠ "visit_date" -> k ≠ "visit_time" ->
       stored !! k = visit_data !! k.
Proof.
  unfold stamped. split_and!.
  - rewrite lookup_insert_ne by done. apply lookup_insert_eq.
  - apply lookup_insert_eq.
  - intros k H1 H2 H3. by rewrite !lookup_insert_ne.
Qed.

(** X10.  A visit that was added is the last of the visits of its patient
    and, for any reading of the clock on the day of the check-in, the last of
    the visits of today; the visits listed before it are those listed before
    the check-in. *)
Theorem add_visit_then_listed (d : disk) (visits : list record) (visit_data : record)
    (now_date now_time now : datetime) (patient_id : string) :
  OPDManager.get_all_visits d = (Return visits, d) ->
  visits_path ∉ locked d ->
  strftime_date now = strftime_date now_date ->
  visit_data !! "patient_id" = Some patient_id ->
  let r := OPDManager.add_visit visit_data now_date now_time d in
  let stored := stamped visits visit_data now_date now_time in
  exists today_before patient_before,
    OPDManager.get_todays_visits now d = (Return today_before, d)
    /\ OPDManager.get_visits_by_patient patient_id d = (Return patient_before, d)
    /\ r.1 = Return true
    /\ OPDManager.get_todays_visits now r.2 = (Return (today_before ++ [stored]), r.2)
    /\ OPDManager.get_visits_by_patient patient_id r.2
       = (Return (patient_before ++ [stored]), r.2).
Proof.
  intros Hd Hw Hday Hpid r stored. unfold r.
  rewrite (add_visit_eq _ _ _ _ _ Hd), bool_decide_eq_false_2 by done. simpl.
  destruct (stamped_fields visits visit_data now_date now_time) as [Hdate [_ Hother]].
  unfold OPDManager.get_todays_visits, OPDManager.get_visits_by_patient, bind.
  rewrite Hd, get_all_visits_written. simpl. do 2 eexists.
  split_and!; try reflexivity; unfold ret; f_equal; f_equal; rewrite filter_snoc;
    fold stored.
  - rewrite decide_True; [done|]. by rewrite Hday.
  - rewrite decide_True; [done|]. by rewrite Hother.
Qed.

Lemma add_visit_then_listed_witness :
  let now := Datetime 2026 11 3 9 20 0 0 in
  let later := Datetime 2026 11 3 17 0 0 0 in
  let visit_data : record := <["patient_id" := "PAT007"]> ∅ in
  let d := store_of example_visits in
  OPDManager.get_all_visits d = (Return example_visits, d)
  /\ (visits_path ∉ locked d)
  /\ strftime_date later = strftime_date now
  /\ visit_data !! "patient_id" = Some "PAT007"
  /\ exists today_before patient_before : list record,
       OPDManager.get_todays_visits later (OPDManager.add_visit visit_data now now d).2
       = (Return (today_before ++ [stamped example_visits visit_data now now]),
          (OPDManager.add_visit visit_data now now d).2)
       /\ OPDManager.get_visits_by_patient "PAT007" d = (Return patient_before, d).
Proof.
  intros now later visit_data d.
  pose proof (get_all_visits_store_of example_visits) as H.
  assert (Hw : visits_path ∉ locked d) by (apply not_elem_of_empty).
  assert (Hday : strftime_date later = strftime_date now) by (vm_compute; reflexivity).
  assert (Hp : visit_data !! "patient_id" = Some "PAT007") by (vm_compute; reflexivity).
  split; [exact H|]. split; [exact Hw|]. split; [exact Hday|]. split; [exact Hp|].
  destruct (add_visit_then_listed d example_visits visit_data now now later "PAT007"
              H Hw Hday Hp) as [tb [pb [_ [H2 [_ [H4 _]]]]]].
  exists tb, pb. split; [exact H4|exact H2].
Defined.

(** ** The counters of the queue tab *)

Lemma list_sort_length {A K} (lt : K -> K -> bool) (key : A -> K) (l : list A) :
  length (OPDUI.list_sort lt key l) = length l.
Proof. apply Permutation_length, list_sort_perm. Qed.

Lemma disjoint_filters_length {A} (P1 P2 P3 Q : A -> Prop)
    `{forall x, Decision (P1 x)} `{forall x, Decision (P2 x)}
    `{forall x, Decision (P3 x)} `{forall x, Decision (Q x)} (l : list A) :
  (forall x, P1 x \/ P2 x \/ P3 x -> Q x) ->
  (forall x, P1 x -> P2 x -> False) ->
  (forall x, P1 x -> P3 x -> False) ->
  (forall x, P2 x -> P3 x -> False) ->
  (length (filter P1 l) + length (filter P2 l) + length (filter P3 l)
   <= length (filter Q l))%nat.
Proof.
  intros HQ H12 H13 H23. induction l as [|x l IH]; [done|].
  rewrite !filter_cons.
  destruct (decide (P1 x)), (decide (P2 x)), (decide (P3 x)), (decide (Q x));
    simpl; try lia; exfalso; naive_solver.
Qed.

Lemma count_status_bound today (visits : list record) :
  (OPDUI.count_status "Waiting" today visits
   + OPDUI.count_status "In Progress" today visits
   + OPDUI.count_status "Completed" today visits
   <= length (filter (fun v : record => v !! "visit_date" = Some today) visits))%nat.
Proof.
  unfold OPDUI.count_status. apply disjoint_filters_length.
  - intros v [[_ ?]|[[_ ?]|[_ ?]]]; done.
  - intros v [H1 _] [H2 _]. rewrite H1 in H2. discriminate H2.
  - intros v [H1 _] [H2 _]. rewrite H1 in H2. discriminate H2.
  - intros v [H1 _] [H2 _]. rewrite H1 in H2. discriminate H2.
Qed.

(** X11.  [refresh_queue], with both readings of the clock on the same day,
    shows as Waiting count the number of rows of the priority tree, which it
    fills as [load_priority_queue] does; the three counts are counts of
    different visits of today, so together they do not exceed the number of
    today's visits.  It shows no error box and leaves the directory as it
    is. *)
Theorem refresh_queue_counts (d : disk) (visits : list record)
    (now_count now_today : datetime) (now_row : nat -> datetime)
    (view : OPDUI.queue_view) :
  OPDManager.get_all_visits d = (Return visits, d) ->
  strftime_date now_today = strftime_date now_count ->
  exists (view' : OPDUI.queue_view) (w p c : nat),
    OPDUI.refresh_queue now_count now_today now_row view d = (Return (view', []), d)
    /\ OPDUI.priority_tree view'
       = shown_rows (OPDUI.load_priority_queue now_today now_row
                       (OPDUI.priority_tree view) d)
    /\ OPDUI.waiting_count_var view' = Py.str (Z.of_nat w)
    /\ OPDUI.inprogress_count_var view' = Py.str (Z.of_nat p)
    /\ OPDUI.completed_count_var view' = Py.str (Z.of_nat c)
    /\ w = length (OPDUI.priority_tree view')
    /\ exists today_visits,
         OPDManager.get_todays_visits now_count d = (Return today_visits, d)
         /\ (w + p + c <= length today_visits)%nat.
Proof.
  intros Hd Hday.
  unfold OPDUI.refresh_queue, try_except, bind.
  rewrite Hd, (load_priority_queue_eq _ _ _ _ _ Hd). simpl.
  eexists _, _, _, _. split_and!; try reflexivity.
  - unfold shown_rows. simpl. rewrite length_imap.
    unfold OPDUI.waiting_queue. rewrite list_sort_length, Hday. reflexivity.
  - eexists. split.
    + unfold OPDManager.get_todays_visits, bind. rewrite Hd. reflexivity.
    + apply count_status_bound.
Qed.

Lemma refresh_queue_counts_witness :
  let now := Datetime 2026 11 3 9 20 0 0 in
  let later := Datetime 2026 11 3 9 20 1 0 in
  let d := store_of example_visits in
  let view := OPDUI.QueueView "0" "0" "0" [] in
  OPDManager.get_all_visits d = (Return example_visits, d)
  /\ strftime_date later = strftime_date now
  /\ exists view' : OPDUI.queue_view,
       (OPDUI.refresh_queue now later (fun _ => later) view d).1 = Return (view', [])
       /\ exists w : nat, OPDUI.waiting_count_var view' = Py.str (Z.of_nat w)
                          /\ w = length (OPDUI.priority_tree view').
Proof.
  intros now later d view.
  pose proof (get_all_visits_store_of example_visits) as H.
  assert (Hday : strftime_date later = strftime_date now) by (vm_compute; reflexivity).
  split; [exact H|]. split; [exact Hday|].
  destruct (refresh_queue_counts d example_visits now later (fun _ => later) view H Hday)
    as [view' [w [p [c [H1 [_ [H3 [_ [_ [H6 _]]]]]]]]]].
  exists view'. split; [by rewrite H1|]. exists w. split; [exact H3|exact H6].
Defined.

(** ** [strptime] reads what [strftime] writes *)

Lemma list_ascii_app a b :
  list_ascii_of_string (a +:+ b) = list_ascii_of_string a ++ list_ascii_of_string b.
Proof.
  induction a as [|c a IH]; [done|].
  rewrite string_app_cons. simpl. by rewrite IH.
Qed.

Lemma digits_fuel_small fuel n acc :
  0 <= n < 10 -> Py.digits_fuel fuel n acc = Py.digit_char n :: acc.
Proof.
  intros Hn. destruct fuel as [|fuel]; simpl; rewrite Z.mod_small by done; [done|].
  destruct (Z.ltb_spec n 10); [done|lia].
Qed.

Lemma digits_fuel_step fuel n acc :
  10 <= n ->
  Py.digits_fuel (S fuel) n acc
  = Py.digits_fuel fuel (n / 10) (Py.digit_char (n mod 10) :: acc).
Proof. intros Hn. simpl. destruct (Z.ltb_spec n 10); [lia|done]. Qed.

Lemma digits_four y :
  1000 <= y <= 9999 ->
  Py.digits y = [Py.digit_char (y / 1000); Py.digit_char (y / 100 mod 10);
                 Py.digit_char (y / 10 mod 10); Py.digit_char (y mod 10)].
Proof.
  intros Hy. unfold Py.digits.
  assert (Hlog : 9 <= Z.log2 y).
  { change 9 with (Z.log2 512). apply Z.log2_le_mono. lia. }
  destruct (Z.to_nat (Z.log2 y)) as [|[|[|fuel]]] eqn:E; try lia.
  rewrite !digits_fuel_step by (repeat (apply Z.div_le_lower_bound; [lia|]); lia).
  rewrite !Z.div_div by lia.
  rewrite digits_fuel_small; [done|].
  split; [apply Z.div_pos; lia|apply Z.div_lt_upper_bound; lia].
Qed.

Lemma four_digits_year y r :
  1000 <= y <= 9999 ->
  four_digits (list_ascii_of_string (Py.str y) ++ r) = Some (y, r).
Proof.
  intros Hy. unfold Py.str. destruct (Z.ltb_spec y 0); [lia|].
  rewrite list_ascii_of_string_of_list_ascii, digits_four by done.
  destruct (digit_char_spec (y / 1000)) as [A1 A2];
    [split; [apply Z.div_pos; lia|apply Z.div_lt_upper_bound; lia]|].
  destruct (digit_char_spec (y / 100 mod 10)) as [B1 B2]; [apply Z.mod_pos_bound; lia|].
  destruct (digit_char_spec (y / 10 mod 10)) as [C1 C2]; [apply Z.mod_pos_bound; lia|].
  destruct (digit_char_spec (y mod 10)) as [D1 D2]; [apply Z.mod_pos_bound; lia|].
  simpl. unfold four_digits. rewrite A1, B1, C1, D1, A2, B2, C2, D2. simpl.
  do 2 f_equal. Z.div_mod_to_equations. lia.
Qed.

(** A two-digit field: the number read is the number written.  The numbers
    are run through one by one. *)
Ltac run_through n bound :=
  let k := fresh "k" in
  let Hk := fresh "Hk" in
  assert (exists k : nat, n = Z.of_nat k /\ (k < bound)%nat) as [k [-> Hk]]
    by (exists (Z.to_nat n); lia);
  do 61 (try (destruct k as [|k]; [first [reflexivity|lia]|]));
  lia.

Lemma field_m_format m r :
  1 <= m <= 12 ->
  field_m (list_ascii_of_string (Py.format_0d 2 m) ++ r) = Some (m, r).
Proof. intros Hm. run_through m 13%nat. Qed.

Lemma field_d_format n r :
  1 <= n <= 31 ->
  field_d (list_ascii_of_string (Py.format_0d 2 n) ++ r) = Some (n, r).
Proof. intros Hn. run_through n 32%nat. Qed.

Lemma field_H_format h r :
  0 <= h < 24 ->
  spaces1 (" "%char :: list_ascii_of_string (Py.format_0d 2 h) ++ r) ≫= field_H
  = Some (h, r).
Proof. intros Hh. run_through h 24%nat. Qed.

Lemma field_M_format n r :
  0 <= n < 60 ->
  field_M (list_ascii_of_string (Py.format_0d 2 n) ++ r) = Some (n, r).
Proof. intros Hn. run_through n 60%nat. Qed.

Lemma field_S_format n r :
  0 <= n < 60 ->
  field_S (list_ascii_of_string (Py.format_0d 2 n) ++ r) = Some (n, r).
Proof. intros Hn. run_through n 60%nat. Qed.

Lemma option_bind_some {A B} (x : A) (f : A -> option B) : Some x ≫= f = f x.
Proof. reflexivity. Qed.

Lemma spaces_field_H_format {B} h r (k : Z * list ascii -> option B) :
  0 <= h < 24 ->
  spaces1 (" "%char :: list_ascii_of_string (Py.format_0d 2 h) ++ r)
    ≫= (fun r' => field_H r' ≫= k) = k (h, r).
Proof.
  intros Hh. pose proof (field_H_format h r Hh) as E.
  destruct (spaces1 _) as [r'|]; [|discriminate].
  rewrite !option_bind_some in *. by rewrite E.
Qed.

Lemma strptime_strftime t1 t2 :
  valid_date t1 -> valid_time t2 ->
  strptime (strftime_date t1 +:+ " " +:+ strftime_time t2)
  = Some (checkin_instant t1 t2).
Proof.
  intros (Hy & Hm & Hd) (Hh & Hmi & Hs).
  assert (Hd31 : 1 <= day t1 <= 31).
  { split; [lia|]. etrans; [apply Hd|]. unfold days_in_month.
    destruct (_ && _); [lia|].
    assert (Hk : exists k : nat, month t1 = Z.of_nat k /\ (k < 13)%nat)
      by (exists (Z.to_nat (month t1)); lia).
    destruct Hk as [k [-> Hk]]. rewrite Nat2Z.id.
    do 13 (destruct k as [|k]; [simpl; lia|]). lia. }
  unfold strptime, strftime_date, strftime_time.
  rewrite !list_ascii_app, <- !app_assoc.
  change (list_ascii_of_string "-") with ["-"%char].
  change (list_ascii_of_string ":") with [":"%char].
  change (list_ascii_of_string " ") with [" "%char].
  cbn [app].
  rewrite four_digits_year, option_bind_some by done. cbn [literal Ascii.eqb Bool.eqb].
  rewrite option_bind_some, field_m_format, option_bind_some by done.
  cbn [literal Ascii.eqb Bool.eqb].
  rewrite option_bind_some, field_d_format, option_bind_some by done.
  cbn beta iota.
  rewrite (spaces_field_H_format (hour t2)) by done.
  cbn [literal Ascii.eqb Bool.eqb].
  rewrite option_bind_some, field_M_format, option_bind_some by done.
  cbn [literal Ascii.eqb Bool.eqb].
  rewrite option_bind_some.
  rewrite <- (app_nil_r (list_ascii_of_string (Py.format_0d 2 (second t2)))).
  rewrite field_S_format, option_bind_some by done.
  replace (1 <=? year t1) with true by (symmetry; apply Z.leb_le; lia).
  replace (day t1 <=? days_in_month (year t1) (month t1)) with true
    by (symmetry; apply Z.leb_le; lia).
  replace (second t2 <=? 59) with true by (symmetry; apply Z.leb_le; lia).
  reflexivity.
Qed.

(** ** The quick check-in *)

Lemma drop_while_all {A} (p : A -> bool) (l : list A) :
  Forall (fun x => p x = true) l -> Py.drop_while p l = [].
Proof. induction 1 as [|x l Hx _ IH]; simpl; [done|by rewrite Hx]. Qed.

Lemma strip_all_space s :
  Forall (fun c => Py.is_space c = true) (list_ascii_of_string s) -> Py.strip s = "".
Proof.
  intros H. unfold Py.strip, Py.strip_with.
  rewrite (drop_while_all _ _ H). reflexivity.
Qed.

(** X12.  The quick check-in refuses to proceed when no patient is selected
    or when the complaint holds white space only: it shows the warning or
    the error box and the directory is as before. *)
Theorem quick_checkin_rejects (selected_patient complaint_text quick_priority : string)
    (now_date now_time : datetime) (d : disk) :
  selected_patient = "No patient selected"
  \/ Forall (fun c => Py.is_space c = true) (list_ascii_of_string complaint_text) ->
  exists shown,
    OPDUI.quick_checkin selected_patient complaint_text quick_priority now_date now_time d
    = (Return shown, d)
    /\ (shown = OPDUI.Warning "Please select a patient first!"
        \/ shown = OPDUI.Box (OPDUI.ErrorBox "Chief complaint is required!")).
Proof.
  intros H. unfold OPDUI.quick_checkin. case_bool_decide as Hsel.
  - eexists. split; [reflexivity|by left].
  - destruct H as [H|H]; [done|]. rewrite (strip_all_space _ H). simpl.
    eexists. split; [reflexivity|by right].
Qed.

Lemma quick_checkin_rejects_witness :
  let blank := String (ascii_of_nat 10) "" in
  Forall (fun c => Py.is_space c = true) (list_ascii_of_string ("  " +:+ blank))
  /\ exists shown,
       OPDUI.quick_checkin "PAT001 - Asha Rao" ("  " +:+ blank) "Normal"
         (Datetime 2026 11 3 9 0 0 0) (Datetime 2026 11 3 9 0 0 0)
         (store_of example_visits)
       = (Return shown, store_of example_visits)
       /\ (shown = OPDUI.Warning "Please select a patient first!"
           \/ shown = OPDUI.Box (OPDUI.ErrorBox "Chief complaint is required!")).
Proof.
  intros blank.
  assert (H : Forall (fun c => Py.is_space c = true)
                (list_ascii_of_string ("  " +:+ blank)))
    by (repeat constructor).
  split; [exact H|].
  exact (quick_checkin_rejects "PAT001 - Asha Rao" ("  " +:+ blank) "Normal"
           (Datetime 2026 11 3 9 0 0 0) (Datetime 2026 11 3 9 0 0 0)
           (store_of example_visits) (or_intror H)).
Defined.

Lemma strftime_time_nonempty t : strftime_time t ≠ "".
Proof.
  intros H. apply (f_equal list_ascii_of_string) in H.
  unfold strftime_time in H. rewrite !list_ascii_app in H.
  destruct (list_ascii_of_string (Py.format_0d 2 (hour t))); discriminate.
Qed.

Lemma wait_str_checkin today now_date now_time now (visit : record) :
  valid_date now_date -> valid_time now_time ->
  today = strftime_date now_date ->
  visit !! "visit_time" = Some (strftime_time now_time) ->
  OPDUI.wait_str today visit now
  = Py.str (minutes_between now (checkin_instant now_date now_time)) +:+ " min".
Proof.
  intros Hd Ht -> Hv. rewrite wait_str_eq, Hv.
  rewrite bool_decide_eq_false_2 by apply strftime_time_nonempty.
  by rewrite strptime_strftime.
Qed.

(** X13.  A quick check-in that goes through puts the patient in the
    priority queue: read on the day of the check-in, the queue has a row for
    the new visit, with the id that [generate_id] gave, the patient id that
    stands before the first " - " of the selection, the priority chosen, the
    complaint without its surrounding white space (cut to 50 characters and
    "..." when longer), and as wait the whole minutes between the reading of
    the clock for that row and the instant of the check-in to the second. *)
Theorem quick_checkin_then_queued (d : disk) (visits : list record)
    (selected_patient complaint_text quick_priority : string)
    (now_date now_time now_today : datetime) (now_row : nat -> datetime)
    (tree : list OPDUI.row) :
  OPDManager.get_all_visits d = (Return visits, d) ->
  visits_path ∉ locked d ->
  selected_patient ≠ "No patient selected" ->
  Py.strip complaint_text ≠ "" ->
  valid_date now_date -> valid_time now_time ->
  strftime_date now_today = strftime_date now_date ->
  let r := OPDUI.quick_checkin selected_patient complaint_text quick_priority
             now_date now_time d in
  let chief_complaint := Py.strip complaint_text in
  r.1 = Return (OPDUI.Box (OPDUI.InfoBox "Patient checked in successfully!"))
  /\ exists i : nat,
       shown_rows (OPDUI.load_priority_queue now_today now_row tree r.2) !! i
       = Some {| OPDUI.position := Z.of_nat i + 1;
                 OPDUI.patient := default "" (head (Py.split selected_patient " - "));
                 OPDUI.priority := quick_priority;
                 OPDUI.complaint :=
                   if (50 <? String.length chief_complaint)%nat
                   then Py.take_prefix 50 chief_complaint +:+ "..."
                   else chief_complaint;
                 OPDUI.wait :=
                   Py.str (minutes_between (now_row i)
                             (checkin_instant now_date now_time)) +:+ " min";
                 OPDUI.visit_id := FileIOManager.generate_id visits "OPD" |}.
Proof.
  intros Hd Hw Hsel Hc Hvd Hvt Hday r chief_complaint. unfold r, OPDUI.quick_checkin.
  rewrite bool_decide_eq_false_2 by done.
  destruct (String.eqb_spec (Py.strip complaint_text) "") as [|_]; [done|].
  unfold try_except, bind.
  rewrite (add_visit_eq _ _ _ _ _ Hd), bool_decide_eq_false_2 by done.
  cbn [fst snd ret OPDUI.any_exception]. split; [reflexivity|].
  set (visit_data := <["chief_complaint" := _]> _).
  set (v := stamped visits visit_data now_date now_time).
  rewrite (load_priority_queue_eq _ _ _ _ _ (get_all_visits_written _ _)).
  unfold shown_rows. cbn [fst].
  destruct (stamped_fields visits visit_data now_date now_time) as (Hdate & Htime & Hother).
  fold v in Hdate, Htime, Hother.
  assert (Hin : v ∈ OPDUI.waiting_queue (strftime_date now_today) (visits ++ [v])).
  { apply waiting_queue_elem. split; [set_solver|]. split.
    - by rewrite Hother.
    - by rewrite Hday. }
  apply list_elem_of_lookup in Hin as [i Hi]. exists i.
  rewrite list_lookup_imap, Hi. cbn [fmap option_fmap option_map]. f_equal.
  unfold OPDUI.queue_row, OPDUI.complaint_cell.
  rewrite (wait_str_checkin _ now_date now_time) by done.
  rewrite !Hother by done.
  assert (Hid : v !! "id" = Some (FileIOManager.generate_id visits "OPD")).
  { unfold v, stamped. by rewrite !lookup_insert_ne, lookup_insert_eq by done. }
  rewrite Hid. reflexivity.
Qed.

Lemma quick_checkin_then_queued_witness :
  let d := store_of example_visits in
  let now := Datetime 2026 11 3 9 20 30 0 in
  let later := Datetime 2026 11 3 9 45 0 0 in
  let complaint_text := "  Chest pain " in
  OPDManager.get_all_visits d = (Return example_visits, d)
  /\ (visits_path ∉ locked d)
  /\ "PAT007 - Jane Roe" ≠ "No patient selected"
  /\ Py.strip complaint_text ≠ ""
  /\ valid_date now /\ valid_time now
  /\ strftime_date later = strftime_date now
  /\ (OPDUI.quick_checkin "PAT007 - Jane Roe" complaint_text "High" now now d).1
     = Return (OPDUI.Box (OPDUI.InfoBox "Patient checked in successfully!")).
Proof.
  intros d now later complaint_text.
  pose proof (get_all_visits_store_of example_visits) as H.
  assert (Hw : visits_path ∉ locked d) by (apply not_elem_of_empty).
  assert (Hsel : "PAT007 - Jane Roe" ≠ "No patient selected") by discriminate.
  assert (Hc : Py.strip complaint_text ≠ "") by (vm_compute; discriminate).
  assert (Hvd : valid_date now) by (vm_compute; intuition discriminate).
  assert (Hvt : valid_time now) by (vm_compute; intuition discriminate).
  assert (Hday : strftime_date later = strftime_date now) by (vm_compute; reflexivity).
  do 7 (split; [assumption|]).
  exact (proj1 (quick_checkin_then_queued d example_visits "PAT007 - Jane Roe"
                  complaint_text "High" now now later (fun _ => later) []
                  H Hw Hsel Hc Hvd Hvt Hday)).
Defined.

(** ** Changing the status of a visit *)

Lemma update_visit_found d visits visit_id updated_data i visit :
  OPDManager.get_all_visits d = (Return visits, d) ->
  visits_path ∉ locked d ->
  visits !! i = Some visit ->
  visit !! "id" = Some visit_id ->
  (forall j v, (j < i)%nat -> visits !! j = Some v -> other_id visit_id v) ->
  OPDManager.update_visit visit_id updated_data d
  = (Return true,
     written visits_path
       (alter (fun v => OPDManager.dict_update v updated_data) i visits) d).
Proof.
  intros Hd Hw Hi Hid Hbefore. unfold OPDManager.update_visit, bind, lift.
  rewrite Hd, (find_visit_first _ 0 _ _ _ Hi Hid Hbefore). simpl.
  rewrite save_data_eq.
  change (path_join FileIOManager.data_dir OPDManager.filename) with visits_path.
  by rewrite bool_decide_eq_false_2.
Qed.

Lemma filter_alter_out {A} (P : A -> Prop) `{forall x, Decision (P x)}
    (f : A -> A) (l : list A) : forall i x,
  l !! i = Some x -> ~ P (f x) -> filter P (alter f i l) = filter P (delete i l).
Proof.
  induction l as [|y l IH]; intros [|i] x Hi Hn; simplify_eq/=.
  - rewrite filter_cons. by rewrite decide_False.
  - rewrite !filter_cons. rewrite (IH i x Hi Hn). done.
Qed.

Lemma set_status_eq (visit : record) status :
  OPDManager.dict_update visit (<["status" := status]> ∅) = <["status" := status]> visit.
Proof.
  unfold OPDManager.dict_update. by rewrite insert_empty, <- insert_union_singleton_l.
Qed.

Lemma status_action_eq action status d visits visit_id i visit :
  (action, status) ∈ status_actions ->
  OPDManager.get_all_visits d = (Return visits, d) ->
  visits_path ∉ locked d ->
  visits !! i = Some visit ->
  visit !! "id" = Some visit_id ->
  (forall j v, (j < i)%nat -> visits !! j = Some v -> other_id visit_id v) ->
  status ≠ "Waiting"
  /\ exists message,
       action visit_id d
       = (Return (OPDUI.InfoBox message),
          written visits_path (alter (fun v : record => <["status" := status]> v) i visits) d).
Proof.
  intros Hin Hd Hw Hi Hid Hbefore. unfold status_actions in Hin.
  assert (Hu : forall status,
             OPDManager.update_visit visit_id (<["status" := status]> ∅) d
             = (Return true,
                written visits_path
                  (alter (fun v : record => <["status" := status]> v) i visits) d)).
  { intros s. rewrite (update_visit_found _ _ _ _ _ _ Hd Hw Hi Hid Hbefore).
    do 2 f_equal. apply list_alter_ext; [|done].
    intros v _. apply set_status_eq. }
  repeat (apply elem_of_cons in Hin as [Hin|Hin]); [| | |by apply elem_of_nil in Hin];
    simplify_eq; (split; [discriminate|]); eexists;
    [unfold OPDUI.mark_visit_complete|unfold OPDUI.cancel_visit
    |unfold OPDUI.move_to_inprogress];
    unfold try_except, bind; rewrite Hu; reflexivity.
Qed.

(** X14.  [mark_visit_complete], [cancel_visit] and [move_to_inprogress] on
    a stored visit report success, keep the visit in the store with its new
    status and nothing else changed, and take it out of the priority queue:
    the queue then shows the rows it would show had the visit been removed
    from the store, so the other visits keep their order and are numbered
    anew. *)
Theorem status_change_leaves_queue (d : disk) (visits : list record)
    (visit_id : string) (i : nat) (visit : record)
    (action : string -> M OPDUI.dialog) (status : string)
    (now_today : datetime) (now_row : nat -> datetime) (tree : list OPDUI.row) :
  (action, status) ∈ status_actions ->
  OPDManager.get_all_visits d = (Return visits, d) ->
  visits_path ∉ locked d ->
  visits !! i = Some visit ->
  visit !! "id" = Some visit_id ->
  (forall j v, (j < i)%nat -> visits !! j = Some v -> other_id visit_id v) ->
  let r := action visit_id d in
  (exists message, r.1 = Return (OPDUI.InfoBox message))
  /\ stored_visits r.2 = <[i := <["status" := status]> visit]> visits
  /\ shown_rows (OPDUI.load_priority_queue now_today now_row tree r.2)
     = shown_rows (OPDUI.load_priority_queue now_today now_row tree
                     (written visits_path (delete i visits) d)).
Proof.
  intros Hin Hd Hw Hi Hid Hbefore r. unfold r.
  destruct (status_action_eq _ _ _ _ _ _ _ Hin Hd Hw Hi Hid Hbefore)
    as [Hs [message ->]].
  cbn [fst snd]. split_and!.
  - by eexists.
  - rewrite (stored_visits_eq _ _ (get_all_visits_written _ _)).
    apply list_eq. intros j. destruct (decide (j = i)) as [->|Hj].
    + rewrite list_lookup_alter_eq, Hi, list_lookup_insert_eq; [done|].
      by apply lookup_lt_Some in Hi.
    + by rewrite list_lookup_alter_ne, list_lookup_insert_ne.
  - rewrite !(load_priority_queue_eq _ _ _ _ _ (get_all_visits_written _ _)).
    unfold shown_rows, OPDUI.waiting_queue. cbn [fst].
    rewrite (filter_alter_out _ _ _ i visit Hi); [done|].
    intros [Hst _]. rewrite lookup_insert_eq in Hst. congruence.
Qed.

Lemma status_change_leaves_queue_witness :
  let d := store_of example_visits in
  let visit := example_visit "OPD002" "Emergency" "09:05:00" in
  (OPDUI.cancel_visit, "Cancelled") ∈ status_actions
  /\ OPDManager.get_all_visits d = (Return example_visits, d)
  /\ (visits_path ∉ locked d)
  /\ example_visits !! 1%nat = Some visit
  /\ visit !! "id" = Some "OPD002"
  /\ (forall j v, (j < 1)%nat -> example_visits !! j = Some v -> other_id "OPD002" v)
  /\ stored_visits (OPDUI.cancel_visit "OPD002" d).2
     = <[1%nat := <["status" := "Cancelled"]> visit]> example_visits.
Proof.
  intros d visit.
  assert (Ha : (OPDUI.cancel_visit, "Cancelled") ∈ status_actions) by (right; left).
  pose proof (get_all_visits_store_of example_visits) as H.
  assert (Hw : visits_path ∉ locked d) by (apply not_elem_of_empty).
  assert (H1 : example_visits !! 1%nat = Some visit) by reflexivity.
  assert (H2 : visit !! "id" = Some "OPD002") by (vm_compute; reflexivity).
  assert (H3 : forall j v, (j < 1)%nat -> example_visits !! j = Some v -> other_id "OPD002" v).
  { intros j v Hj Hv. destruct j as [|j]; [|lia]. injection Hv as <-.
    eexists. split; [vm_compute; reflexivity|discriminate]. }
  do 6 (split; [assumption|]).
  exact (proj1 (proj2 (status_change_leaves_queue d example_visits "OPD002" 1 visit
                         OPDUI.cancel_visit "Cancelled"
                         (Datetime 2026 11 3 10 0 0 0)
                         (fun _ => Datetime 2026 11 3 10 0 0 0) []
                         Ha H Hw H1 H2 H3))).
Defined.

(** ** Updating a visit from the form *)

Lemma set_name_other key selection (data : record) k :
  k ≠ key -> OPDUI.set_name key selection data !! k = data !! k.
Proof.
  intros Hk. unfold OPDUI.set_name.
  destruct (Py.contains _ _); [|done].
  destruct (_ !! 1%nat); [|done]. by rewrite lookup_insert_ne.
Qed.

Lemma form_data_no_stamp form k :
  k ∈ ["id"; "visit_date"; "visit_time"] -> OPDUI.get_visit_form_data form !! k = None.
Proof.
  intros Hk. unfold OPDUI.get_visit_form_data.
  repeat (apply elem_of_cons in Hk as [->|Hk]); [| | |by apply elem_of_nil in Hk];
    rewrite !lookup_insert_ne, !set_name_other, !lookup_insert_ne by done;
    apply lookup_empty.
Qed.

Lemma form_data_status form :
  OPDUI.get_visit_form_data form !! "status" = Some (Py.strip (OPDUI.status_var form))
  /\ OPDUI.get_visit_form_data form !! "priority"
     = Some (Py.strip (OPDUI.priority_var form)).
Proof.
  unfold OPDUI.get_visit_form_data. split.
  - rewrite !lookup_insert_ne, !set_name_other, !lookup_insert_ne by done.
    apply lookup_insert_eq.
  - rewrite !lookup_insert_ne, !set_name_other, !lookup_insert_ne by done.
    apply lookup_insert_eq.
Qed.

(** X15.  An update of a stored visit with the data of the visit form
    leaves the id, the date and the time of the visit as they were, whatever
    the form holds, and sets the status and the priority to the texts of the
    form without their surrounding white space. *)
Theorem form_update_keeps_stamp (d : disk) (visits : list record)
    (visit_id : string) (i : nat) (visit : record) (form : OPDUI.visit_form) :
  OPDManager.get_all_visits d = (Return visits, d) ->
  visits_path ∉ locked d ->
  visits !! i = Some visit ->
  visit !! "id" = Some visit_id ->
  (forall j v, (j < i)%nat -> visits !! j = Some v -> other_id visit_id v) ->
  let r := OPDManager.update_visit visit_id (OPDUI.get_visit_form_data form) d in
  r.1 = Return true
  /\ exists merged : record,
       stored_visits r.2 !! i = Some merged
       /\ merged !! "id" = Some visit_id
       /\ merged !! "visit_date" = visit !! "visit_date"
       /\ merged !! "visit_time" = visit !! "visit_time"
       /\ merged !! "status" = Some (Py.strip (OPDUI.status_var form))
       /\ merged !! "priority" = Some (Py.strip (OPDUI.priority_var form)).
Proof.
  intros Hd Hw Hi Hid Hbefore r. unfold r.
  rewrite (update_visit_found _ _ _ _ _ _ Hd Hw Hi Hid Hbefore). cbn [fst snd].
  split; [done|].
  exists (OPDManager.dict_update visit (OPDUI.get_visit_form_data form)).
  rewrite (stored_visits_eq _ _ (get_all_visits_written _ _)).
  rewrite list_lookup_alter_eq, Hi. unfold OPDManager.dict_update.
  destruct (form_data_status form) as [Hs Hp].
  split_and!; [done| | | | |].
  - rewrite lookup_union_r; [done|]. apply form_data_no_stamp. set_solver.
  - apply lookup_union_r, form_data_no_stamp. set_solver.
  - apply lookup_union_r, form_data_no_stamp. set_solver.
  - by apply lookup_union_Some_l.
  - by apply lookup_union_Some_l.
Qed.

Lemma form_update_keeps_stamp_witness :
  let d := store_of example_visits in
  let visit := example_visit "OPD001" "Normal" "09:00:00" in
  let form := OPDUI.VisitForm "PAT001 - Asha Rao" "DOC002 - Dr Sen" "OPD Consultation"
                " High " "In Progress" "" "250" "Fever" "" "" "" "" in
  OPDManager.get_all_visits d = (Return example_visits, d)
  /\ (visits_path ∉ locked d)
  /\ example_visits !! 0%nat = Some visit
  /\ visit !! "id" = Some "OPD001"
  /\ (forall j v, (j < 0)%nat -> example_visits !! j = Some v -> other_id "OPD001" v)
  /\ (OPDManager.update_visit "OPD001" (OPDUI.get_visit_form_data form) d).1 = Return true.
Proof.
  intros d visit form.
  pose proof (get_all_visits_store_of example_visits) as H.
  assert (Hw : visits_path ∉ locked d) by (apply not_elem_of_empty).
  assert (H1 : example_visits !! 0%nat = Some visit) by reflexivity.
  assert (H2 : visit !! "id" = Some "OPD001") by (vm_compute; reflexivity).
  assert (H3 : forall j v, (j < 0)%nat -> example_visits !! j = Some v -> other_id "OPD001" v)
    by (intros j v Hj; lia).
  do 5 (split; [assumption|]).
  exact (proj1 (form_update_keeps_stamp d example_visits "OPD001" 0 visit form
                  H Hw H1 H2 H3)).
Defined.

(** ** A store file that cannot be read as JSON *)

Lemma get_all_visits_unread d :
  files d !! visits_path = Some Malformed \/ files d !! visits_path = Some Unreadable ->
  OPDManager.get_all_visits d = (Return [], d).
Proof.
  intros H. unfold OPDManager.get_all_visits. rewrite load_data_eq.
  change (path_join FileIOManager.data_dir OPDManager.filename) with visits_path.
  by destruct H as [-> | ->].
Qed.

(** X16.  A visit store whose file is no valid JSON, or cannot be opened
    for reading, is taken as empty without notice, and the next write
    replaces it: [add_visit] returns [True] and leaves a store with the new
    visit alone, numbered OPD001, and [delete_visit] reports success and
    leaves an empty list. *)
Theorem unread_store_is_replaced (d : disk) (visit_data : record)
    (now_date now_time : datetime) (visit_id : string) :
  files d !! visits_path = Some Malformed \/ files d !! visits_path = Some Unreadable ->
  visits_path ∉ locked d ->
  let stored := <["visit_time" := strftime_time now_time]>
                  (<["visit_date" := strftime_date now_date]>
                     (<["id" := "OPD001"]> visit_data)) in
  OPDManager.add_visit visit_data now_date now_time d
  = (Return true, written visits_path [stored] d)
  /\ stored_visits (OPDManager.add_visit visit_data now_date now_time d).2 = [stored]
  /\ OPDUI.delete_visit visit_id d
     = (Return (OPDUI.InfoBox "Visit deleted successfully!"), written visits_path [] d).
Proof.
  intros H Hw stored. apply get_all_visits_unread in H.
  rewrite (add_visit_eq _ _ _ _ _ H), (delete_visit_eq _ _ _ H).
  rewrite !bool_decide_eq_false_2 by done. split_and!; [done| |done].
  cbn [snd]. by rewrite (stored_visits_eq _ _ (get_all_visits_written _ _)).
Qed.

Lemma unread_store_is_replaced_witness :
  let d := Disk (<[visits_path := Malformed]> ∅) ∅ [] in
  let now := Datetime 2026 11 3 9 20 30 0 in
  (files d !! visits_path = Some Malformed \/ files d !! visits_path = Some Unreadable)
  /\ (visits_path ∉ locked d)
  /\ stored_visits (OPDManager.add_visit ∅ now now d).2
     = [ <["visit_time" := strftime_time now]>
           (<["visit_date" := strftime_date now]> (<["id" := "OPD001"]> ∅)) ].
Proof.
  intros d now.
  assert (H : files d !! visits_path = Some Malformed
              \/ files d !! visits_path = Some Unreadable)
    by (left; apply lookup_insert_eq).
  assert (Hw : visits_path ∉ locked d) by (apply not_elem_of_empty).
  do 2 (split; [assumption|]).
  exact (proj1 (proj2 (unread_store_is_replaced d ∅ now now "OPD001" H Hw))).
Defined.

(** ** The handlers of the window catch every exception *)

Lemma try_except_any {A} (m : M A) (h : exn -> A) (d : disk) :
  exists x d', try_except m OPDUI.any_exception (fun e => ret (h e)) d = (Return x, d').
Proof. unfold try_except. destruct (m d) as [[x|e] d']; simpl; eauto. Qed.

(** X17.  No action of the OPD window lets an exception out: whatever the
    directory holds, deleting a visit, setting a status, the quick check-in,
    loading the priority queue and refreshing the queue all return, with a
    message box or a view, also where the manager below them raises. *)
Theorem handlers_never_raise (d : disk) (visit_id : string)
    (selected_patient complaint_text quick_priority : string)
    (now_date now_time now_today : datetime) (now_row : nat -> datetime)
    (tree : list OPDUI.row) (view : OPDUI.queue_view) :
  (exists x d', OPDUI.delete_visit visit_id d = (Return x, d'))
  /\ (exists x d', OPDUI.mark_visit_complete visit_id d = (Return x, d'))
  /\ (exists x d', OPDUI.cancel_visit visit_id d = (Return x, d'))
  /\ (exists x d', OPDUI.move_to_inprogress visit_id d = (Return x, d'))
  /\ (exists x d',
        OPDUI.quick_checkin selected_patient complaint_text quick_priority
          now_date now_time d = (Return x, d'))
  /\ (exists x d', OPDUI.load_priority_queue now_today now_row tree d = (Return x, d'))
  /\ (exists x d', OPDUI.refresh_queue now_date now_today now_row view d = (Return x, d')).
Proof.
  split_and!.
  - apply (try_except_any _ (OPDUI.ExceptionBox _)).
  - apply (try_except_any _ (OPDUI.ExceptionBox _)).
  - apply (try_except_any _ (OPDUI.ExceptionBox _)).
  - apply (try_except_any _ (OPDUI.ExceptionBox _)).
  - unfold OPDUI.quick_checkin. case_bool_decide; [by do 2 eexists|].
    destruct (String.eqb _ _); [by do 2 eexists|].
    apply (try_except_any _ (fun e => OPDUI.Box (OPDUI.ExceptionBox _ e))).
  - apply (try_except_any _ (fun e => ([], Some (OPDUI.ExceptionBox _ e)))).
  - apply (try_except_any _ (fun e => (view, [OPDUI.ExceptionBox _ e]))).
Qed.

Lemma get_all_visits_undecodable d :
  files d !! visits_path = Some Undecodable ->
  OPDManager.get_all_visits d = (Raise UnicodeDecodeError, d).
Proof.
  intros H. unfold OPDManager.get_all_visits. rewrite load_data_eq.
  change (path_join FileIOManager.data_dir OPDManager.filename) with visits_path.
  by rewrite H.
Qed.

(** X18.  On a visit store whose bytes are not UTF-8 the [UnicodeDecodeError]
    that [load_data] lets through stops every action before it writes: each
    one shows its error box with that exception and the directory is as
    before; the priority tree is emptied, and [refresh_queue] leaves the
    view as it was. *)
Theorem undecodable_store_untouched (d : disk) (visit_id : string)
    (selected_patient complaint_text quick_priority : string)
    (now_date now_time now_today : datetime) (now_row : nat -> datetime)
    (tree : list OPDUI.row) (view : OPDUI.queue_view) :
  files d !! visits_path = Some Undecodable ->
  selected_patient ≠ "No patient selected" ->
  Py.strip complaint_text ≠ "" ->
  OPDUI.delete_visit visit_id d
  = (Return (OPDUI.ExceptionBox "Error deleting visit: " UnicodeDecodeError), d)
  /\ OPDUI.mark_visit_complete visit_id d
     = (Return (OPDUI.ExceptionBox "Error updating visit: " UnicodeDecodeError), d)
  /\ OPDUI.cancel_visit visit_id d
     = (Return (OPDUI.ExceptionBox "Error cancelling visit: " UnicodeDecodeError), d)
  /\ OPDUI.move_to_inprogress visit_id d
     = (Return (OPDUI.ExceptionBox "Error updating visit: " UnicodeDecodeError), d)
  /\ OPDUI.quick_checkin selected_patient complaint_text quick_priority now_date now_time d
     = (Return (OPDUI.Box (OPDUI.ExceptionBox "Error during check-in: "
                             UnicodeDecodeError)), d)
  /\ OPDUI.load_priority_queue now_today now_row tree d
     = (Return ([], Some (OPDUI.ExceptionBox "Error loading priority queue: "
                            UnicodeDecodeError)), d)
  /\ OPDUI.refresh_queue now_date now_today now_row view d
     = (Return (view, [OPDUI.ExceptionBox "Error refreshing queue: " UnicodeDecodeError]),
        d).
Proof.
  intros H Hsel Hc. apply get_all_visits_undecodable in H.
  unfold OPDUI.delete_visit, OPDUI.mark_visit_complete, OPDUI.cancel_visit,
    OPDUI.move_to_inprogress, OPDUI.quick_checkin, OPDUI.load_priority_queue,
    OPDUI.refresh_queue, OPDManager.update_visit, OPDManager.add_visit.
  rewrite bool_decide_eq_false_2 by done.
  destruct (String.eqb_spec (Py.strip complaint_text) "") as [|_]; [done|].
  unfold try_except, bind. rewrite !H. split_and!; reflexivity.
Qed.

Lemma undecodable_store_untouched_witness :
  let d := Disk (<[visits_path := Undecodable]> ∅) ∅ [] in
  let now := Datetime 2026 11 3 9 20 30 0 in
  files d !! visits_path = Some Undecodable
  /\ "PAT001 - Asha Rao" ≠ "No patient selected"
  /\ Py.strip "Fever" ≠ ""
  /\ OPDUI.delete_visit "OPD001" d
     = (Return (OPDUI.ExceptionBox "Error deleting visit: " UnicodeDecodeError), d).
Proof.
  intros d now.
  assert (H : files d !! visits_path = Some Undecodable) by (apply lookup_insert_eq).
  assert (Hsel : "PAT001 - Asha Rao" ≠ "No patient selected") by discriminate.
  assert (Hc : Py.strip "Fever" ≠ "") by (vm_compute; discriminate).
  do 3 (split; [assumption|]).
  exact (proj1 (undecodable_store_untouched d "OPD001" "PAT001 - Asha Rao" "Fever"
                  "Normal" now now now (fun _ => now) []
                  (OPDUI.QueueView "0" "0" "0" []) H Hsel Hc)).
Defined.

(** ** A record without an id *)

Lemma find_visit_raises visit_id k visits i (v : record) :
  visits !! i = Some v ->
  v !! "id" = None ->
  (forall j v', (j < i)%nat -> visits !! j = Some v' -> other_id visit_id v') ->
  OPDManager.find_visit visit_id k visits = Raise (KeyError "id").
Proof.
  revert k i. induction visits as [|w visits IH]; intros k i Hi Hid Hbefore.
  - discriminate Hi.
  - destruct i as [|i]; simpl in *.
    + injection Hi as ->. by rewrite Hid.
    + destruct (Hbefore 0%nat w) as [id_str [Hw Hne]]; [lia|done|].
      rewrite Hw, bool_decide_eq_false_2 by done.
      apply (IH (S k) i); [done|done|].
      intros j v' Hj Hv'. apply (Hbefore (S j) v'); [lia|done].
Qed.

(** X19.  A record without an id that the search for [visit_id] comes to
    stops the three actions that set a status: each shows its error box with
    the [KeyError] and the directory is as before.  [delete_visit], which
    reads the id with [get], goes through and keeps that record. *)
Theorem record_without_id_stops_status_change (d : disk) (visits : list record)
    (visit_id : string) (i : nat) (v : record) :
  OPDManager.get_all_visits d = (Return visits, d) ->
  visits_path ∉ locked d ->
  visits !! i = Some v ->
  v !! "id" = None ->
  (forall j v', (j < i)%nat -> visits !! j = Some v' -> other_id visit_id v') ->
  OPDUI.mark_visit_complete visit_id d
  = (Return (OPDUI.ExceptionBox "Error updating visit: " (KeyError "id")), d)
  /\ OPDUI.cancel_visit visit_id d
     = (Return (OPDUI.ExceptionBox "Error cancelling visit: " (KeyError "id")), d)
  /\ OPDUI.move_to_inprogress visit_id d
     = (Return (OPDUI.ExceptionBox "Error updating visit: " (KeyError "id")), d)
  /\ (OPDUI.delete_visit visit_id d).1
     = Return (OPDUI.InfoBox "Visit deleted successfully!")
  /\ v ∈ stored_visits (OPDUI.delete_visit visit_id d).2.
Proof.
  intros Hd Hw Hi Hid Hbefore.
  unfold OPDUI.mark_visit_complete, OPDUI.cancel_visit, OPDUI.move_to_inprogress,
    OPDManager.update_visit, try_except, bind, lift.
  rewrite Hd, (find_visit_raises _ 0 _ _ _ Hi Hid Hbefore).
  rewrite (delete_visit_eq _ _ _ Hd), bool_decide_eq_false_2 by done.
  split_and!; try reflexivity. cbn [snd].
  rewrite (stored_visits_eq _ _ (get_all_visits_written _ _)).
  apply list_elem_of_filter. split; [by rewrite Hid|].
  apply list_elem_of_lookup. by exists i.
Qed.

Lemma record_without_id_stops_status_change_witness :
  let v : record := <["status" := "Waiting"]> ∅ in
  let d := store_of [v] in
  OPDManager.get_all_visits d = (Return [v], d)
  /\ (visits_path ∉ locked d)
  /\ [v] !! 0%nat = Some v
  /\ v !! "id" = None
  /\ (forall j v', (j < 0)%nat -> [v] !! j = Some v' -> other_id "OPD001" v')
  /\ OPDUI.mark_visit_complete "OPD001" d
     = (Return (OPDUI.ExceptionBox "Error updating visit: " (KeyError "id")), d).
Proof.
  intros v d.
  pose proof (get_all_visits_store_of [v]) as H.
  assert (Hw : visits_path ∉ locked d) by (apply not_elem_of_empty).
  assert (H1 : [v] !! 0%nat = Some v) by reflexivity.
  assert (H2 : v !! "id" = None) by (vm_compute; reflexivity).
  assert (H3 : forall j v', (j < 0)%nat -> [v] !! j = Some v' -> other_id "OPD001" v')
    by (intros j v' Hj; lia).
  do 5 (split; [assumption|]).
  exact (proj1 (record_without_id_stops_status_change d [v] "OPD001" 0 v H Hw H1 H2 H3)).
Defined.

(** ** Appointments *)

Lemma load_data_written filename data d :
  FileIOManager.load_data filename
    (written (path_join FileIOManager.data_dir filename) data d)
  = (Return data, written (path_join FileIOManager.data_dir filename) data d).
Proof. rewrite load_data_eq. unfold written at 1. simpl. by rewrite lookup_insert_eq. Qed.

Lemma get_all_appointments_written data d :
  AppointmentManager.get_all_appointments (written appointments_path data d)
  = (Return data, written appointments_path data d).
Proof. apply (load_data_written AppointmentManager.filename). Qed.

Lemma get_all_appointments_store_of appointments :
  AppointmentManager.get_all_appointments (appointment_store_of appointments)
  = (Return appointments, appointment_store_of appointments).
Proof.
  unfold AppointmentManager.get_all_appointments. rewrite load_data_eq.
  change (path_join FileIOManager.data_dir AppointmentManager.filename)
    with appointments_path.
  unfold appointment_store_of. simpl. by rewrite lookup_insert_eq.
Qed.

Lemma save_appointments_eq data d :
  appointments_path ∉ locked d ->
  FileIOManager.save_data AppointmentManager.filename data d
  = (Return true, written appointments_path data d).
Proof.
  intros Hw. rewrite save_data_eq.
  change (path_join FileIOManager.data_dir AppointmentManager.filename)
    with appointments_path.
  by rewrite bool_decide_eq_false_2.
Qed.

(** X20.  An appointment that was added is the last of the appointments of
    its date and the last of those of its patient, after the ones listed
    before; its id is the one [generate_id] gives with the prefix APT, and
    its [created_date] reads back, with the format it was written in, as the
    instant of the clock to the second. *)
Theorem add_appointment_then_listed (d : disk) (appointments : list record)
    (appointment_data : record) (now : datetime) (date patient_id : string) :
  AppointmentManager.get_all_appointments d = (Return appointments, d) ->
  appointments_path ∉ locked d ->
  appointment_data !! "appointment_date" = Some date ->
  appointment_data !! "patient_id" = Some patient_id ->
  valid_date now -> valid_time now ->
  let r := AppointmentManager.add_appointment appointment_data now d in
  exists (stored : record) (date_before patient_before : list record),
    r.1 = Return true
    /\ AppointmentManager.get_appointments_by_date date d = (Return date_before, d)
    /\ AppointmentManager.get_appointments_by_patient patient_id d
       = (Return patient_before, d)
    /\ AppointmentManager.get_appointments_by_date date r.2
       = (Return (date_before ++ [stored]), r.2)
    /\ AppointmentManager.get_appointments_by_patient patient_id r.2
       = (Return (patient_before ++ [stored]), r.2)
    /\ stored !! "id" = Some (FileIOManager.generate_id appointments "APT")
    /\ stored !! "created_date" ≫= strptime = Some (checkin_instant now now)
    /\ forall k, k ≠ "id" -> k ≠ "created_date" -> stored !! k = appointment_data !! k.
Proof.
  intros Hd Hw Hdate Hpid Hvd Hvt r. unfold r, AppointmentManager.add_appointment, bind.
  rewrite Hd, save_appointments_eq by done. cbn [fst snd].
  set (stored := <["created_date" := _]> _).
  exists stored. do 2 eexists.
  unfold AppointmentManager.get_appointments_by_date,
    AppointmentManager.get_appointments_by_patient, bind.
  rewrite Hd, get_all_appointments_written. unfold ret.
  assert (Hother : forall k, k ≠ "id" -> k ≠ "created_date" ->
                     stored !! k = appointment_data !! k).
  { intros k H1 H2. unfold stored. by rewrite !lookup_insert_ne. }
  split_and!; try reflexivity.
  - do 2 f_equal. rewrite filter_snoc, decide_True; [done|]. by rewrite Hother.
  - do 2 f_equal. rewrite filter_snoc, decide_True; [done|]. by rewrite Hother.
  - unfold stored. by rewrite lookup_insert_ne, lookup_insert_eq.
  - unfold stored. rewrite lookup_insert_eq. by apply strptime_strftime.
  - done.
Qed.

Lemma add_appointment_then_listed_witness :
  let d := appointment_store_of example_appointments in
  let now := Datetime 2026 11 3 9 20 30 0 in
  let appointment_data : record :=
    <["patient_id" := "PAT001"]> (<["appointment_date" := "2026-11-05"]> ∅) in
  AppointmentManager.get_all_appointments d = (Return example_appointments, d)
  /\ (appointments_path ∉ locked d)
  /\ appointment_data !! "appointment_date" = Some "2026-11-05"
  /\ appointment_data !! "patient_id" = Some "PAT001"
  /\ valid_date now /\ valid_time now
  /\ exists stored : record,
       (AppointmentManager.add_appointment appointment_data now d).1 = Return true
       /\ stored !! "id" = Some (FileIOManager.generate_id example_appointments "APT").
Proof.
  intros d now appointment_data.
  pose proof (get_all_appointments_store_of example_appointments) as H.
  assert (Hw : appointments_path ∉ locked d) by (apply not_elem_of_empty).
  assert (H1 : appointment_data !! "appointment_date" = Some "2026-11-05")
    by (vm_compute; reflexivity).
  assert (H2 : appointment_data !! "patient_id" = Some "PAT001")
    by (vm_compute; reflexivity).
  assert (Hvd : valid_date now) by (vm_compute; intuition discriminate).
  assert (Hvt : valid_time now) by (vm_compute; intuition discriminate).
  do 6 (split; [assumption|]).
  destruct (add_appointment_then_listed d example_appointments appointment_data now
              "2026-11-05" "PAT001" H Hw H1 H2 Hvd Hvt)
    as (stored & db & pb & Hr & _ & _ & _ & _ & Hid & _).
  exists stored. split; [exact Hr|exact Hid].
Defined.

Lemma filter_comm {A} (P Q : A -> Prop) `{forall x, Decision (P x)}
    `{forall x, Decision (Q x)} (l : list A) :
  filter P (filter Q l) = filter Q (filter P l).
Proof. rewrite !list_filter_filter. apply list_filter_iff. tauto. Qed.

(** X21.  After [delete_appointment], on a store whose records bear ids,
    the appointments listed for a date and for a patient are those listed
    before without the ones that bear the deleted id, in the same order. *)
Theorem delete_appointment_then_listed (d : disk) (appointments : list record)
    (appointment_id date patient_id : string) :
  AppointmentManager.get_all_appointments d = (Return appointments, d) ->
  appointments_path ∉ locked d ->
  Forall has_id appointments ->
  let r := AppointmentManager.delete_appointment appointment_id d in
  let kept := filter (fun a : record => a !! "id" ≠ Some appointment_id) in
  exists date_before patient_before : list record,
    r.1 = Return true
    /\ AppointmentManager.get_appointments_by_date date d = (Return date_before, d)
    /\ AppointmentManager.get_appointments_by_patient patient_id d
       = (Return patient_before, d)
    /\ AppointmentManager.get_appointments_by_date date r.2
       = (Return (kept date_before), r.2)
    /\ AppointmentManager.get_appointments_by_patient patient_id r.2
       = (Return (kept patient_before), r.2).
Proof.
  intros Hd Hw Hids r kept. unfold r, AppointmentManager.delete_appointment, bind, lift.
  rewrite Hd, (without_id_eq _ _ Hids), save_appointments_eq by done. cbn [fst snd].
  do 2 eexists.
  unfold AppointmentManager.get_appointments_by_date,
    AppointmentManager.get_appointments_by_patient, bind.
  rewrite Hd, get_all_appointments_written. unfold ret, kept.
  split_and!; try reflexivity; do 2 f_equal; apply filter_comm.
Qed.

Lemma delete_appointment_then_listed_witness :
  let d := appointment_store_of example_appointments in
  AppointmentManager.get_all_appointments d = (Return example_appointments, d)
  /\ (appointments_path ∉ locked d)
  /\ Forall has_id example_appointments
  /\ (AppointmentManager.delete_appointment "APT001" d).1 = Return true.
Proof.
  intros d.
  pose proof (get_all_appointments_store_of example_appointments) as H.
  assert (Hw : appointments_path ∉ locked d) by (apply not_elem_of_empty).
  assert (Hids : Forall has_id example_appointments)
    by (repeat constructor; eexists; vm_compute; reflexivity).
  do 3 (split; [assumption|]).
  destruct (delete_appointment_then_listed d example_appointments "APT001"
              "2026-11-05" "PAT001" H Hw Hids) as (db & pb & Hr & _).
  exact Hr.
Defined.

(** ** Doctors *)

Lemma get_all_doctors_written data d :
  DoctorManager.get_all_doctors (written doctors_path data d)
  = (Return data, written doctors_path data d).
Proof. apply (load_data_written DoctorManager.filename). Qed.

Lemma get_all_doctors_store_of doctors :
  DoctorManager.get_all_doctors (doctor_store_of doctors)
  = (Return doctors, doctor_store_of doctors).
Proof.
  unfold DoctorManager.get_all_doctors. rewrite load_data_eq.
  change (path_join FileIOManager.data_dir DoctorManager.filename) with doctors_path.
  unfold doctor_store_of. simpl. by rewrite lookup_insert_eq.
Qed.

Lemma save_doctors_eq data d :
  doctors_path ∉ locked d ->
  FileIOManager.save_data DoctorManager.filename data d
  = (Return true, written doctors_path data d).
Proof.
  intros Hw. rewrite save_data_eq.
  change (path_join FileIOManager.data_dir DoctorManager.filename) with doctors_path.
  by rewrite bool_decide_eq_false_2.
Qed.

Lemma generate_id_other data prefix :
  Forall has_id data ->
  Forall (other_id (FileIOManager.generate_id data prefix)) data.
Proof.
  intros Hids. rewrite Forall_forall in Hids |- *. intros v Hv.
  destruct (Hids v Hv) as [id_str Hid]. exists id_str. split; [done|].
  intros ->. rewrite generate_id_eq in Hid.
  by apply (above_max_unused prefix data v (max_id prefix data + 1)); [lia| |].
Qed.

(** X22.  A doctor that was deleted cannot be updated: on a store whose
    records bear ids, [update_doctor] with the id just deleted returns
    [False] and writes nothing. *)
Theorem deleted_doctor_is_not_updated (d : disk) (doctors : list record)
    (doctor_id : string) (updated_data : record) :
  DoctorManager.get_all_doctors d = (Return doctors, d) ->
  doctors_path ∉ locked d ->
  Forall has_id doctors ->
  let r := DoctorManager.delete_doctor doctor_id d in
  r.1 = Return true
  /\ DoctorManager.update_doctor doctor_id updated_data r.2 = (Return false, r.2).
Proof.
  intros Hd Hw Hids r. unfold r, DoctorManager.delete_doctor, bind, lift.
  rewrite Hd, (without_id_eq _ _ Hids), save_doctors_eq by done. cbn [fst snd].
  split; [done|].
  unfold DoctorManager.update_doctor, bind, lift.
  rewrite get_all_doctors_written, find_visit_absent; [done|].
  rewrite Forall_forall in Hids |- *. intros v Hv.
  apply list_elem_of_filter in Hv as [Hne Hv].
  destruct (Hids v Hv) as [id_str Hid]. exists id_str. split; [done|congruence].
Qed.

Lemma deleted_doctor_is_not_updated_witness :
  let d := doctor_store_of example_doctors in
  DoctorManager.get_all_doctors d = (Return example_doctors, d)
  /\ (doctors_path ∉ locked d)
  /\ Forall has_id example_doctors
  /\ (DoctorManager.delete_doctor "DOC001" d).1 = Return true.
Proof.
  intros d.
  pose proof (get_all_doctors_store_of example_doctors) as H.
  assert (Hw : doctors_path ∉ locked d) by (apply not_elem_of_empty).
  assert (Hids : Forall has_id example_doctors)
    by (repeat constructor; eexists; vm_compute; reflexivity).
  do 3 (split; [assumption|]).
  exact (proj1 (deleted_doctor_is_not_updated d example_doctors "DOC001" ∅ H Hw Hids)).
Defined.

Lemma alter_snoc {A} (f : A -> A) (l : list A) (x : A) :
  alter f (length l) (l ++ [x]) = l ++ [f x].
Proof.
  pose proof (alter_app_r f l [x] 0) as E. by rewrite Nat.add_0_r in E.
Qed.

(** X23.  An update with the id that [add_doctor] gave reaches the doctor
    just added and no older record: on a store whose records bear ids, the
    store then holds the doctors it held, unchanged, followed by the new
    record with the fields of the update laid over it. *)
Theorem added_doctor_is_updated (d : disk) (doctors : list record)
    (doctor_data updated_data : record) :
  DoctorManager.get_all_doctors d = (Return doctors, d) ->
  doctors_path ∉ locked d ->
  Forall has_id doctors ->
  let new_id := FileIOManager.generate_id doctors "DOC" in
  let r := DoctorManager.add_doctor doctor_data d in
  let r' := DoctorManager.update_doctor new_id updated_data r.2 in
  r.1 = Return true
  /\ r'.1 = Return true
  /\ (DoctorManager.get_all_doctors r'.2).1
     = Return (doctors ++ [updated_data ∪ <["id" := new_id]> doctor_data]).
Proof.
  intros Hd Hw Hids new_id r r'. unfold r', r, DoctorManager.add_doctor, bind.
  rewrite Hd, save_doctors_eq by done. cbn [fst snd]. split; [done|].
  unfold DoctorManager.update_doctor, bind, lift.
  rewrite get_all_doctors_written.
  rewrite (find_visit_first new_id 0 _ (length doctors) (<["id" := new_id]> doctor_data)).
  - cbn [fst snd]. rewrite save_doctors_eq by done. cbn [fst snd]. split; [done|].
    rewrite get_all_doctors_written. cbn [fst]. f_equal.
    change (0 + length doctors)%nat with (length doctors). by rewrite alter_snoc.
  - by rewrite lookup_app_r, Nat.sub_diag.
  - apply lookup_insert_eq.
  - intros j v Hj Hv. rewrite lookup_app_l in Hv by done.
    pose proof (generate_id_other doctors "DOC" Hids) as Hother.
    rewrite Forall_forall in Hother. apply Hother.
    apply list_elem_of_lookup. by exists j.
Qed.

Lemma added_doctor_is_updated_witness :
  let d := doctor_store_of example_doctors in
  let doctor_data : record := <["name" := "Dr Bose"]> ∅ in
  let updated_data : record := <["specialization" := "Cardiology"]> ∅ in
  DoctorManager.get_all_doctors d = (Return example_doctors, d)
  /\ (doctors_path ∉ locked d)
  /\ Forall has_id example_doctors
  /\ (DoctorManager.update_doctor (FileIOManager.generate_id example_doctors "DOC")
        updated_data (DoctorManager.add_doctor doctor_data d).2).1 = Return true.
Proof.
  intros d doctor_data updated_data.
  pose proof (get_all_doctors_store_of example_doctors) as H.
  assert (Hw : doctors_path ∉ locked d) by (apply not_elem_of_empty).
  assert (Hids : Forall has_id example_doctors)
    by (repeat constructor; eexists; vm_compute; reflexivity).
  do 3 (split; [assumption|]).
  exact (proj1 (proj2 (added_doctor_is_updated d example_doctors doctor_data
                         updated_data H Hw Hids))).
Defined.

(** ** The text of a selection: id, " - ", name *)

Lemma split_go_cons sep c s cur :
  Py.split_go sep (String c s) 0 cur
  = if String.prefix sep (String c s)
    then string_of_list_ascii (rev cur) :: Py.split_go sep s (String.length sep - 1) []
    else Py.split_go sep s 0 (c :: cur).
Proof. reflexivity. Qed.

Lemma prefix_sep_other c s : c ≠ " "%char -> String.prefix " - " (String c s) = false.
Proof.
  intros Hc. destruct (String.prefix " - " (String c s)) eqn:E; [|done].
  apply prefix_spec in E as [b E]. rewrite !string_app_cons in E. congruence.
Qed.

Lemma split_go_none s : forall cur,
  Py.contains " - " s = false ->
  Py.split_go " - " s 0 cur = [string_of_list_ascii (rev cur ++ list_ascii_of_string s)].
Proof.
  induction s as [|c s IH]; intros cur H.
  - simpl. by rewrite app_nil_r.
  - rewrite contains_cons in H. apply orb_false_iff in H as [Hp Hc].
    rewrite split_go_cons, Hp, (IH _ Hc). simpl. by rewrite <- app_assoc.
Qed.

Lemma split_go_id a b : forall cur,
  Forall (fun c => c ≠ " "%char) (list_ascii_of_string a) ->
  Py.split_go " - " (a +:+ " - " +:+ b) 0 cur
  = string_of_list_ascii (rev cur ++ list_ascii_of_string a) :: Py.split_go " - " b 0 [].
Proof.
  induction a as [|c a IH]; intros cur Ha.
  - pose proof (prefix_app " - " b) as E.
    change ("" +:+ " - " +:+ b) with (String " " (String "-" (String " " b))).
    change (String.prefix " - " (String " " (String "-" (String " " b))) = true) in E.
    rewrite split_go_cons, E. simpl. by rewrite app_nil_r.
  - apply Forall_cons in Ha as [Hc Ha].
    rewrite string_app_cons, split_go_cons, prefix_sep_other by done.
    rewrite (IH _ Ha). simpl. by rewrite <- app_assoc.
Qed.

Lemma split_selection patient_id patient_name :
  Forall (fun c => c ≠ " "%char) (list_ascii_of_string patient_id) ->
  Py.split (patient_id +:+ " - " +:+ patient_name) " - "
  = patient_id :: Py.split patient_name " - ".
Proof.
  intros H. unfold Py.split. rewrite (split_go_id _ _ [] H). simpl.
  by rewrite string_of_list_ascii_of_string.
Qed.

(** X24.  The quick check-in stores the visit under the patient selected:
    the selection reads id, " - ", name, and for an id without a space the
    visit is stored with that id as its [patient_id], whatever the name
    holds, and is then the last of the visits listed for that patient. *)
Theorem quick_checkin_stores_selected_patient (d : disk) (visits : list record)
    (patient_id patient_name complaint_text quick_priority : string)
    (now_date now_time : datetime) :
  OPDManager.get_all_visits d = (Return visits, d) ->
  visits_path ∉ locked d ->
  Forall (fun c => c ≠ " "%char) (list_ascii_of_string patient_id) ->
  Py.strip complaint_text ≠ "" ->
  let r := OPDUI.quick_checkin (patient_id +:+ " - " +:+ patient_name) complaint_text
             quick_priority now_date now_time d in
  r.1 = Return (OPDUI.Box (OPDUI.InfoBox "Patient checked in successfully!"))
  /\ exists (stored : record) (before : list record),
       OPDManager.get_visits_by_patient patient_id d = (Return before, d)
       /\ OPDManager.get_visits_by_patient patient_id r.2
          = (Return (before ++ [stored]), r.2)
       /\ stored !! "patient_id" = Some patient_id
       /\ stored !! "status" = Some "Waiting"
       /\ stored !! "chief_complaint" = Some (Py.strip complaint_text).
Proof.
  intros Hd Hw Hid Hc r. unfold r, OPDUI.quick_checkin.
  rewrite bool_decide_eq_false_2.
  2:{ intros E. apply (f_equal (fun s => Py.split s " - ")) in E.
      rewrite split_selection in E by done.
      injection E as E _. subst patient_id.
      apply Forall_forall with (x := " "%char) in Hid; [done|].
      do 2 right. left. }
  destruct (String.eqb_spec (Py.strip complaint_text) "") as [|_]; [done|].
  unfold try_except, bind.
  rewrite (add_visit_eq _ _ _ _ _ Hd), bool_decide_eq_false_2 by done.
  cbn [fst snd ret OPDUI.any_exception]. split; [reflexivity|].
  rewrite split_selection by done. cbn [head default].
  set (visit_data := <["chief_complaint" := _]> _).
  destruct (stamped_fields visits visit_data now_date now_time) as (_ & _ & Hother).
  exists (stamped visits visit_data now_date now_time). eexists.
  unfold OPDManager.get_visits_by_patient, bind.
  rewrite Hd, get_all_visits_written. unfold ret.
  split_and!;
    [reflexivity| |by rewrite Hother|by rewrite Hother|by rewrite Hother].
  do 2 f_equal. rewrite filter_snoc, decide_True; [done|]. by rewrite Hother.
Qed.

Lemma quick_checkin_stores_selected_patient_witness :
  let d := store_of example_visits in
  let now := Datetime 2026 11 3 9 20 30 0 in
  OPDManager.get_all_visits d = (Return example_visits, d)
  /\ (visits_path ∉ locked d)
  /\ Forall (fun c => c ≠ " "%char) (list_ascii_of_string "PAT007")
  /\ Py.strip "Cough" ≠ ""
  /\ (OPDUI.quick_checkin ("PAT007" +:+ " - " +:+ "Jane - Roe") "Cough" "Low" now now d).1
     = Return (OPDUI.Box (OPDUI.InfoBox "Patient checked in successfully!")).
Proof.
  intros d now.
  pose proof (get_all_visits_store_of example_visits) as H.
  assert (Hw : visits_path ∉ locked d) by (apply not_elem_of_empty).
  assert (Hid : Forall (fun c => c ≠ " "%char) (list_ascii_of_string "PAT007"))
    by (repeat constructor; discriminate).
  assert (Hc : Py.strip "Cough" ≠ "") by (vm_compute; discriminate).
  do 4 (split; [assumption|]).
  exact (proj1 (quick_checkin_stores_selected_patient d example_visits "PAT007"
                  "Jane - Roe" "Cough" "Low" now now H Hw Hid Hc)).
Defined.

Lemma drop_while_app_all {A} (p : A -> bool) (l1 l2 : list A) :
  Forall (fun x => p x = true) l1 ->
  Py.drop_while p (l1 ++ l2) = Py.drop_while p l2.
Proof. induction 1 as [|x l Hx _ IH]; simpl; [done|by rewrite Hx]. Qed.

Lemma strip_with_fixed (p : ascii -> bool) (l l1 l2 : list ascii) (x y : ascii) :
  l = x :: l1 -> l = l2 ++ [y] -> p x = false -> p y = false -> Py.strip_with p l = l.
Proof.
  intros E1 E2 Hx Hy. unfold Py.strip_with.
  replace (Py.drop_while p l) with l by (rewrite E1; simpl; by rewrite Hx).
  rewrite E2, rev_app_distr. simpl. rewrite Hy.
  change (rev (y :: rev l2)) with (rev (rev l2) ++ [y]). by rewrite rev_involutive.
Qed.

Lemma not_space_other (l : list ascii) :
  Forall (fun c => Py.is_space c = false) l -> Forall (fun c => c ≠ " "%char) l.
Proof. intros H. eapply Forall_impl; [exact H|]. by intros c Hc ->. Qed.

Lemma strip_selection patient_id patient_name (y : ascii) :
  patient_id ≠ "" ->
  Forall (fun c => Py.is_space c = false) (list_ascii_of_string patient_id) ->
  last (list_ascii_of_string patient_name) = Some y -> Py.is_space y = false ->
  Py.strip (patient_id +:+ " - " +:+ patient_name)
  = patient_id +:+ " - " +:+ patient_name.
Proof.
  intros Hne Hid Hlast Hy. unfold Py.strip.
  destruct patient_id as [|x id']; [done|].
  apply last_Some in Hlast as [n0 Hn0].
  rewrite (strip_with_fixed _ _
             (list_ascii_of_string (id' +:+ " - " +:+ patient_name))
             (list_ascii_of_string (String x id' +:+ " - ") ++ n0) x y).
  - apply string_of_list_ascii_of_string.
  - reflexivity.
  - rewrite (list_ascii_app (String x id')), (list_ascii_app " - "), Hn0.
    rewrite (list_ascii_app (String x id') " - "). by rewrite <- !app_assoc.
  - by apply Forall_cons in Hid as [Hx _].
  - done.
Qed.

(** X25.  The visit form reads back the selection it was given: for a
    patient selection made of an id without white space, " - " and a name
    that holds no " - " and ends with a visible character, the data of the
    form have that id as [patient_id] and that name as [patient_name]. *)
Theorem form_reads_selection (form : OPDUI.visit_form)
    (patient_id patient_name : string) (y : ascii) :
  OPDUI.patient_id_var form = patient_id +:+ " - " +:+ patient_name ->
  patient_id ≠ "" ->
  Forall (fun c => Py.is_space c = false) (list_ascii_of_string patient_id) ->
  Py.contains " - " patient_name = false ->
  last (list_ascii_of_string patient_name) = Some y -> Py.is_space y = false ->
  OPDUI.get_visit_form_data form !! "patient_id" = Some patient_id
  /\ OPDUI.get_visit_form_data form !! "patient_name" = Some patient_name.
Proof.
  intros Hsel Hne Hid Hname Hlast Hy.
  assert (Hsplit : Py.split (patient_id +:+ " - " +:+ patient_name) " - "
                   = [patient_id; patient_name]).
  { rewrite split_selection by by apply not_space_other.
    unfold Py.split. rewrite (split_go_none _ [] Hname). simpl.
    by rewrite string_of_list_ascii_of_string. }
  assert (Hin : Py.contains " - " (patient_id +:+ " - " +:+ patient_name) = true)
    by (apply contains_spec; by exists patient_id, patient_name).
  unfold OPDUI.get_visit_form_data. split.
  - rewrite !lookup_insert_ne, !set_name_other, !lookup_insert_ne by done.
    rewrite lookup_insert_eq. f_equal. unfold OPDUI.combo_id.
    rewrite Hsel, (strip_selection _ _ y), Hin, Hsplit by done.
    destruct (String.eqb_spec (patient_id +:+ " - " +:+ patient_name) "") as [E|_];
      [|done].
    destruct patient_id; [done|discriminate E].
  - rewrite !lookup_insert_ne, set_name_other by done.
    unfold OPDUI.set_name at 1. rewrite Hsel, Hin, Hsplit. cbn [lookup list_lookup].
    apply lookup_insert_eq.
Qed.

Lemma form_reads_selection_witness :
  let form := OPDUI.VisitForm "PAT001 - Asha Rao" "DOC002 - Dr Sen" "OPD Consultation"
                "High" "Waiting" "" "250" "Fever" "" "" "" "" in
  OPDUI.patient_id_var form = "PAT001" +:+ " - " +:+ "Asha Rao"
  /\ "PAT001" ≠ ""
  /\ Forall (fun c => Py.is_space c = false) (list_ascii_of_string "PAT001")
  /\ Py.contains " - " "Asha Rao" = false
  /\ last (list_ascii_of_string "Asha Rao") = Some "o"%char
  /\ Py.is_space "o" = false
  /\ OPDUI.get_visit_form_data form !! "patient_id" = Some "PAT001".
Proof.
  intros form.
  assert (H1 : OPDUI.patient_id_var form = "PAT001" +:+ " - " +:+ "Asha Rao")
    by reflexivity.
  assert (H2 : "PAT001" ≠ "") by discriminate.
  assert (H3 : Forall (fun c => Py.is_space c = false) (list_ascii_of_string "PAT001"))
    by (repeat constructor).
  assert (H4 : Py.contains " - " "Asha Rao" = false) by (vm_compute; reflexivity).
  assert (H5 : last (list_ascii_of_string "Asha Rao") = Some "o"%char) by reflexivity.
  assert (H6 : Py.is_space "o" = false) by reflexivity.
  do 6 (split; [assumption|]).
  exact (proj1 (form_reads_selection form "PAT001" "Asha Rao" "o" H1 H2 H3 H4 H5 H6)).
Defined.

Lemma contains_sep_id_dash patient_id :
  Forall (fun c => c ≠ " "%char) (list_ascii_of_string patient_id) ->
  Py.contains " - " (patient_id +:+ " -") = false.
Proof.
  induction patient_id as [|c s IH]; intros H; [reflexivity|].
  apply Forall_cons in H as [Hc H].
  rewrite string_app_cons, contains_cons, prefix_sep_other, (IH H) by done. done.
Qed.

Lemma strip_nameless patient_id patient_name :
  patient_id ≠ "" ->
  Forall (fun c => Py.is_space c = false) (list_ascii_of_string patient_id) ->
  Forall (fun c => Py.is_space c = true) (list_ascii_of_string patient_name) ->
  Py.strip (patient_id +:+ " - " +:+ patient_name) = patient_id +:+ " -".
Proof.
  intros Hne Hid Hname. unfold Py.strip, Py.strip_with.
  destruct patient_id as [|x id']; [done|].
  apply Forall_cons in Hid as [Hx Hid].
  rewrite !list_ascii_app.
  change (list_ascii_of_string (String x id')) with (x :: list_ascii_of_string id').
  change (list_ascii_of_string " - ") with [" "%char; "-"%char; " "%char].
  cbn [app Py.drop_while]. rewrite Hx.
  change (x :: list_ascii_of_string id' ++ " "%char :: "-"%char :: " "%char
            :: list_ascii_of_string patient_name)
    with ((x :: list_ascii_of_string id') ++ [" "%char; "-"%char]
            ++ " "%char :: list_ascii_of_string patient_name).
  rewrite !rev_app_distr. change (rev (" "%char :: list_ascii_of_string patient_name))
    with (rev (list_ascii_of_string patient_name) ++ [" "%char]).
  rewrite <- !app_assoc, drop_while_app_all by by apply Forall_rev.
  change (Py.drop_while Py.is_space ([" "%char] ++ rev [" "%char; "-"%char]
                                      ++ rev (x :: list_ascii_of_string id')))
    with ("-"%char :: " "%char :: rev (x :: list_ascii_of_string id')).
  change ("-"%char :: " "%char :: rev (x :: list_ascii_of_string id'))
    with (rev [" "%char; "-"%char] ++ rev (x :: list_ascii_of_string id')).
  rewrite <- rev_app_distr, rev_involutive.
  change [" "%char; "-"%char] with (list_ascii_of_string " -").
  change (x :: list_ascii_of_string id') with (list_ascii_of_string (String x id')).
  by rewrite <- list_ascii_app, string_of_list_ascii_of_string.
Qed.

(** X26.  A selection whose name is empty or white space only is not read
    back: the form strips the text before it looks for " - ", the separator
    loses its last space, and the [patient_id] of the data is the id
    followed by " -". *)
Theorem form_misreads_nameless_selection (form : OPDUI.visit_form)
    (patient_id patient_name : string) :
  OPDUI.patient_id_var form = patient_id +:+ " - " +:+ patient_name ->
  patient_id ≠ "" ->
  Forall (fun c => Py.is_space c = false) (list_ascii_of_string patient_id) ->
  Forall (fun c => Py.is_space c = true) (list_ascii_of_string patient_name) ->
  OPDUI.get_visit_form_data form !! "patient_id" = Some (patient_id +:+ " -").
Proof.
  intros Hsel Hne Hid Hname. unfold OPDUI.get_visit_form_data.
  rewrite !lookup_insert_ne, !set_name_other, !lookup_insert_ne by done.
  rewrite lookup_insert_eq. f_equal. unfold OPDUI.combo_id.
  rewrite Hsel, strip_nameless, contains_sep_id_dash by (done || by apply not_space_other).
  by rewrite andb_false_r.
Qed.

Lemma form_misreads_nameless_selection_witness :
  let form := OPDUI.VisitForm "PAT001 - " "DOC002 - Dr Sen" "OPD Consultation"
                "High" "Waiting" "" "250" "Fever" "" "" "" "" in
  OPDUI.patient_id_var form = "PAT001" +:+ " - " +:+ ""
  /\ "PAT001" ≠ ""
  /\ Forall (fun c => Py.is_space c = false) (list_ascii_of_string "PAT001")
  /\ Forall (fun c => Py.is_space c = true) (list_ascii_of_string "")
  /\ OPDUI.get_visit_form_data form !! "patient_id" = Some "PAT001 -".
Proof.
  intros form.
  assert (H1 : OPDUI.patient_id_var form = "PAT001" +:+ " - " +:+ "") by reflexivity.
  assert (H2 : "PAT001" ≠ "") by discriminate.
  assert (H3 : Forall (fun c => Py.is_space c = false) (list_ascii_of_string "PAT001"))
    by (repeat constructor).
  assert (H4 : Forall (fun c => Py.is_space c = true) (list_ascii_of_string ""))
    by constructor.
  do 4 (split; [assumption|]).
  exact (form_misreads_nameless_selection form "PAT001" "" H1 H2 H3 H4).
Defined.
